(** * Boot-Controller: the boot-entry inventory and mutation engine

    A shallow embedding of [OS_Controller.py] (GRUB / UEFI, module [Linux])
    and of [OS_Controller_Windows.py] (BCD, module [Windows]), with the
    properties of the specification stated over it.

    Conventions of the embedding.
    - A Python [str] is a Rocq [string]; a character outside ASCII stands
      for the bytes of its UTF-8 encoding.  The character classes of the
      source ([str.isspace], [str.isdigit], the line boundaries of
      [str.splitlines], [\s] of [re]) are the ASCII members of the Python
      classes.  The [bytes] that [check_output] returns are a [string] as
      well, and [decode()] is the check that they are well-formed UTF-8.
    - External programs, the file system and the operator are the
      environment: a record of oracles [Env] for the processes and files,
      and scripted replies to the modal dialogs in the state.
    - A method of the source is a computation in the monad [M]: it threads
      the state of the application, and ends with a value, with a Python
      exception leaving the function, or blocked on a modal dialog that the
      operator has not answered yet. *)

From Stdlib Require Import Ascii ZArith Lia Bool Decimal DecimalNat DecimalString Permutation.
From Stdlib Require String.
From stdpp Require Import gmap strings list.

(** ** Python string primitives *)

Module Py.

Definition LF : ascii := "010"%char.
Definition CR : ascii := "013"%char.

(** [c.isspace()] on ASCII: TAB, LF, VT, FF, CR, FS, GS, RS, US and space. *)
Definition isspace (c : ascii) : bool :=
  let n := nat_of_ascii c in
  ((9 <=? n) && (n <=? 13)) || ((28 <=? n) && (n <=? 32)).

(** A line boundary of [str.splitlines]: LF, VT, FF, CR, FS, GS, RS. *)
Definition is_linebreak (c : ascii) : bool :=
  let n := nat_of_ascii c in
  ((10 <=? n) && (n <=? 13)) || ((28 <=? n) && (n <=? 30)).

Definition is_digit (c : ascii) : bool :=
  let n := nat_of_ascii c in (48 <=? n) && (n <=? 57).

(** [[0-9A-Fa-f]] *)
Definition is_hex (c : ascii) : bool :=
  let n := nat_of_ascii c in
  is_digit c || ((65 <=? n) && (n <=? 70)) || ((97 <=? n) && (n <=? 102)).

Definition snoc (s : string) (c : ascii) : string := s +:+ String c "".

Definition is_empty (s : string) : bool :=
  match s with "" => true | _ => false end.

(** [s.isdigit()]: at least one character, all of them digits. *)
Fixpoint all_digits (s : string) : bool :=
  match s with
  | "" => true
  | String c s' => is_digit c && all_digits s'
  end.

Definition isdigit (s : string) : bool := negb (is_empty s) && all_digits s.

(** [s.startswith(p)], giving the rest of [s] after [p]. *)
Fixpoint strip_prefix (p s : string) : option string :=
  match p, s with
  | "", _ => Some s
  | String a p', String b s' =>
      if Ascii.eqb a b then strip_prefix p' s' else None
  | String _ _, "" => None
  end.

Definition startswith (s p : string) : bool :=
  match strip_prefix p s with Some _ => true | None => false end.

(** [p in s] *)
Fixpoint contains (p s : string) : bool :=
  startswith s p ||
  match s with
  | "" => false
  | String _ s' => contains p s'
  end.

Fixpoint lstrip (s : string) : string :=
  match s with
  | String c s' => if isspace c then lstrip s' else s
  | "" => ""
  end.

Fixpoint rstrip (s : string) : string :=
  match s with
  | "" => ""
  | String c s' =>
      match rstrip s' with
      | "" => if isspace c then "" else String c ""
      | r => String c r
      end
  end.

Definition strip (s : string) : string := rstrip (lstrip s).

(** [s.split(sep)] for a separator of one character: never empty. *)
Fixpoint split_from (sep : ascii) (cur s : string) : list string :=
  match s with
  | "" => [cur]
  | String c s' =>
      if Ascii.eqb c sep then cur :: split_from sep "" s'
      else split_from sep (snoc cur c) s'
  end.

Definition split (sep : ascii) (s : string) : list string := split_from sep "" s.

(** [s.splitlines()]: the lines without their terminators; CR LF is one
    terminator; no empty last line after a final terminator. *)
Fixpoint splitlines_from (cur s : string) : list string :=
  match s with
  | "" => if is_empty cur then [] else [cur]
  | String c s' =>
      if Ascii.eqb c CR then
        match s' with
        | String c2 s2 =>
            if Ascii.eqb c2 LF then cur :: splitlines_from "" s2
            else cur :: splitlines_from "" s'
        | "" => [cur]
        end
      else if is_linebreak c then cur :: splitlines_from "" s'
      else splitlines_from (snoc cur c) s'
  end.

Definition splitlines (s : string) : list string := splitlines_from "" s.

(** Iterating over a text file: each line keeps its final LF, the last one
    may lack it. *)
Fixpoint file_lines_from (cur s : string) : list string :=
  match s with
  | "" => if is_empty cur then [] else [cur]
  | String c s' =>
      if Ascii.eqb c LF then snoc cur c :: file_lines_from "" s'
      else file_lines_from (snoc cur c) s'
  end.

Definition file_lines (s : string) : list string := file_lines_from "" s.

(** [sep.join(l)] *)
Fixpoint join (sep : string) (l : list string) : string :=
  match l with
  | [] => ""
  | [x] => x
  | x :: l' => x +:+ sep +:+ join sep l'
  end.

(** [str(n)] for a non-negative integer. *)
Definition str (n : nat) : string := NilEmpty.string_of_uint (Nat.to_uint n).

(** [s.replace(old, "")] for a non-empty [old]: the occurrences of [old],
    found from the left and not overlapping, are removed.  [skip] counts
    the characters of the occurrence being removed that are still ahead. *)
Fixpoint remove_from (old : string) (skip : nat) (s : string) : string :=
  match s with
  | "" => ""
  | String c s' =>
      match skip with
      | S k => remove_from old k s'
      | O =>
          if startswith s old then remove_from old (String.length old - 1) s'
          else String c (remove_from old 0 s')
      end
  end.

Definition remove_all (old s : string) : string := remove_from old 0 s.

(** [s.lower()] on ASCII letters. *)
Definition lower_char (c : ascii) : ascii :=
  let n := nat_of_ascii c in
  if (65 <=? n) && (n <=? 90) then ascii_of_nat (n + 32) else c.

Fixpoint lower (s : string) : string :=
  match s with
  | "" => ""
  | String c s' => String (lower_char c) (lower s')
  end.

(** *** [bytes.decode()]

    The bytes that a process wrote are a [string] too; [b.decode()] checks
    that they are well-formed UTF-8 (the default codec, [errors='strict'])
    and gives them back as text.  The first fault is reported as the
    decoder of CPython does: the positions [start, stop) of the bytes at
    fault and the reason. *)
Record decode_fault := Fault { fault_start : nat; fault_stop : nat; fault_reason : string }.

(** A continuation byte, [10xxxxxx]. *)
Definition is_continuation (c : ascii) : bool :=
  let n := nat_of_ascii c in (128 <=? n) && (n <=? 191).

Definition unexpected_end (pos len : nat) : option decode_fault :=
  Some (Fault pos (pos + len) "unexpected end of data").

Definition invalid_continuation (pos len : nat) : option decode_fault :=
  Some (Fault pos (pos + len) "invalid continuation byte").

Definition invalid_start (pos : nat) : option decode_fault :=
  Some (Fault pos (pos + 1) "invalid start byte").

Fixpoint utf8_fault (pos : nat) (b : string) : option decode_fault :=
  match b with
  | "" => None
  | String c1 rest1 =>
      let n1 := nat_of_ascii c1 in
      if n1 <? 128 then utf8_fault (pos + 1) rest1
      else if n1 <? 194 then invalid_start pos
      else if n1 <? 224 then
        (* two bytes: C2..DF 80..BF *)
        match rest1 with
        | "" => unexpected_end pos 1
        | String c2 rest2 =>
            if is_continuation c2 then utf8_fault (pos + 2) rest2
            else invalid_continuation pos 1
        end
      else if n1 <? 240 then
        (* three bytes: no overlong form after E0, no surrogate after ED *)
        match rest1 with
        | "" => unexpected_end pos 1
        | String c2 rest2 =>
            let n2 := nat_of_ascii c2 in
            if negb (is_continuation c2)
               || (if n2 <? 160 then n1 =? 224 else n1 =? 237)
            then invalid_continuation pos 1
            else
              match rest2 with
              | "" => unexpected_end pos 2
              | String c3 rest3 =>
                  if is_continuation c3 then utf8_fault (pos + 3) rest3
                  else invalid_continuation pos 2
              end
        end
      else if n1 <? 245 then
        (* four bytes: no overlong form after F0, nothing past U+10FFFF *)
        match rest1 with
        | "" => unexpected_end pos 1
        | String c2 rest2 =>
            let n2 := nat_of_ascii c2 in
            if negb (is_continuation c2)
               || (if n2 <? 144 then n1 =? 240 else n1 =? 244)
            then invalid_continuation pos 1
            else
              match rest2 with
              | "" => unexpected_end pos 2
              | String c3 rest3 =>
                  if negb (is_continuation c3) then invalid_continuation pos 2
                  else
                    match rest3 with
                    | "" => unexpected_end pos 3
                    | String c4 rest4 =>
                        if is_continuation c4 then utf8_fault (pos + 4) rest4
                        else invalid_continuation pos 3
                    end
              end
        end
      else invalid_start pos
  end.

(** ['%02x' % n] for a byte. *)
Definition hex_digit (n : nat) : ascii :=
  if n <? 10 then ascii_of_nat (48 + n) else ascii_of_nat (87 + n).

Definition hex2 (c : ascii) : string :=
  let n := nat_of_ascii c in
  String (hex_digit (n / 16)) (String (hex_digit (n mod 16)) "").

(** [str(e)] of the [UnicodeDecodeError] for the fault [f] in [b]. *)
Definition decode_error_text (b : string) (f : decode_fault) : string :=
  if fault_stop f =? fault_start f + 1 then
    "'utf-8' codec can't decode byte 0x" +:+
    match String.get (fault_start f) b with
    | Some c => hex2 c
    | None => ""
    end +:+
    " in position " +:+ str (fault_start f) +:+ ": " +:+ fault_reason f
  else
    "'utf-8' codec can't decode bytes in position " +:+ str (fault_start f) +:+
    "-" +:+ str (fault_stop f - 1) +:+ ": " +:+ fault_reason f.

End Py.

(** ** The runtime: exceptions, processes, files, the application state *)

(** The exception classes the code meets.  All of them derive from
    [Exception]. *)
Inductive exn_class :=
  | FileNotFoundError
  | PermissionError
  | OSError
  | UnicodeDecodeError
  | CalledProcessError (stderr : option string)
  | IndexError
  | KeyError.

(** An exception with the text [str(e)] gives. *)
Record exn := Exn { exn_cls : exn_class; exn_str : string }.

(** What [subprocess.run(argv, input=..., capture_output=True, text=True)]
    hands back once the child has exited. *)
Record CompletedProcess := {
  returncode : Z;
  stdout : string;
  stderr : string
}.

Inductive run_outcome :=
  | Completed (p : CompletedProcess)
  | Failed (e : exn).

(** One process started by the application: its command line and the text
    wired to its standard input, if any. *)
Record call := Call { argv : list string; input : option string }.

(** Reading a text file line by line: [open] fails, or the lines of [text]
    are delivered and then, if [broken], the iteration raises. *)
Inductive file_read :=
  | OpenFails (e : exn)
  | Opened (text : string) (broken : option exn).

(** The machine around the application.  The outcome of a process may
    depend on the processes run before it. *)
Record Env := {
  path_exists : string -> bool;
  run_process : list call -> call -> run_outcome;
  open_text : string -> file_read
}.

Inductive level := INFO | ERROR.

(** The message boxes and input dialogs of the presentation layer. *)
Inductive dialog :=
  | Warning (title text : string)
  | Critical (title text : string)
  | Information (title text : string)
  | Question (title text : string)
  | GetText (title label : string).

Record item := Item { item_text : string; item_default : bool }.

(** The state of the application: the module global [sudo_password], the
    fields of the [OSBootSelector] widget, what has been observed of it
    (processes started, dialogs shown, log records), and the replies the
    operator will give to the modal dialogs, in order. *)
Record State := {
  sudo_password : option string;
  entry_map : gmap string string;
  list_widget : list item;
  selection : option nat;
  spawned : list call;
  shown : list dialog;
  logged : list (level * string);
  confirm_replies : list bool;
  password_replies : list (string * bool)
}.

Definition with_sudo_password (v : option string) (st : State) : State :=
  {| sudo_password := v; entry_map := entry_map st;
     list_widget := list_widget st; selection := selection st;
     spawned := spawned st; shown := shown st; logged := logged st;
     confirm_replies := confirm_replies st;
     password_replies := password_replies st |}.

Definition with_entry_map (v : gmap string string) (st : State) : State :=
  {| sudo_password := sudo_password st; entry_map := v;
     list_widget := list_widget st; selection := selection st;
     spawned := spawned st; shown := shown st; logged := logged st;
     confirm_replies := confirm_replies st;
     password_replies := password_replies st |}.

Definition with_list_widget (v : list item) (st : State) : State :=
  {| sudo_password := sudo_password st; entry_map := entry_map st;
     list_widget := v; selection := selection st;
     spawned := spawned st; shown := shown st; logged := logged st;
     confirm_replies := confirm_replies st;
     password_replies := password_replies st |}.

Definition with_selection (v : option nat) (st : State) : State :=
  {| sudo_password := sudo_password st; entry_map := entry_map st;
     list_widget := list_widget st; selection := v;
     spawned := spawned st; shown := shown st; logged := logged st;
     confirm_replies := confirm_replies st;
     password_replies := password_replies st |}.

Definition with_spawned (v : list call) (st : State) : State :=
  {| sudo_password := sudo_password st; entry_map := entry_map st;
     list_widget := list_widget st; selection := selection st;
     spawned := v; shown := shown st; logged := logged st;
     confirm_replies := confirm_replies st;
     password_replies := password_replies st |}.

Definition with_shown (v : list dialog) (st : State) : State :=
  {| sudo_password := sudo_password st; entry_map := entry_map st;
     list_widget := list_widget st; selection := selection st;
     spawned := spawned st; shown := v; logged := logged st;
     confirm_replies := confirm_replies st;
     password_replies := password_replies st |}.

Definition with_logged (v : list (level * string)) (st : State) : State :=
  {| sudo_password := sudo_password st; entry_map := entry_map st;
     list_widget := list_widget st; selection := selection st;
     spawned := spawned st; shown := shown st; logged := v;
     confirm_replies := confirm_replies st;
     password_replies := password_replies st |}.

Definition with_confirm_replies (v : list bool) (st : State) : State :=
  {| sudo_password := sudo_password st; entry_map := entry_map st;
     list_widget := list_widget st; selection := selection st;
     spawned := spawned st; shown := shown st; logged := logged st;
     confirm_replies := v;
     password_replies := password_replies st |}.

Definition with_password_replies (v : list (string * bool)) (st : State) : State :=
  {| sudo_password := sudo_password st; entry_map := entry_map st;
     list_widget := list_widget st; selection := selection st;
     spawned := spawned st; shown := shown st; logged := logged st;
     confirm_replies := confirm_replies st;
     password_replies := v |}.

(** The state at start-up: [sudo_password = None], [self.entry_map = {}],
    nothing selected, nothing observed yet. *)
Definition fresh (confirms : list bool) (passwords : list (string * bool)) : State :=
  {| sudo_password := None; entry_map := ∅; list_widget := [];
     selection := None; spawned := []; shown := []; logged := [];
     confirm_replies := confirms; password_replies := passwords |}.

(** *** The monad of the methods *)

Inductive res (A : Type) :=
  | Ret (a : A)
  | Raise (e : exn)
  | Blocked.
Arguments Ret {A} a.
Arguments Raise {A} e.
Arguments Blocked {A}.

Definition M (A : Type) : Type := State -> res A * State.

#[global] Instance M_ret : MRet M := fun A a st => (Ret a, st).

#[global] Instance M_bind : MBind M := fun A B f m st =>
  match m st with
  | (Ret a, st') => f a st'
  | (Raise e, st') => (Raise e, st')
  | (Blocked, st') => (Blocked, st')
  end.

Definition raise {A} (e : exn) : M A := fun st => (Raise e, st).
Definition blocked {A} : M A := fun st => (Blocked, st).
Definition get : M State := fun st => (Ret st, st).
Definition modify (f : State -> State) : M unit := fun st => (Ret tt, f st).

(** [try: m except <clauses>]: [handler e] is the body of the first clause
    that catches [e], if there is one. *)
Definition try_except {A} (m : M A) (handler : exn -> option (M A)) : M A :=
  fun st =>
    match m st with
    | (Raise e, st') =>
        match handler e with
        | Some h => h st'
        | None => (Raise e, st')
        end
    | r => r
    end.

Definition log (lv : level) (msg : string) : M unit :=
  modify (fun st => with_logged (logged st ++ [(lv, msg)]) st).

Definition show (d : dialog) : M unit :=
  modify (fun st => with_shown (shown st ++ [d]) st).

Definition nl : string := String Py.LF "".

(** [subprocess.run]: the attempt is recorded, then the environment decides
    whether the child ran to completion or could not be run. *)
Definition subprocess_run (env : Env) (args : list string) (inp : option string)
  : M CompletedProcess :=
  fun st =>
    let c := Call args inp in
    let st' := with_spawned (spawned st ++ [c]) st in
    match run_process env (spawned st) c with
    | Completed p => (Ret p, st')
    | Failed e => (Raise e, st')
    end.

(** [repr] of a list of strings without quotes or backslashes inside. *)
Definition repr_list (l : list string) : string :=
  "[" +:+ Py.join ", " (map (fun s => "'" +:+ s +:+ "'") l) +:+ "]".

(** [subprocess.check_output(argv)]: standard output of the child, or
    [CalledProcessError] when it exits with a non-zero status (the text is
    the one Python gives for a positive status). *)
Definition check_output (env : Env) (args : list string) : M string :=
  p ← subprocess_run env args None;
  if (returncode p =? 0)%Z then mret (stdout p)
  else raise (Exn (CalledProcessError None)
                ("Command '" +:+ repr_list args +:+
                 "' returned non-zero exit status " +:+
                 NilEmpty.string_of_int (Z.to_int (returncode p)) +:+ ".")).

(** [b.decode()] *)
Definition decode (b : string) : M string :=
  match Py.utf8_fault 0 b with
  | None => mret b
  | Some f => raise (Exn UnicodeDecodeError (Py.decode_error_text b f))
  end.

(** [QMessageBox.question(..., Yes | No) == Yes] *)
Definition question (title text : string) : M bool :=
  show (Question title text);;
  st ← get;
  match confirm_replies st with
  | [] => blocked
  | b :: rest => modify (with_confirm_replies rest);; mret b
  end.

(** [QInputDialog.getText(...)]: the text entered and whether the dialog
    was accepted. *)
Definition get_text (title label : string) : M (string * bool) :=
  show (GetText title label);;
  st ← get;
  match password_replies st with
  | [] => blocked
  | r :: rest => modify (with_password_replies rest);; mret r
  end.

(** Truth value of an optional string: [None] and [""] are false. *)
Definition truthy (o : option string) : bool :=
  match o with
  | Some s => negb (Py.is_empty s)
  | None => false
  end.

(** [(success, error_msg)] as [run_sudo_command] returns it. *)
Definition CommandResult : Type := bool * option string.

(** A call that goes through the elevation mechanism. *)
Definition privileged (c : call) : bool :=
  match argv c with
  | "sudo" :: _ | "runas" :: _ => true
  | _ => false
  end.

(** ** OS_Controller.py *)

Module Linux.

Definition GRUB_CFG_PATH : string := "/boot/grub/grub.cfg".

(** *** The patterns *)

(** [[^']+'] at the head of [s]: the characters before the first quote. *)
Fixpoint until_quote (s : string) : option string :=
  match s with
  | "" => None
  | String c s' =>
      if Ascii.eqb c "'" then Some ""
      else match until_quote s' with
           | Some t => Some (String c t)
           | None => None
           end
  end.

(** [menuentry '([^']+)'] matched at the head of [s]: group 1. *)
Definition match_menuentry (s : string) : option string :=
  match Py.strip_prefix "menuentry '" s with
  | Some rest =>
      match until_quote rest with
      | Some (String c t) => Some (String c t)
      | _ => None
      end
  | None => None
  end.

(** [re.search(r"menuentry '([^']+)'", line)]: group 1 of the leftmost match. *)
Fixpoint search_menuentry (line : string) : option string :=
  match match_menuentry line with
  | Some t => Some t
  | None =>
      match line with
      | "" => None
      | String _ rest => search_menuentry rest
      end
  end.

(** [(.+)]: as many characters as there are before a line feed. *)
Fixpoint dot_plus (s : string) : string :=
  match s with
  | "" => ""
  | String c s' => if Ascii.eqb c Py.LF then "" else String c (dot_plus s')
  end.

(** [\s+(.+)] at the head of [s]: group 2.  [\s+] is greedy and gives
    characters back only when [(.+)] finds nothing after it. *)
Fixpoint spaces_then_name (s : string) : option string :=
  match s with
  | "" => None
  | String c s' =>
      if Py.isspace c then
        match spaces_then_name s' with
        | Some g => Some g
        | None =>
            match dot_plus s' with
            | "" => None
            | g => Some g
            end
        end
      else None
  end.

(** [Boot([0-9A-Fa-f]{4})\*?\s+(.+)] matched at the head of [s]: groups 1
    and 2. *)
Definition match_boot (s : string) : option (string * string) :=
  match Py.strip_prefix "Boot" s with
  | Some (String h1 (String h2 (String h3 (String h4 rest)))) =>
      if Py.is_hex h1 && Py.is_hex h2 && Py.is_hex h3 && Py.is_hex h4 then
        let bootnum := String h1 (String h2 (String h3 (String h4 ""))) in
        let without_star := spaces_then_name rest in
        let found :=
          match rest with
          | String c rest' =>
              if Ascii.eqb c "*" then
                match spaces_then_name rest' with
                | Some g => Some g
                | None => without_star
                end
              else without_star
          | "" => without_star
          end in
        match found with
        | Some g => Some (bootnum, g)
        | None => None
        end
      else None
  | _ => None
  end.

(** [re.search(r'Boot([0-9A-Fa-f]{4})\*?\s+(.+)', line)] *)
Fixpoint search_boot (line : string) : option (string * string) :=
  match match_boot line with
  | Some m => Some m
  | None =>
      match line with
      | "" => None
      | String _ rest => search_boot rest
      end
  end.

Section WithEnv.
Variable env : Env.

Definition is_uefi_mode : bool := path_exists env "/sys/firmware/efi".

Definition is_efivarfs_mounted : M bool :=
  try_except
    (output ← check_output env ["mount"] ≫= decode;
     mret (Py.contains "efivarfs on /sys/firmware/efi/efivars" output))
    (fun e => Some (log ERROR ("Failed to check efivarfs mount: " +:+ exn_str e);;
                    mret false)).

(** The loop of [get_grub_entries] over the lines it is given. *)
Definition grub_titles (lines : list string) : list string :=
  foldl (fun entries line =>
           match search_menuentry line with
           | Some title => entries ++ [title]
           | None => entries
           end) [] lines.

(** [entries] is filled line by line inside the [try]: an exception ends
    the loop, is logged, and what was appended before it is returned. *)
Definition get_grub_entries : M (list string) :=
  match open_text env GRUB_CFG_PATH with
  | OpenFails e =>
      log ERROR ("Error reading grub.cfg: " +:+ exn_str e);;
      mret []
  | Opened text broken =>
      let entries := grub_titles (Py.file_lines text) in
      match broken with
      | None =>
          log INFO ("Successfully fetched " +:+ Py.str (length entries) +:+
                    " GRUB entries.");;
          mret entries
      | Some e =>
          log ERROR ("Error reading grub.cfg: " +:+ exn_str e);;
          mret entries
      end
  end.

(** The loop of [get_uefi_entries] over the lines of the listing. *)
Definition uefi_pairs (lines : list string) : list (string * string) :=
  foldl (fun entries line =>
           match search_boot line with
           | Some (bootnum, g2) => entries ++ [(bootnum, Py.strip g2)]
           | None => entries
           end) [] lines.

Definition get_uefi_entries : M (list (string * string)) :=
  try_except
    (result ← subprocess_run env ["efibootmgr"; "-v"] None;
     let entries := uefi_pairs (Py.splitlines (stdout result)) in
     log INFO ("Successfully fetched " +:+ Py.str (length entries) +:+
               " UEFI entries.");;
     mret entries)
    (fun e =>
       match exn_cls e with
       | FileNotFoundError =>
           Some (log ERROR "efibootmgr not found.";; mret [])
       | _ =>
           Some (log ERROR ("Error reading UEFI boot entries: " +:+ exn_str e);;
                 mret [])
       end).

(** The scan of [get_default_entry]: the first line that starts with
    [saved_entry=], and [line.split("=")[1]]. *)
Fixpoint saved_entry (lines : list string) : M (option string) :=
  match lines with
  | [] => mret None
  | line :: rest =>
      if Py.startswith line "saved_entry=" then
        match Py.split "=" line !! 1 with
        | Some v =>
            log INFO ("Default GRUB entry found: " +:+ v);;
            mret (Some v)
        | None => raise (Exn IndexError "list index out of range")
        end
      else saved_entry rest
  end.

Definition get_default_entry : M (option string) :=
  try_except
    (result ← subprocess_run env ["grub-editenv"; "list"] None;
     saved_entry (Py.splitlines (stdout result)))
    (fun e => Some (log ERROR ("Could not read default GRUB entry: " +:+ exn_str e);;
                    mret None)).

Definition run_sudo_command (command_list : list string) (password : string)
  : M CommandResult :=
  try_except
    (proc ← subprocess_run env (["sudo"; "-S"] ++ command_list)
                           (Some (password +:+ nl));
     if negb (returncode proc =? 0)%Z then
       let error_msg := "Command failed: " +:+ Py.join " " command_list +:+ nl +:+
                        Py.strip (stderr proc) in
       log ERROR error_msg;;
       mret (false, Some error_msg)
     else
       log INFO ("Successfully executed: " +:+ Py.join " " command_list);;
       mret (true, None))
    (fun e =>
       match exn_cls e with
       | CalledProcessError err =>
           let error_msg := "Sudo command failed: " +:+ default "None" err in
           Some (log ERROR error_msg;; mret (false, Some error_msg))
       | _ => None
       end).

(** *** class OSBootSelector *)

Definition uefi_display (name bootnum : string) : string :=
  name +:+ " (Boot" +:+ bootnum +:+ ")".

Definition grub_display (name : string) (i : nat) : string :=
  name +:+ " (GRUB" +:+ Py.str i +:+ ")".

Definition default_mark : string := "  ✅ (default)".

(** [enumerate(l)] *)
Definition enumerate {A} (l : list A) : list (nat * A) :=
  zip (seq 0 (length l)) l.

(** The first two loops of [setup_ui], on [self.entry_map] and
    [all_entries]. *)
Definition add_uefi (acc : gmap string string * list string)
    (e : string * string) : gmap string string * list string :=
  let '(bootnum, name) := e in
  let display := uefi_display name bootnum in
  (<[display := bootnum]> acc.1, acc.2 ++ [display]).

Definition add_grub (acc : gmap string string * list string)
    (e : nat * string) : gmap string string * list string :=
  let '(i, name) := e in
  let display := grub_display name i in
  (<[display := Py.str i]> acc.1, acc.2 ++ [display]).

Definition collect (m : gmap string string)
    (uefi_entries : list (string * string)) (grub_entries : list string)
  : gmap string string * list string :=
  foldl add_grub (foldl add_uefi (m, []) uefi_entries) (enumerate grub_entries).

(** The third loop of [setup_ui]: one list item per entry, marked when
    [default_entry == key]. *)
Fixpoint add_items (default_entry : option string) (all_entries : list string)
  : M unit :=
  match all_entries with
  | [] => mret tt
  | entry :: rest =>
      st ← get;
      match entry_map st !! entry with
      | None => raise (Exn KeyError ("'" +:+ entry +:+ "'"))
      | Some key =>
          let it :=
            if decide (default_entry = Some key)
            then Item (entry +:+ default_mark) true
            else Item entry false in
          modify (fun st => with_list_widget (list_widget st ++ [it]) st);;
          add_items default_entry rest
      end
  end.

Definition setup_ui : M unit :=
  grub_entries ← get_grub_entries;
  uefi_entries ← get_uefi_entries;
  st ← get;
  let '(m, all_entries) := collect (entry_map st) uefi_entries grub_entries in
  modify (with_entry_map m);;
  default_entry ← get_default_entry;
  add_items default_entry all_entries.

Definition get_selected_index : M (option string) :=
  st ← get;
  match selection st ≫= (fun i => list_widget st !! i) with
  | None =>
      show (Warning "No selection" "Please select an OS.");;
      mret None
  | Some it =>
      let raw_text := Py.strip (Py.remove_all default_mark (item_text it)) in
      mret (entry_map st !! raw_text)
  end.

(** The [while True] loop of [prompt_for_password].  Each turn that goes on
    takes one reply of the operator, so [turns] bounds the turns by the
    number of replies that are left; with none left the dialog stays open. *)
Fixpoint prompt_loop (turns : nat) : M (option string) :=
  st ← get;
  if truthy (sudo_password st) then mret (sudo_password st)
  else
    '(password, ok) ← get_text "Sudo Password Required" "Enter your sudo password:";
    if ok : bool then
      '(success, _) ← run_sudo_command ["echo"; "verified"] password;
      if success : bool then
        modify (with_sudo_password (Some password));;
        mret (Some password)
      else
        show (Critical "Authentication Failed" "Incorrect password. Try again.");;
        match turns with
        | S turns' => prompt_loop turns'
        | O => blocked
        end
    else mret None.

Definition prompt_for_password : M (option string) :=
  st ← get;
  prompt_loop (length (password_replies st)).

(** [None] for a value that [if not v: return] rejects. *)
Definition given (v : option string) : option string :=
  if truthy v then v else None.

Definition reboot_selected : M unit :=
  index ← get_selected_index;
  match given index with
  | None => mret tt
  | Some index =>
  if negb is_uefi_mode then
    show (Critical "Error" "System is not in UEFI mode.")
  else
  mounted ← is_efivarfs_mounted;
  if negb mounted then
    show (Critical "Error" "EFI variables are not accessible. Ensure efivarfs is mounted.")
  else
  confirm ← question "Confirm Reboot" ("Reboot into entry " +:+ index +:+ "?");
  if negb confirm then mret tt
  else
  password ← prompt_for_password;
  match given password with
  | None => mret tt
  | Some password =>
  '(success, err) ←
    (if Py.isdigit index
     then run_sudo_command ["efibootmgr"; "-n"; index] password
     else run_sudo_command ["efibootmgr"; "-n"; index] password);
  if success : bool then
    '(success2, err2) ← run_sudo_command ["reboot"] password;
    if success2 : bool then
      show (Information "Rebooting" "System is rebooting now...")
    else
      show (Critical "Reboot Failed"
              ("Failed to reboot." +:+ nl +:+ default "None" err2))
  else
    show (Critical "BootNext Failed"
            ("Failed to set one-time boot." +:+ nl +:+ default "None" err))
  end
  end.

(** The scan of the listing in [set_default_os]: the fields of the first
    line that starts with [BootOrder:], none when there is no such line. *)
Fixpoint read_boot_order (lines : list string) : M (list string) :=
  match lines with
  | [] => mret []
  | line :: rest =>
      if Py.startswith line "BootOrder:" then
        match Py.split ":" line !! 1 with
        | Some field => mret (Py.split "," (Py.strip field))
        | None => raise (Exn IndexError "list index out of range")
        end
      else read_boot_order rest
  end.

(** [[index] + [x for x in current_order if x != index]] *)
Definition new_order (index : string) (current_order : list string) : list string :=
  index :: filter (fun x => x ≠ index) current_order.

Definition set_default_os : M unit :=
  index ← get_selected_index;
  match given index with
  | None => mret tt
  | Some index =>
  password ← prompt_for_password;
  match given password with
  | None => mret tt
  | Some password =>
  if Py.isdigit index then
    '(success, err) ← run_sudo_command ["grub-set-default"; index] password;
    if success : bool then
      show (Information "Success" ("Set GRUB entry #" +:+ index +:+ " as default."))
    else
      show (Critical "Error" ("Failed to set GRUB default." +:+ nl +:+ default "None" err))
  else
    result ← subprocess_run env ["efibootmgr"] None;
    current_order ← read_boot_order (Py.splitlines (stdout result));
    '(success, err) ← run_sudo_command
                         (["efibootmgr"; "--bootorder"] ++ new_order index current_order)
                         password;
    if success : bool then
      show (Information "Success" ("Set Boot" +:+ index +:+ " as default UEFI boot option."))
    else
      show (Critical "Error" ("Failed to set UEFI boot order." +:+ nl +:+ default "None" err))
  end
  end.

End WithEnv.
End Linux.

(** ** OS_Controller_Windows.py *)

Module Windows.

Definition BCDEDIT_CMD : string := "bcdedit".

Section WithEnv.
Variable env : Env.

(** The loop of [get_bcd_entries] over the lines of the listing. *)
Definition bcd_names (lines : list string) : list string :=
  foldl (fun entries line =>
           if Py.contains "description" (Py.lower line) then
             match Py.split ":" (Py.strip line) with
             | _ :: field :: _ => entries ++ [Py.strip field]
             | _ => entries
             end
           else entries) [] lines.

Definition get_bcd_entries : M (list string) :=
  try_except
    (result ← subprocess_run env [BCDEDIT_CMD] None;
     let entries := bcd_names (Py.splitlines (stdout result)) in
     log INFO ("Successfully fetched " +:+ Py.str (length entries) +:+
               " boot entries.");;
     mret entries)
    (fun e => Some (log ERROR ("Error reading BCDEDIT entries: " +:+ exn_str e);;
                    mret [])).

(** No [input=]: [password] is not used. *)
Definition run_sudo_command (command_list : list string) (password : string)
  : M CommandResult :=
  try_except
    (proc ← subprocess_run env (["runas"; "/user:Administrator"] ++ command_list)
                           None;
     if negb (returncode proc =? 0)%Z then
       let error_msg := "Command failed: " +:+ Py.join " " command_list +:+ nl +:+
                        Py.strip (stderr proc) in
       log ERROR error_msg;;
       mret (false, Some error_msg)
     else
       log INFO ("Successfully executed: " +:+ Py.join " " command_list);;
       mret (true, None))
    (fun e =>
       match exn_cls e with
       | CalledProcessError err =>
           let error_msg := "Sudo command failed: " +:+ default "None" err in
           Some (log ERROR error_msg;; mret (false, Some error_msg))
       | _ => None
       end).

Fixpoint prompt_loop (turns : nat) : M (option string) :=
  st ← get;
  if truthy (sudo_password st) then mret (sudo_password st)
  else
    '(password, ok) ← get_text "Administrator Password Required" "Enter your password:";
    if ok : bool then
      '(success, _) ← run_sudo_command ["echo"; "verified"] password;
      if success : bool then
        modify (with_sudo_password (Some password));;
        mret (Some password)
      else
        show (Critical "Authentication Failed" "Incorrect password. Try again.");;
        match turns with
        | S turns' => prompt_loop turns'
        | O => blocked
        end
    else mret None.

Definition prompt_for_password : M (option string) :=
  st ← get;
  prompt_loop (length (password_replies st)).

Definition get_selected_index : M (option string) :=
  st ← get;
  match selection st ≫= (fun i => list_widget st !! i) with
  | None =>
      show (Warning "No selection" "Please select an OS.");;
      mret None
  | Some it =>
      let raw_text := Py.strip (Py.remove_all Linux.default_mark (item_text it)) in
      mret (entry_map st !! raw_text)
  end.

Definition reboot_selected : M unit :=
  index ← get_selected_index;
  match Linux.given index with
  | None => mret tt
  | Some index =>
  confirm ← question "Confirm Reboot" ("Reboot into entry " +:+ index +:+ "?");
  if negb confirm then mret tt
  else
  password ← prompt_for_password;
  match Linux.given password with
  | None => mret tt
  | Some password =>
  '(success, err) ← run_sudo_command ["shutdown"; "/r"; "/t"; "0"] password;
  if success : bool then
    show (Information "Rebooting" "System is rebooting now...")
  else
    show (Critical "Reboot Failed" ("Failed to reboot." +:+ nl +:+ default "None" err))
  end
  end.

Definition set_default_os : M unit :=
  index ← get_selected_index;
  match Linux.given index with
  | None => mret tt
  | Some index =>
  password ← prompt_for_password;
  match Linux.given password with
  | None => mret tt
  | Some password =>
  '(success, err) ← run_sudo_command [BCDEDIT_CMD; "/default"; index] password;
  if success : bool then
    show (Information "Success" ("Set " +:+ index +:+ " as default boot entry."))
  else
    show (Critical "Error" ("Failed to set default boot entry." +:+ nl +:+ default "None" err))
  end
  end.

Definition is_uefi_mode : bool := path_exists env "C:\Windows\Boot\EFI".

(** The scan of [get_default_entry]: the first line that has "default" in
    it, in any case, and a colon; its second field, trimmed. *)
Fixpoint default_field (lines : list string) : option string :=
  match lines with
  | [] => None
  | line :: rest =>
      if Py.contains "default" (Py.lower line) then
        match Py.split ":" (Py.strip line) with
        | _ :: field :: _ => Some (Py.strip field)
        | _ => default_field rest
        end
      else default_field rest
  end.

Definition get_default_entry : M (option string) :=
  try_except
    (result ← subprocess_run env [BCDEDIT_CMD] None;
     mret (default_field (Py.splitlines (stdout result))))
    (fun e => Some (log ERROR ("Could not read default boot entry: " +:+ exn_str e);;
                    mret None)).

Definition bcd_display (name : string) (i : nat) : string :=
  name +:+ " (Boot" +:+ Py.str i +:+ ")".

(** The first loop of [setup_ui], on [self.entry_map] and [all_entries]. *)
Definition add_bcd (acc : gmap string string * list string)
    (e : nat * string) : gmap string string * list string :=
  let '(i, name) := e in
  let display := bcd_display name i in
  (<[display := name]> acc.1, acc.2 ++ [display]).

Definition collect (m : gmap string string) (boot_entries : list string)
  : gmap string string * list string :=
  foldl add_bcd (m, []) (Linux.enumerate boot_entries).

(** The loop over [all_entries] is the one of the Linux file, word for
    word. *)
Definition setup_ui : M unit :=
  boot_entries ← get_bcd_entries;
  st ← get;
  let '(m, all_entries) := collect (entry_map st) boot_entries in
  modify (with_entry_map m);;
  default_entry ← get_default_entry;
  Linux.add_items default_entry all_entries.

End WithEnv.
End Windows.

(** * Vocabulary of the statements *)

(** The operator has selected the list item that stands for the entry
    [index]. *)
Definition selected (st : State) (index : string) : Prop :=
  ∃ i it,
    selection st = Some i
    ∧ list_widget st !! i = Some it
    ∧ entry_map st !! Py.strip (Py.remove_all Linux.default_mark (item_text it))
      = Some index.

Definition mount_call : call := Call ["mount"] None.

Definition uefi_listing : call := Call ["efibootmgr"; "-v"] None.

Definition bcd_listing : call := Call ["bcdedit"] None.

(** The process [run_sudo_command] starts, on each platform. *)
Definition sudo_call (command_list : list string) (password : string) : call :=
  Call (["sudo"; "-S"] ++ command_list) (Some (password +:+ nl)).

Definition runas_call (command_list : list string) : call :=
  Call (["runas"; "/user:Administrator"] ++ command_list) None.

Definition failure_text (command_list : list string) (p : CompletedProcess) : string :=
  "Command failed: " +:+ Py.join " " command_list +:+ nl +:+ Py.strip (stderr p).

Definition success_text (command_list : list string) : string :=
  "Successfully executed: " +:+ Py.join " " command_list.

(** What [run_sudo_command] does with the outcome of the process [c] it
    started from the state [st]. *)
Definition classify (command_list : list string) (c : call) (st : State)
    (o : run_outcome) : res CommandResult * State :=
  let st' := with_spawned (spawned st ++ [c]) st in
  match o with
  | Completed p =>
      if (returncode p =? 0)%Z
      then (Ret (true, None),
            with_logged (logged st ++ [(INFO, success_text command_list)]) st')
      else (Ret (false, Some (failure_text command_list p)),
            with_logged (logged st ++ [(ERROR, failure_text command_list p)]) st')
  | Failed e =>
      match exn_cls e with
      | CalledProcessError err =>
          (Ret (false, Some ("Sudo command failed: " +:+ default "None" err)),
           with_logged
             (logged st ++ [(ERROR, "Sudo command failed: " +:+ default "None" err)]) st')
      | _ => (Raise e, st')
      end
  end.

(** The process [c], started after the processes [h], ran to its end and
    exited with status 0. *)
Definition succeeded (env : Env) (h : list call) (c : call) : Prop :=
  ∃ p, run_process env h c = Completed p ∧ returncode p = 0%Z.

(** The listing of the firmware entries did not work: the tool could not be
    started, or it exited with a non-zero status. *)
Definition listing_failed (o : run_outcome) : Prop :=
  match o with
  | Completed p => returncode p ≠ 0%Z
  | Failed _ => True
  end.

Definition question_reboot (index : string) : dialog :=
  Question "Confirm Reboot" ("Reboot into entry " +:+ index +:+ "?").

Definition not_uefi_message : dialog :=
  Critical "Error" "System is not in UEFI mode.".

Definition efivarfs_message : dialog :=
  Critical "Error" "EFI variables are not accessible. Ensure efivarfs is mounted.".

Definition auth_failed : dialog :=
  Critical "Authentication Failed" "Incorrect password. Try again.".

Definition linux_prompt : dialog :=
  GetText "Sudo Password Required" "Enter your sudo password:".

Definition windows_prompt : dialog :=
  GetText "Administrator Password Required" "Enter your password:".

(** The validation command of a freshly entered secret, on each platform. *)
Definition linux_validation (password : string) : call :=
  sudo_call ["echo"; "verified"] password.

Definition windows_validation (password : string) : call :=
  runas_call ["echo"; "verified"].

(** The state of [prompt_for_password] once the operator has answered the
    dialog [prompt]: the dialog was shown and the reply is used up. *)
Definition answered (prompt : dialog) (replies : list (string * bool)) (st : State)
  : State :=
  with_password_replies replies (with_shown (shown st ++ [prompt]) st).

(** The state after the validation [c] of a secret exited with a non-zero
    status: the process was started, its failure is logged and
    "Authentication Failed" is shown; the cache is as it was. *)
Definition turned_down (c : call) (p : CompletedProcess) (st : State) : State :=
  with_shown (shown st ++ [auth_failed])
    (with_logged (logged st ++ [(ERROR, failure_text ["echo"; "verified"] p)])
       (with_spawned (spawned st ++ [c]) st)).

(** One turn of the [while True] loop of [prompt_for_password], the process
    of the validation being [validation password] and the loop going on as
    [next]. *)
Definition prompt_turn (env : Env) (prompt : dialog) (validation : string -> call)
    (next : option (M (option string))) (st : State) : res (option string) * State :=
  if truthy (sudo_password st) then (Ret (sudo_password st), st)
  else
    let st1 := with_shown (shown st ++ [prompt]) st in
    match password_replies st with
    | [] => (Blocked, st1)
    | (password, false) :: rest => (Ret None, with_password_replies rest st1)
    | (password, true) :: rest =>
        let st2 := with_password_replies rest st1 in
        match classify ["echo"; "verified"] (validation password) st2
                (run_process env (spawned st) (validation password)) with
        | (Ret (true, _), st3) =>
            (Ret (Some password), with_sudo_password (Some password) st3)
        | (Ret (false, _), st3) =>
            let st4 := with_shown (shown st3 ++ [auth_failed]) st3 in
            match next with
            | Some loop => loop st4
            | None => (Blocked, st4)
            end
        | (Raise e, st3) => (Raise e, st3)
        | (Blocked, st3) => (Blocked, st3)
        end
    end.

(** What a call of [prompt_for_password] that started without a cached
    credential has done when it ends with [r] in the state [st']: the
    secrets [failed] were entered one after the other and each failed its
    validation and was followed by a new prompt; then either a secret passed
    its validation, and it is the one cached and returned, or the cache is
    as it was and no secret is returned. *)
Definition prompt_outcome (env : Env) (prompt : dialog) (validation : string -> call)
    (st : State) (r : res (option string)) (st' : State) : Prop :=
  ∃ failed : list string,
    (∀ i password, failed !! i = Some password →
       ¬ succeeded env (spawned st ++ map validation (take i failed))
                   (validation password))
    ∧ shown st' = shown st ++ flat_map (fun _ => [prompt; auth_failed]) failed ++ [prompt]
    ∧ ((∃ password,
          r = Ret (Some password)
          ∧ sudo_password st' = Some password
          ∧ password_replies st
            = map (fun w => (w, true)) failed ++ (password, true) :: password_replies st'
          ∧ spawned st' = spawned st ++ map validation (failed ++ [password])
          ∧ succeeded env (spawned st ++ map validation failed) (validation password))
       ∨ (sudo_password st' = sudo_password st
          ∧ (∀ password, r ≠ Ret (Some password))
          ∧ ∃ more,
              (more = [] ∨ ∃ password, more = [password])
              ∧ spawned st' = spawned st ++ map validation (failed ++ more)
              ∧ map (fun w => (w, true)) (failed ++ more) `prefix_of` password_replies st)).

Fixpoint quote_free (s : string) : Prop :=
  match s with
  | "" => True
  | String c s' => c ≠ "'"%char ∧ quote_free s'
  end.

(** The pattern [menuentry '([^']+)'] matches in [line], with [title] as
    its group. *)
Definition menuentry_match (line title : string) : Prop :=
  ∃ pre post,
    line = pre +:+ "menuentry '" +:+ title +:+ "'" +:+ post
    ∧ title ≠ "" ∧ quote_free title.

(** [titles] has one title for each line of [lines] in which the pattern
    matches, in the order of the lines, and nothing else. *)
Inductive extracted : list string -> list string -> Prop :=
  | extracted_nil : extracted [] []
  | extracted_match line title lines titles :
      menuentry_match line title →
      extracted lines titles →
      extracted (line :: lines) (title :: titles)
  | extracted_skip line lines titles :
      (∀ title, ¬ menuentry_match line title) →
      extracted lines titles →
      extracted (line :: lines) titles.

(** The number of lines in which the pattern matches. *)
Inductive matching_lines : list string -> nat -> Prop :=
  | matching_nil : matching_lines [] 0
  | matching_match line title lines n :
      menuentry_match line title →
      matching_lines lines n →
      matching_lines (line :: lines) (S n)
  | matching_skip line lines n :
      (∀ title, ¬ menuentry_match line title) →
      matching_lines lines n →
      matching_lines (line :: lines) n.

(** * Machines and states of the examples *)

Definition not_found (program : string) : exn :=
  Exn FileNotFoundError
      ("[Errno 2] No such file or directory: '" +:+ program +:+ "'").

Definition ok (out : string) : run_outcome :=
  Completed {| returncode := 0; stdout := out; stderr := "" |}.

Definition exits (status : Z) (err : string) : run_outcome :=
  Completed {| returncode := status; stdout := ""; stderr := err |}.

Definition efivarfs_line : string :=
  "efivarfs on /sys/firmware/efi/efivars type efivarfs (rw,nosuid,nodev,noexec,relatime)".

Definition env_without_elevation : Env :=
  {| path_exists := fun _ => true;
     run_process := fun _ c =>
       match argv c with
       | program :: _ => Failed (not_found program)
       | [] => Failed (Exn IndexError "list index out of range")
       end;
     open_text := fun path => OpenFails (not_found path) |}.

(** On Linux the secret reaches the process, and the result may depend on
    it. *)
Definition env_checking_password (good : string) : Env :=
  {| path_exists := fun _ => true;
     run_process := fun _ c =>
       if decide (input c = Some (good +:+ nl))
       then Completed {| returncode := 0; stdout := ""; stderr := "" |}
       else Completed {| returncode := 1; stdout := "";
                         stderr := "sudo: 1 incorrect password attempt" |};
     open_text := fun path => OpenFails (not_found path) |}.

(** A machine with the two UEFI entries [000A] and [000B], no GRUB
    configuration file and no [grub-editenv].  [uefi] tells whether
    [/sys/firmware/efi] exists, [mount] and [listing] are the outcomes of
    [mount] and of the plain [efibootmgr], and [elevated command] is the
    outcome of [command] run through [sudo]. *)
Definition machine (uefi : bool) (mount listing : run_outcome)
    (elevated : list string -> run_outcome) : Env :=
  {| path_exists := fun _ => uefi;
     run_process := fun _ c =>
       match argv c with
       | ["efibootmgr"; "-v"] =>
           ok ("BootCurrent: 000B" +:+ nl +:+
               "BootOrder: 000B,000A" +:+ nl +:+
               "Boot000A* Windows Boot Manager" +:+ nl +:+
               "Boot000B* ubuntu" +:+ nl)
       | ["efibootmgr"] => listing
       | ["mount"] => mount
       | "sudo" :: "-S" :: command => elevated command
       | program :: _ => Failed (not_found program)
       | [] => Failed (Exn IndexError "list index out of range")
       end;
     open_text := fun path => OpenFails (not_found path) |}.

(** The state after start-up on such a machine, with the first list item
    selected, the given replies pending and [cached] in [sudo_password]. *)
Definition started (env : Env) (cached : option string) (confirms : list bool)
    (passwords : list (string * bool)) : State :=
  with_sudo_password cached
    (with_selection (Some 0) (Linux.setup_ui env (fresh confirms passwords)).2).

(** The plain listing exits with an error and prints nothing; commands run
    through [sudo] succeed. *)
Definition env_order_unreadable : Env :=
  machine true (ok efivarfs_line)
          (exits 2 "EFI variables are not supported on this system.")
          (fun _ => ok "").

(** A machine started in legacy BIOS mode. *)
Definition env_legacy : Env :=
  machine false (ok "") (exits 2 "EFI variables are not supported on this system.")
          (fun _ => ok "").

(** A UEFI machine on which [reboot] fails, or [efibootmgr -n] fails. *)
Definition env_reboot_fails : Env :=
  machine true (ok efivarfs_line) (ok "BootOrder: 000B,000A")
          (fun command =>
             match command with
             | ["reboot"] => exits 1 "Failed to talk to init daemon."
             | _ => ok ""
             end).

(** A UEFI machine on which no further process can be started when it is
    the turn of [reboot]. *)
Definition env_reboot_unstartable : Env :=
  machine true (ok efivarfs_line) (ok "BootOrder: 000B,000A")
          (fun command =>
             match command with
             | ["reboot"] => Failed (Exn OSError "[Errno 12] Cannot allocate memory")
             | _ => ok ""
             end).

Definition env_boot_next_fails : Env :=
  machine true (ok efivarfs_line) (ok "BootOrder: 000B,000A")
          (fun command =>
             match command with
             | ["efibootmgr"; "-n"; _] => exits 1 "Could not set BootNext: Operation not permitted"
             | _ => ok ""
             end).

(** A machine with a GRUB configuration.  [cfg] is what reading
    [/boot/grub/grub.cfg] gives, [verbose] the
    outcome of [efibootmgr -v] and [editenv] the outcome of
    [grub-editenv list]. *)
Definition pc (cfg : file_read) (verbose editenv : run_outcome) : Env :=
  {| path_exists := fun _ => true;
     run_process := fun _ c =>
       match argv c with
       | ["efibootmgr"; "-v"] => verbose
       | ["grub-editenv"; "list"] => editenv
       | ["efibootmgr"] => ok "BootOrder: 0001,0000"
       | ["mount"] => ok efivarfs_line
       | "sudo" :: _ => ok ""
       | program :: _ => Failed (not_found program)
       | [] => Failed (Exn IndexError "list index out of range")
       end;
     open_text := fun path =>
       if decide (path = Linux.GRUB_CFG_PATH) then cfg
       else OpenFails (not_found path) |}.

Definition grub_cfg : string :=
  "### BEGIN /etc/grub.d/10_linux ###" +:+ nl +:+
  "menuentry 'Ubuntu' --class ubuntu --class gnu-linux {" +:+ nl +:+
  "submenu 'Advanced options for Ubuntu' {" +:+ nl +:+
  "  menuentry 'Ubuntu, with Linux 6.8.0-45-generic' --class ubuntu {" +:+ nl +:+
  "}" +:+ nl +:+
  "menuentry 'Windows Boot Manager (on /dev/nvme0n1p1)' --class windows {" +:+ nl.

Definition env_dual_boot : Env :=
  pc (Opened grub_cfg None)
     (ok ("BootCurrent: 0001" +:+ nl +:+
          "BootOrder: 0001,0000" +:+ nl +:+
          "Boot0000* Windows Boot Manager" +:+ nl +:+
          "Boot0001* ubuntu" +:+ nl))
     (ok ("saved_entry=0" +:+ nl)).

(** [efibootmgr -v] prints an entry and then exits with status 1. *)
Definition env_listing_exits_1 : Env :=
  pc (OpenFails (not_found Linux.GRUB_CFG_PATH))
     (Completed {| returncode := 1;
                   stdout := "Boot0001* Linux" +:+ nl;
                   stderr := "Could not read variable 'Boot0002': Input/output error" |})
     (ok "").

(** The configuration file opens, one entry is read, and the next read
    fails. *)
Definition env_read_breaks : Env :=
  pc (Opened ("menuentry 'Ubuntu' --class ubuntu {" +:+ nl)
             (Some (Exn OSError "[Errno 5] Input/output error")))
     (ok "") (ok "").

(** GRUB's saved default is [0000], as [grub-set-default 0000] leaves it. *)
Definition env_saved_0000 : Env :=
  pc (Opened grub_cfg None)
     (ok ("BootCurrent: 0001" +:+ nl +:+
          "BootOrder: 0001,0000" +:+ nl +:+
          "Boot0000* Windows Boot Manager" +:+ nl +:+
          "Boot0001* ubuntu" +:+ nl))
     (ok ("saved_entry=0000" +:+ nl)).

(** A machine on which every command runs and exits with status 0. *)
Definition env_all_succeed : Env :=
  {| path_exists := fun _ => true;
     run_process := fun _ _ => ok "";
     open_text := fun path => OpenFails (not_found path) |}.

(** * Vocabulary of the further properties *)

(** No item of the list is selected. *)
Definition nothing_selected (st : State) : Prop :=
  selection st ≫= (fun i => list_widget st !! i) = None.

Definition no_selection_message : dialog :=
  Warning "No selection" "Please select an OS.".

Definition grub_editenv_listing : call := Call ["grub-editenv"; "list"] None.

Definition plain_listing : call := Call ["efibootmgr"] None.

(** The character [c] does not occur in [s]. *)
Fixpoint char_free (c : ascii) (s : string) : Prop :=
  match s with
  | "" => True
  | String a s' => a ≠ c ∧ char_free c s'
  end.

(** No character of [s] is white space. *)
Fixpoint no_space (s : string) : Prop :=
  match s with
  | "" => True
  | String a s' => Py.isspace a = false ∧ no_space s'
  end.

(** A UEFI boot number: four hexadecimal digits. *)
Definition is_bootnum (s : string) : bool :=
  match s with
  | String h1 (String h2 (String h3 (String h4 ""))) =>
      Py.is_hex h1 && Py.is_hex h2 && Py.is_hex h3 && Py.is_hex h4
  | _ => false
  end.

(** The call [c] is the [reboot] command run through [sudo]. *)
Definition is_reboot (c : call) : Prop := argv c = ["sudo"; "-S"; "reboot"].

(** The [efibootmgr -n] command of SetOneTimeBoot, run through [sudo]. *)
Definition set_next_call (index password : string) : call :=
  sudo_call ["efibootmgr"; "-n"; index] password.

(** A line that carries the label [word], in any case, has no colon. *)
Definition labelled_without_colon (word line : string) : Prop :=
  Py.contains word (Py.lower line) = true → char_free ":" line.

(** The listing of [bcdedit] in its usual layout: label, blanks, value. *)
Definition bcdedit_output : string :=
  "Windows Boot Manager" +:+ nl +:+
  "--------------------" +:+ nl +:+
  "identifier              {bootmgr}" +:+ nl +:+
  "device                  partition=\Device\HarddiskVolume1" +:+ nl +:+
  "description             Windows Boot Manager" +:+ nl +:+
  "default                 {current}" +:+ nl +:+
  nl +:+
  "Windows Boot Loader" +:+ nl +:+
  "-------------------" +:+ nl +:+
  "identifier              {current}" +:+ nl +:+
  "device                  partition=C:" +:+ nl +:+
  "description             Windows 11" +:+ nl.

Definition env_bcdedit : Env :=
  {| path_exists := fun _ => true;
     run_process := fun _ c =>
       match argv c with
       | ["bcdedit"] => ok bcdedit_output
       | _ => ok ""
       end;
     open_text := fun path => OpenFails (not_found path) |}.

(** The list item that the last loop of [setup_ui] makes for the entry shown
    as [display] and bound to [key]. *)
Definition make_item (default_entry : option string) (display key : string) : item :=
  if decide (default_entry = Some key)
  then Item (display +:+ Linux.default_mark) true
  else Item display false.

(** The same, the key being looked up in the map [m] as the loop does. *)
Definition item_of (default_entry : option string) (m : gmap string string)
    (display : string) : item :=
  match m !! display with
  | Some key => make_item default_entry display key
  | None => Item display false
  end.


(** A listing of [bcdedit] whose labels end in a colon. *)
Definition env_bcd_colons : Env :=
  {| path_exists := fun _ => true;
     run_process := fun _ c =>
       match argv c with
       | ["bcdedit"] =>
           ok ("description: Windows Boot Manager" +:+ nl +:+
               "default: Windows 11" +:+ nl +:+
               "description: Windows 11" +:+ nl)
       | _ => ok ""
       end;
     open_text := fun path => OpenFails (not_found path) |}.

(** A line of the BCD listing that gives an entry: it holds "description",
    in any case, and its trimmed text holds a colon. *)
Definition has_description (line : string) : Prop :=
  Py.contains "description" (Py.lower line) = true ∧ ¬ char_free ":" (Py.strip line).
(** * Properties *)

(** One step of a computation: the first [≫=] is run. *)
Ltac step := unfold mbind at 1; unfold M_bind at 1.

(** The primitives of the monad are unfolded and run. *)
Ltac run_monad :=
  repeat (progress (unfold mbind, M_bind, mret, M_ret, get, get_text, question,
                      show, log, modify, blocked, raise;
                    cbn -[Linux.run_sudo_command Windows.run_sudo_command
                          classify truthy String.append])).

(** ** The Python primitives and the patterns, on examples *)

Example splitlines_ex :
  Py.splitlines ("a" +:+ String Py.LF (String Py.LF ("b" +:+ String Py.CR (String Py.LF "")))) = ["a"; ""; "b"].
Proof. reflexivity. Qed.

Example file_lines_ex :
  Py.file_lines ("a" +:+ String Py.LF "b") = ["a" +:+ String Py.LF ""; "b"].
Proof. reflexivity. Qed.

Example split_ex : Py.split "," "0001,0002" = ["0001"; "0002"] /\ Py.split "," "" = [""].
Proof. split; reflexivity. Qed.

Example strip_ex : Py.strip "  a b  " = "a b".
Proof. reflexivity. Qed.

Example str_ex : Py.str 0 = "0" /\ Py.str 120 = "120".
Proof. split; reflexivity. Qed.

Example remove_all_ex : Py.remove_all "ab" "xabyabab" = "xy".
Proof. reflexivity. Qed.

Example default_mark_length : String.length Linux.default_mark = 15.
Proof. reflexivity. Qed.

Example utf8_fault_ex :
  Py.utf8_fault 0 Linux.default_mark = None
  /\ Py.utf8_fault 0 ("a" +:+ String (ascii_of_nat 226) (String (ascii_of_nat 130) ""))
     = Some (Py.Fault 1 3 "unexpected end of data")
  /\ Py.utf8_fault 0 (String (ascii_of_nat 192) (String (ascii_of_nat 128) ""))
     = Some (Py.Fault 0 1 "invalid start byte")
  /\ Py.decode_error_text
       ("ab" +:+ String (ascii_of_nat 237) (String (ascii_of_nat 160) (String (ascii_of_nat 128) "")))
       (Py.Fault 2 3 "invalid continuation byte")
     = "'utf-8' codec can't decode byte 0xed in position 2: invalid continuation byte".
Proof. repeat split; reflexivity. Qed.

Example search_menuentry_ex :
  Linux.search_menuentry "menuentry 'Ubuntu' --class ubuntu {" = Some "Ubuntu"
  /\ Linux.search_menuentry "  menuentry '' menuentry 'x'" = Some "x"
  /\ Linux.search_menuentry "menuentry 'Ubuntu" = None
  /\ Linux.search_menuentry "submenu 'Advanced options' {" = None.
Proof. repeat split; reflexivity. Qed.

Example search_boot_ex :
  Linux.search_boot "Boot0001* Linux" = Some ("0001", "Linux")
  /\ Linux.search_boot "Boot0002 Windows" = Some ("0002", "Windows")
  /\ Linux.search_boot "BootOrder: 0001,0002" = None
  /\ Linux.search_boot "BootCurrent: 0001" = None
  /\ Linux.search_boot "Boot00A1*  " = Some ("00A1", " ")
  /\ Linux.search_boot "Boot00A1* " = None.
Proof. repeat split; reflexivity. Qed.

(** ** The boot order written by SetDefault *)

Section NewOrder.
Implicit Types (index x : string) (current_order before after : list string).

Lemma new_order_filter_id index (l : list string) :
  index ∉ l → filter (fun x => x ≠ index) l = l.
Proof.
  induction l as [|y l IH]; intros Hnot; [reflexivity|].
  apply not_elem_of_cons in Hnot as [Hne Hl].
  rewrite filter_cons_True by congruence.
  by rewrite IH.
Qed.

Lemma new_order_split index before after :
  index ∉ before → index ∉ after →
  Linux.new_order index (before ++ index :: after) = index :: before ++ after.
Proof.
  intros Hb Ha. unfold Linux.new_order.
  rewrite filter_app, filter_cons_False by (intros H; apply H; reflexivity).
  by rewrite !new_order_filter_id.
Qed.

Lemma new_order_others index current_order :
  filter (fun x => x ≠ index) (Linux.new_order index current_order)
  = filter (fun x => x ≠ index) current_order.
Proof.
  unfold Linux.new_order.
  rewrite filter_cons_False by (intros H; apply H; reflexivity).
  apply list_filter_filter_l. tauto.
Qed.

Lemma NoDup_split_unique index before after :
  NoDup (before ++ index :: after) → (index ∉ before) ∧ (index ∉ after).
Proof.
  intros H. apply NoDup_app in H as (_ & Hdisj & Hr).
  apply NoDup_cons in Hr as [Hr _]. split; [|done].
  intros Hin. apply (Hdisj _ Hin). left.
Qed.

End NewOrder.

Example new_order_ex :
  Linux.new_order "000C" ["000A"; "000B"; "000C"; "000D"]
  = ["000C"; "000A"; "000B"; "000D"].
Proof. reflexivity. Qed.

(** An id that occurs more than once in the order read is kept once: the
    order written is then shorter than the one read. *)
Example new_order_repeated_id :
  Linux.new_order "000C" ["000A"; "000C"; "000B"; "000C"] = ["000C"; "000A"; "000B"].
Proof. reflexivity. Qed.

(** For a boot order without repeated ids that contains the selected id,
    the order computed in the branch commented [# UEFI] is the selected id
    followed by the ids before it and the ids after it, unchanged and in
    their order: it has the same length, the same ids (a permutation), no
    duplicates, and the other ids keep their relative positions. *)
Lemma new_order_moves_selected_to_front (index : string) (current_order : list string) :
  index ∈ current_order →
  NoDup current_order →
  ∃ before after,
    current_order = before ++ index :: after
    ∧ Linux.new_order index current_order = index :: before ++ after
    ∧ length (Linux.new_order index current_order) = length current_order
    ∧ NoDup (Linux.new_order index current_order)
    ∧ Linux.new_order index current_order ≡ₚ current_order
    ∧ filter (fun x => x ≠ index) (Linux.new_order index current_order)
      = filter (fun x => x ≠ index) current_order.
Proof.
  intros Hin Hnd.
  destruct (list_elem_of_split _ _ Hin) as (before & after & ->).
  destruct (NoDup_split_unique _ _ _ Hnd) as [Hb Ha].
  exists before, after.
  assert (Heq := new_order_split index before after Hb Ha).
  assert (Hperm : index :: before ++ after ≡ₚ before ++ index :: after)
    by apply Permutation_middle.
  split; [reflexivity|]. split; [exact Heq|].
  rewrite new_order_others, Heq.
  repeat split.
  - by rewrite Hperm.
  - by rewrite Hperm.
  - exact Hperm.
Qed.

Example new_order_moves_000C_to_front :
  ∃ before after,
    ["000A"; "000B"; "000C"; "000D"] = before ++ "000C" :: after
    ∧ Linux.new_order "000C" ["000A"; "000B"; "000C"; "000D"] = "000C" :: before ++ after
    ∧ length (Linux.new_order "000C" ["000A"; "000B"; "000C"; "000D"]) = 4
    ∧ NoDup (Linux.new_order "000C" ["000A"; "000B"; "000C"; "000D"])
    ∧ Linux.new_order "000C" ["000A"; "000B"; "000C"; "000D"] ≡ₚ ["000A"; "000B"; "000C"; "000D"]
    ∧ filter (fun x => x ≠ "000C") (Linux.new_order "000C" ["000A"; "000B"; "000C"; "000D"])
      = filter (fun x => x ≠ "000C") ["000A"; "000B"; "000C"; "000D"].
Proof.
  apply (new_order_moves_selected_to_front "000C" ["000A"; "000B"; "000C"; "000D"]).
  - apply list_elem_of_In. vm_compute. tauto.
  - apply (bool_decide_unpack _). vm_compute. exact I.
Qed.

(** ** The privileged executor *)

Lemma get_selected_index_selected st index :
  selected st index → Linux.get_selected_index st = (Ret (Some index), st).
Proof.
  intros (i & it & Hs & Hi & Hm). unfold Linux.get_selected_index.
  unfold mbind, M_bind, get. rewrite Hs. simpl. rewrite Hi. unfold mret, M_ret.
  by rewrite Hm.
Qed.

Lemma given_Some (s : string) : s ≠ "" → Linux.given (Some s) = Some s.
Proof. destruct s; [congruence|reflexivity]. Qed.

Lemma linux_run_sudo_command_run env command_list password st :
  Linux.run_sudo_command env command_list password st
  = classify command_list (sudo_call command_list password) st
      (run_process env (spawned st) (sudo_call command_list password)).
Proof.
  unfold Linux.run_sudo_command, try_except, subprocess_run, classify.
  unfold mbind, M_bind. fold (sudo_call command_list password).
  destruct (run_process env (spawned st) (sudo_call command_list password)) as [p|e].
  - destruct (returncode p =? 0)%Z; reflexivity.
  - destruct e as [[] ?]; reflexivity.
Qed.

Lemma windows_run_sudo_command_run env command_list password st :
  Windows.run_sudo_command env command_list password st
  = classify command_list (runas_call command_list) st
      (run_process env (spawned st) (runas_call command_list)).
Proof.
  unfold Windows.run_sudo_command, try_except, subprocess_run, classify.
  unfold mbind, M_bind. fold (runas_call command_list).
  destruct (run_process env (spawned st) (runas_call command_list)) as [p|e].
  - destruct (returncode p =? 0)%Z; reflexivity.
  - destruct e as [[] ?]; reflexivity.
Qed.

(** A non-zero exit status is a failure that carries the trimmed standard
    error of the command. *)
Lemma classify_nonzero command_list c st p :
  returncode p ≠ 0%Z →
  (classify command_list c st (Completed p)).1
  = Ret (false, Some ("Command failed: " +:+ Py.join " " command_list +:+ nl +:+
                      Py.strip (stderr p))).
Proof.
  intros Hrc. unfold classify. apply Z.eqb_neq in Hrc. by rewrite Hrc.
Qed.

(** Only [CalledProcessError] is caught: any other exception of the process
    call leaves [run_sudo_command]. *)
Lemma classify_escapes command_list c st e :
  (∀ err, exn_cls e ≠ CalledProcessError err) →
  (classify command_list c st (Failed e)).1 = Raise e.
Proof.
  intros Hcls. unfold classify. destruct e as [[] ?]; try reflexivity.
  by destruct (Hcls stderr0).
Qed.

Lemma classify_escapes_state command_list c st e :
  (∀ err, exn_cls e ≠ CalledProcessError err) →
  classify command_list c st (Failed e)
  = (Raise e, with_spawned (spawned st ++ [c]) st).
Proof.
  intros Hcls. unfold classify. destruct e as [[] ?]; try reflexivity.
  by destruct (Hcls stderr0).
Qed.

(** C2 (the code departs from the claim).  Where the elevation program
    cannot be started, [subprocess.run] raises [FileNotFoundError]; the
    only handler of [run_sudo_command] is for [CalledProcessError], so the
    exception leaves the function on both platforms and no [CommandResult]
    is returned. *)
Theorem run_sudo_command_lets_spawn_failure_escape :
  (Linux.run_sudo_command env_without_elevation ["reboot"] "secret" (fresh [] [])).1
  = Raise (not_found "sudo")
  ∧ (Windows.run_sudo_command env_without_elevation ["shutdown"; "/r"; "/t"; "0"]
       "secret" (fresh [] [])).1
    = Raise (not_found "runas").
Proof. split; reflexivity. Qed.

Example linux_result_depends_on_password :
  (Linux.run_sudo_command (env_checking_password "secret") ["echo"; "verified"]
     "secret" (fresh [] [])).1 = Ret (true, None)
  ∧ (Linux.run_sudo_command (env_checking_password "secret") ["echo"; "verified"]
       "wrong" (fresh [] [])).1
    = Ret (false, Some ("Command failed: echo verified" +:+ nl +:+
                        "sudo: 1 incorrect password attempt")).
Proof. split; reflexivity. Qed.

(** On Windows the validation passes for any secret once [runas] runs
    [echo]. *)
Example windows_prompt_accepts_any_secret (secret : string) :
  (Windows.prompt_for_password env_all_succeed (fresh [] [(secret, true)])).1
  = Ret (Some secret)
  ∧ sudo_password
      (Windows.prompt_for_password env_all_succeed (fresh [] [(secret, true)])).2
    = Some secret.
Proof. split; reflexivity. Qed.

(** C5. In the Windows variant the result of [run_sudo_command], and the
    whole state after it, do not depend on the password: the process that
    is started is [runas /user:Administrator <command>] with nothing wired
    to its input, whatever the password is.  So the validation
    [echo verified] gives the same answer for any two passwords. *)
Theorem windows_run_sudo_command_ignores_password
    (env : Env) (command_list : list string) (password1 password2 : string)
    (st : State) :
  Windows.run_sudo_command env command_list password1 st
  = Windows.run_sudo_command env command_list password2 st
  ∧ spawned (Windows.run_sudo_command env command_list password1 st).2
    = spawned st ++ [Call (["runas"; "/user:Administrator"] ++ command_list) None]
  ∧ Windows.run_sudo_command env ["echo"; "verified"] password1 st
    = Windows.run_sudo_command env ["echo"; "verified"] password2 st.
Proof.
  rewrite !windows_run_sudo_command_run. split; [reflexivity|]. split; [|reflexivity].
  unfold classify, runas_call.
  destruct (run_process _ _ _) as [p|[[] ?]]; try reflexivity.
  destruct (returncode p =? 0)%Z; reflexivity.
Qed.

(** ** SetDefault on a UEFI entry *)

Lemma prompt_for_password_cached env st password :
  sudo_password st = Some password → password ≠ "" →
  Linux.prompt_for_password env st = (Ret (Some password), st).
Proof.
  intros Hc Hne. unfold Linux.prompt_for_password, mbind, M_bind, get.
  destruct (length (password_replies st)); simpl;
    unfold mbind, M_bind, get; rewrite Hc; destruct password; done.
Qed.

Lemma read_boot_order_no_line (lines : list string) st :
  Forall (fun line => Py.startswith line "BootOrder:" = false) lines →
  Linux.read_boot_order lines st = (Ret [], st).
Proof.
  induction 1 as [|line lines Hline _ IH]; [reflexivity|].
  simpl. by rewrite Hline.
Qed.

(** Without a [BootOrder:] line in the listing, whatever its exit status,
    [set_default_os] goes on and writes an order made of the selected id
    alone. *)
Lemma set_default_os_without_order env st index password p :
  selected st index → index ≠ "" → Py.isdigit index = false →
  sudo_password st = Some password → password ≠ "" →
  run_process env (spawned st) (Call ["efibootmgr"] None) = Completed p →
  Forall (fun line => Py.startswith line "BootOrder:" = false)
         (Py.splitlines (stdout p)) →
  spawned (Linux.set_default_os env st).2
  = spawned st ++ [Call ["efibootmgr"] None;
                   sudo_call ["efibootmgr"; "--bootorder"; index] password].
Proof.
  intros Hsel Hne Hdig Hc Hpw Hrun Hlines.
  unfold Linux.set_default_os. unfold mbind at 1. unfold M_bind at 1.
  rewrite (get_selected_index_selected _ _ Hsel), (given_Some _ Hne).
  unfold mbind at 1. unfold M_bind at 1.
  rewrite (prompt_for_password_cached _ _ _ Hc Hpw), (given_Some _ Hpw), Hdig.
  unfold mbind at 1. unfold M_bind at 1.
  unfold subprocess_run at 1. rewrite Hrun.
  unfold mbind at 1. unfold M_bind at 1.
  rewrite (read_boot_order_no_line _ _ Hlines).
  unfold mbind at 1. unfold M_bind at 1.
  rewrite linux_run_sudo_command_run. unfold Linux.new_order. rewrite filter_nil.
  unfold classify.
  match goal with
  | |- context [run_process env ?h (sudo_call ?c ?w)] =>
      destruct (run_process env h (sudo_call c w)) as [q|[[] ?]]
  end; simpl;
    try destruct (returncode q =? 0)%Z; simpl; by rewrite <- app_assoc.
Qed.

(** With the order read from the listing, the order written is
    [new_order]: one [efibootmgr --bootorder] call through [sudo], with the
    ids as its arguments. *)
Lemma set_default_os_writes_new_order env st index password p current_order :
  selected st index → index ≠ "" → Py.isdigit index = false →
  sudo_password st = Some password → password ≠ "" →
  run_process env (spawned st) (Call ["efibootmgr"] None) = Completed p →
  (∀ st', Linux.read_boot_order (Py.splitlines (stdout p)) st'
          = (Ret current_order, st')) →
  spawned (Linux.set_default_os env st).2
  = spawned st ++
    [Call ["efibootmgr"] None;
     sudo_call (["efibootmgr"; "--bootorder"] ++ Linux.new_order index current_order)
               password].
Proof.
  intros Hsel Hne Hdig Hc Hpw Hrun Hread.
  unfold Linux.set_default_os. step.
  rewrite (get_selected_index_selected _ _ Hsel), (given_Some _ Hne). step.
  rewrite (prompt_for_password_cached _ _ _ Hc Hpw), (given_Some _ Hpw), Hdig. step.
  unfold subprocess_run at 1. rewrite Hrun. step.
  rewrite Hread. step.
  rewrite linux_run_sudo_command_run. unfold classify.
  match goal with
  | |- context [run_process env ?h (sudo_call ?c ?w)] =>
      destruct (run_process env h (sudo_call c w)) as [q|[[] ?]]
  end; simpl;
    try destruct (returncode q =? 0)%Z; simpl; by rewrite <- app_assoc.
Qed.

Example set_default_os_moves_000A_to_front :
  let env := env_reboot_fails in
  let st := started env (Some "secret") [] [] in
  selected st "000A"
  ∧ spawned (Linux.set_default_os env st).2
    = spawned st ++
      [Call ["efibootmgr"] None;
       sudo_call ["efibootmgr"; "--bootorder"; "000A"; "000B"] "secret"].
Proof.
  split.
  - exists 0, (Item "Windows Boot Manager (Boot000A)" false).
    repeat split; vm_compute; reflexivity.
  - vm_compute; reflexivity.
Qed.

(** C1 (the code departs from the claim).  The operator selects the UEFI
    entry [000A] while the firmware order is [000B,000A]; the listing that
    [set_default_os] reads the order from fails (exit status 2, no output).
    The operation does not stop: after the listing it runs
    [efibootmgr --bootorder 000A] through [sudo], an order from which
    [000B] is gone. *)
Theorem set_default_os_writes_after_failed_read :
  let st := started env_order_unreadable None [] [("secret", true)] in
  selected st "000A"
  ∧ spawned (Linux.set_default_os env_order_unreadable st).2
    = spawned st ++
      [sudo_call ["echo"; "verified"] "secret";
       Call ["efibootmgr"] None;
       sudo_call ["efibootmgr"; "--bootorder"; "000A"] "secret"]
  ∧ shown (Linux.set_default_os env_order_unreadable st).2
    = [GetText "Sudo Password Required" "Enter your sudo password:";
       Information "Success" "Set Boot000A as default UEFI boot option."].
Proof.
  split.
  - exists 0, (Item "Windows Boot Manager (Boot000A)" false).
    repeat split; vm_compute; reflexivity.
  - split; vm_compute; reflexivity.
Qed.

(** ** SetOneTimeBoot: the preconditions and the two failures *)

(** [is_efivarfs_mounted] always returns: it starts [mount], may log, and
    answers [True] only for a listing that decodes and shows the mount
    point. *)
Lemma is_efivarfs_mounted_run env st :
  ∃ b msgs,
    Linux.is_efivarfs_mounted env st
    = (Ret b, with_logged (logged st ++ msgs)
                (with_spawned (spawned st ++ [mount_call]) st))
    ∧ (b = true ↔
       ∃ p, run_process env (spawned st) mount_call = Completed p
            ∧ returncode p = 0%Z
            ∧ Py.utf8_fault 0 (stdout p) = None
            ∧ Py.contains "efivarfs on /sys/firmware/efi/efivars" (stdout p) = true).
Proof.
  unfold Linux.is_efivarfs_mounted, try_except, check_output, subprocess_run, decode.
  unfold mbind, M_bind. fold mount_call.
  destruct (run_process env (spawned st) mount_call) as [p|e] eqn:Hrun.
  - destruct (returncode p =? 0)%Z eqn:Hrc; simpl.
    + destruct (Py.utf8_fault 0 (stdout p)) as [f|] eqn:Hdec; simpl.
      * eexists false, [_]. split; [reflexivity|]. split; [done|].
        intros (q & [= <-] & _ & Hq & _). congruence.
      * eexists _, []. split.
        -- unfold mret, M_ret. f_equal. destruct st; simpl. by rewrite app_nil_r.
        -- split.
           ++ intros Hb. exists p. split; [done|]. split; [by apply Z.eqb_eq|done].
           ++ intros (q & [= <-] & _ & _ & Hq). done.
    + eexists false, [_]. split; [reflexivity|]. split; [done|].
      intros (q & [= <-] & Hq & _). apply Z.eqb_neq in Hrc. done.
  - simpl. eexists false, [_]. split; [reflexivity|]. split; [done|].
    intros (q & [=] & _).
Qed.

Lemma is_efivarfs_mounted_true env st p :
  run_process env (spawned st) mount_call = Completed p →
  returncode p = 0%Z →
  Py.utf8_fault 0 (stdout p) = None →
  Py.contains "efivarfs on /sys/firmware/efi/efivars" (stdout p) = true →
  Linux.is_efivarfs_mounted env st
  = (Ret true, with_spawned (spawned st ++ [mount_call]) st).
Proof.
  intros Hrun Hrc Hdec Hc.
  unfold Linux.is_efivarfs_mounted, try_except, check_output, subprocess_run, decode.
  unfold mbind, M_bind. fold mount_call. rewrite Hrun, Hrc. simpl.
  rewrite Hdec. unfold mret, M_ret. by rewrite Hc.
Qed.

Lemma not_privileged_mount : privileged mount_call = false.
Proof. reflexivity. Qed.

(** C6. With an entry selected, [reboot_selected] checks the firmware mode
    first and the efivarfs mount second, each before the confirmation and
    before anything is run through [sudo].  Outside UEFI mode it shows
    "System is not in UEFI mode." and starts no process at all; in UEFI
    mode without efivarfs it shows "EFI variables are not accessible.
    Ensure efivarfs is mounted." after the [mount] listing and starts
    nothing else.  The two messages differ, and a privileged call is
    started only when both checks passed. *)
Theorem reboot_selected_checks_preconditions (env : Env) (st : State) (index : string) :
  selected st index →
  index ≠ "" →
  let mounted := Linux.is_efivarfs_mounted env st in
  let final := Linux.reboot_selected env st in
  (Linux.is_uefi_mode env = false →
     final = (Ret tt, with_shown (shown st ++ [not_uefi_message]) st))
  ∧ (Linux.is_uefi_mode env = true → mounted.1 = Ret false →
     final = (Ret tt, with_shown (shown mounted.2 ++ [efivarfs_message]) mounted.2)
     ∧ shown final.2 = shown st ++ [efivarfs_message]
     ∧ spawned final.2 = spawned st ++ [mount_call])
  ∧ not_uefi_message ≠ efivarfs_message
  ∧ (∀ c, c ∈ spawned final.2 → privileged c = true →
       c ∈ spawned st
       ∨ (Linux.is_uefi_mode env = true ∧ mounted.1 = Ret true)).
Proof.
  intros Hsel Hne mounted final.
  destruct (is_efivarfs_mounted_run env st) as (b & msgs & Hrun & _).
  set (st1 := with_logged (logged st ++ msgs)
                (with_spawned (spawned st ++ [mount_call]) st)) in Hrun.
  assert (Hm : mounted = (Ret b, st1)) by exact Hrun.
  assert (H1 : Linux.is_uefi_mode env = false →
               final = (Ret tt, with_shown (shown st ++ [not_uefi_message]) st)).
  { intros Hu. subst final. unfold Linux.reboot_selected. step.
    rewrite (get_selected_index_selected _ _ Hsel), (given_Some _ Hne), Hu.
    reflexivity. }
  assert (H2 : Linux.is_uefi_mode env = true → b = false →
               final = (Ret tt, with_shown (shown st1 ++ [efivarfs_message]) st1)).
  { intros Hu ->. subst final. unfold Linux.reboot_selected. step.
    rewrite (get_selected_index_selected _ _ Hsel), (given_Some _ Hne), Hu.
    simpl. step. rewrite Hrun. reflexivity. }
  rewrite Hm. simpl.
  split; [|split; [|split]].
  - exact H1.
  - intros Hu [= ->]. by rewrite H2.
  - discriminate.
  - intros c Hc Hpriv.
    destruct (Linux.is_uefi_mode env) eqn:Hu.
    + destruct b; [by right|]. rewrite H2 in Hc by done. simpl in Hc.
      apply elem_of_app in Hc as [Hc|Hc]; [by left|].
      apply list_elem_of_singleton in Hc as ->. discriminate.
    + rewrite H1 in Hc by done. by left.
Qed.

Lemma reboot_selected_checks_preconditions_witness :
  Linux.reboot_selected env_legacy (started env_legacy None [] [])
  = (Ret tt, with_shown (shown (started env_legacy None [] []) ++ [not_uefi_message])
               (started env_legacy None [] [])).
Proof.
  assert (Hsel : selected (started env_legacy None [] []) "000A").
  { exists 0, (Item "Windows Boot Manager (Boot000A)" false).
    repeat split; vm_compute; reflexivity. }
  assert (Hne : "000A" ≠ "") by discriminate.
  exact (proj1 (reboot_selected_checks_preconditions
                  env_legacy (started env_legacy None [] []) "000A" Hsel Hne)
               eq_refl).
Defined.

Lemma question_run title text b rest st :
  confirm_replies st = b :: rest →
  question title text st
  = (Ret b, with_confirm_replies rest (with_shown (shown st ++ [Question title text]) st)).
Proof.
  intros Hc. unfold question, show, modify, get, mbind, M_bind. simpl.
  rewrite Hc. reflexivity.
Qed.

(** The failures of commands that ran to their end, with both
    preconditions met, the reboot confirmed and a credential cached: when
    the [efibootmgr -n] command exits with a non-zero status, the only
    message is "BootNext Failed / Failed to set one-time boot." with the
    error of that command, and [reboot] is not run; when it exits with 0
    and [reboot] then exits with a non-zero status, the only message is
    "Reboot Failed / Failed to reboot." with the error of [reboot].  The
    two messages are never equal. *)
Lemma reboot_selected_completed_failures
    (env : Env) (st : State) (index password : string) (rest : list bool)
    (pm p1 : CompletedProcess) :
  selected st index → index ≠ "" →
  Linux.is_uefi_mode env = true →
  run_process env (spawned st) mount_call = Completed pm →
  returncode pm = 0%Z →
  Py.utf8_fault 0 (stdout pm) = None →
  Py.contains "efivarfs on /sys/firmware/efi/efivars" (stdout pm) = true →
  confirm_replies st = true :: rest →
  sudo_password st = Some password → password ≠ "" →
  let set_next := sudo_call ["efibootmgr"; "-n"; index] password in
  let reboot := sudo_call ["reboot"] password in
  run_process env (spawned st ++ [mount_call]) set_next = Completed p1 →
  let final := Linux.reboot_selected env st in
  (returncode p1 ≠ 0%Z →
     final.1 = Ret tt
     ∧ shown final.2
       = shown st ++
         [question_reboot index;
          Critical "BootNext Failed"
            ("Failed to set one-time boot." +:+ nl +:+
             failure_text ["efibootmgr"; "-n"; index] p1)]
     ∧ spawned final.2 = spawned st ++ [mount_call; set_next])
  ∧ (returncode p1 = 0%Z →
     ∀ p2, run_process env (spawned st ++ [mount_call; set_next]) reboot = Completed p2 →
           returncode p2 ≠ 0%Z →
           final.1 = Ret tt
           ∧ shown final.2
             = shown st ++
               [question_reboot index;
                Critical "Reboot Failed"
                  ("Failed to reboot." +:+ nl +:+ failure_text ["reboot"] p2)]
           ∧ spawned final.2 = spawned st ++ [mount_call; set_next; reboot])
  ∧ (∀ text1 text2, Critical "Reboot Failed" text1 ≠ Critical "BootNext Failed" text2).
Proof.
  intros Hsel Hne Hu Hm Hmrc Hmd Hmc Hconf Hpw Hpwne set_next reboot Hp1 final.
  assert (Hfinal : final =
    let st1 := with_confirm_replies rest
                 (with_shown (shown st ++ [question_reboot index])
                    (with_spawned (spawned st ++ [mount_call]) st)) in
    ('(success, err) ← Linux.run_sudo_command env ["efibootmgr"; "-n"; index] password;
     if success : bool then
       '(success2, err2) ← Linux.run_sudo_command env ["reboot"] password;
       if success2 : bool then
         show (Information "Rebooting" "System is rebooting now...")
       else
         show (Critical "Reboot Failed"
                 ("Failed to reboot." +:+ nl +:+ default "None" err2))
     else
       show (Critical "BootNext Failed"
               ("Failed to set one-time boot." +:+ nl +:+ default "None" err))) st1).
  { subst final. unfold Linux.reboot_selected. step.
    rewrite (get_selected_index_selected _ _ Hsel), (given_Some _ Hne), Hu.
    cbn [negb]. step.
    rewrite (is_efivarfs_mounted_true _ _ _ Hm Hmrc Hmd Hmc). cbn [negb].
    step. rewrite (question_run _ _ true rest) by exact Hconf.
    cbn [negb]. step.
    rewrite (prompt_for_password_cached _ _ password) by done.
    rewrite (given_Some _ Hpwne).
    destruct (Py.isdigit index); reflexivity. }
  split; [|split].
  - intros Hrc. rewrite Hfinal. cbv zeta. unfold mbind, M_bind.
    rewrite linux_run_sudo_command_run. simpl spawned.
    fold set_next. rewrite Hp1. unfold classify.
    apply Z.eqb_neq in Hrc. rewrite Hrc. simpl.
    by rewrite <- !app_assoc.
  - intros Hrc p2 Hp2 Hrc2. rewrite Hfinal. cbv zeta. unfold mbind, M_bind.
    rewrite linux_run_sudo_command_run. simpl spawned.
    fold set_next. rewrite Hp1. unfold classify at 1 2 3.
    rewrite Hrc. change (0 =? 0)%Z with true. cbv beta iota.
    rewrite linux_run_sudo_command_run. simpl spawned.
    fold reboot. rewrite <- app_assoc. simpl app. rewrite Hp2. unfold classify.
    apply Z.eqb_neq in Hrc2. rewrite Hrc2. simpl.
    by rewrite <- !app_assoc.
  - intros text1 text2. discriminate.
Qed.

Example reboot_failure_is_reported :
  let env := env_reboot_fails in
  let st := started env (Some "secret") [true] [] in
  (Linux.reboot_selected env st).1 = Ret tt
  ∧ shown (Linux.reboot_selected env st).2
    = shown st ++
      [question_reboot "000A";
       Critical "Reboot Failed"
         ("Failed to reboot." +:+ nl +:+
          failure_text ["reboot"]
            {| returncode := 1; stdout := ""; stderr := "Failed to talk to init daemon." |})]
  ∧ spawned (Linux.reboot_selected env st).2
    = spawned st ++ [mount_call; sudo_call ["efibootmgr"; "-n"; "000A"] "secret";
                     sudo_call ["reboot"] "secret"].
Proof.
  intros env st.
  assert (Hsel : selected st "000A").
  { exists 0, (Item "Windows Boot Manager (Boot000A)" false).
    repeat split; vm_compute; reflexivity. }
  assert (Hne : "000A" ≠ "") by discriminate.
  assert (Hpw : "secret" ≠ "") by discriminate.
  pose proof (reboot_selected_completed_failures env st "000A" "secret" []
                {| returncode := 0; stdout := efivarfs_line; stderr := "" |}
                {| returncode := 0; stdout := ""; stderr := "" |}
                Hsel Hne eq_refl eq_refl eq_refl eq_refl eq_refl eq_refl eq_refl Hpw
                eq_refl)
    as (_ & H & _).
  apply (H eq_refl); [reflexivity|discriminate].
Qed.

Example boot_next_failure_is_reported :
  let env := env_boot_next_fails in
  let st := started env (Some "secret") [true] [] in
  shown (Linux.reboot_selected env st).2
  = [question_reboot "000A";
     Critical "BootNext Failed"
       ("Failed to set one-time boot." +:+ nl +:+
        "Command failed: efibootmgr -n 000A" +:+ nl +:+
        "Could not set BootNext: Operation not permitted")]
  ∧ spawned (Linux.reboot_selected env st).2
    = spawned st ++ [mount_call; sudo_call ["efibootmgr"; "-n"; "000A"] "secret"].
Proof. split; vm_compute; reflexivity. Qed.

(** C7 (the code departs from the claim).  With both preconditions met,
    the reboot confirmed and a password obtained from
    [prompt_for_password], let [efibootmgr -n <id>] exit with status 0: the
    one-time boot target is set.  When the [reboot] command then cannot be
    started, [run_sudo_command] lets the exception escape and
    [reboot_selected] ends with it: both commands were started and no
    dialog follows those of the prompt, so that nothing tells the operator
    that the target is set and the machine did not reboot.  With the
    credential cached, the only dialog of the whole operation is the
    question. *)
Theorem reboot_selected_hides_unstarted_reboot
    (env : Env) (st st3 : State) (index password : string) (rest : list bool)
    (pm : CompletedProcess) (e : exn) :
  selected st index → index ≠ "" →
  Linux.is_uefi_mode env = true →
  run_process env (spawned st) mount_call = Completed pm →
  returncode pm = 0%Z →
  Py.utf8_fault 0 (stdout pm) = None →
  Py.contains "efivarfs on /sys/firmware/efi/efivars" (stdout pm) = true →
  confirm_replies st = true :: rest →
  let asked := with_confirm_replies rest
                 (with_shown (shown st ++ [question_reboot index])
                    (with_spawned (spawned st ++ [mount_call]) st)) in
  Linux.prompt_for_password env asked = (Ret (Some password), st3) →
  password ≠ "" →
  succeeded env (spawned st3) (set_next_call index password) →
  run_process env (spawned st3 ++ [set_next_call index password])
              (sudo_call ["reboot"] password) = Failed e →
  (∀ err, exn_cls e ≠ CalledProcessError err) →
  let final := Linux.reboot_selected env st in
  final.1 = Raise e
  ∧ shown final.2 = shown st3
  ∧ spawned final.2
    = spawned st3 ++ [set_next_call index password; sudo_call ["reboot"] password]
  ∧ (sudo_password st = Some password →
     shown final.2 = shown st ++ [question_reboot index]).
Proof.
  intros Hsel Hne Hu Hm Hmrc Hmd Hmc Hconf asked Hprompt Hpwne (p1 & Hp1 & Hrc1)
         Hp2 Hcls final.
  assert (Hfinal : final =
    ('(success, err) ← Linux.run_sudo_command env ["efibootmgr"; "-n"; index] password;
     if success : bool then
       '(success2, err2) ← Linux.run_sudo_command env ["reboot"] password;
       if success2 : bool then
         show (Information "Rebooting" "System is rebooting now...")
       else
         show (Critical "Reboot Failed"
                 ("Failed to reboot." +:+ nl +:+ default "None" err2))
     else
       show (Critical "BootNext Failed"
               ("Failed to set one-time boot." +:+ nl +:+ default "None" err))) st3).
  { subst final. unfold Linux.reboot_selected. step.
    rewrite (get_selected_index_selected _ _ Hsel), (given_Some _ Hne), Hu.
    cbn [negb]. step.
    rewrite (is_efivarfs_mounted_true _ _ _ Hm Hmrc Hmd Hmc). cbn [negb].
    step. rewrite (question_run _ _ true rest) by exact Hconf.
    cbn [negb]. step.
    match goal with
    | |- context [Linux.prompt_for_password env ?s] => change s with asked
    end.
    rewrite Hprompt, (given_Some _ Hpwne).
    destruct (Py.isdigit index); reflexivity. }
  assert (Hrun : final
                 = (Raise e,
                    with_spawned
                      (spawned st3 ++ [set_next_call index password] ++
                       [sudo_call ["reboot"] password])
                      (with_logged
                         (logged st3 ++
                          [(INFO, success_text ["efibootmgr"; "-n"; index])]) st3))).
  { rewrite Hfinal. unfold mbind, M_bind.
    rewrite linux_run_sudo_command_run. fold (set_next_call index password).
    rewrite Hp1. unfold classify at 1.
    rewrite Hrc1. change (0 =? 0)%Z with true. cbv beta iota.
    rewrite linux_run_sudo_command_run. simpl spawned. rewrite Hp2.
    rewrite classify_escapes_state by exact Hcls. simpl.
    by rewrite <- app_assoc. }
  rewrite Hrun. simpl. split; [done|]. split; [done|]. split; [done|].
  intros Hcached.
  rewrite (prompt_for_password_cached env asked password) in Hprompt by done.
  by injection Hprompt as <-.
Qed.

Lemma reboot_selected_hides_unstarted_reboot_witness :
  let env := env_reboot_unstartable in
  let st := started env (Some "secret") [true] [] in
  (Linux.reboot_selected env st).1 = Raise (Exn OSError "[Errno 12] Cannot allocate memory")
  ∧ shown (Linux.reboot_selected env st).2 = shown st ++ [question_reboot "000A"]
  ∧ spawned (Linux.reboot_selected env st).2
    = spawned st ++ [mount_call; set_next_call "000A" "secret";
                     sudo_call ["reboot"] "secret"].
Proof.
  intros env st.
  assert (Hsel : selected st "000A").
  { exists 0, (Item "Windows Boot Manager (Boot000A)" false).
    repeat split; vm_compute; reflexivity. }
  assert (Hne : "000A" ≠ "") by discriminate.
  assert (Hpw : "secret" ≠ "") by discriminate.
  assert (Hnext : succeeded env (spawned st ++ [mount_call])
                            (set_next_call "000A" "secret")).
  { eexists. split; reflexivity. }
  assert (Hcls : ∀ err, OSError ≠ CalledProcessError err) by discriminate.
  pose proof (reboot_selected_hides_unstarted_reboot env st _ "000A" "secret" []
                {| returncode := 0; stdout := efivarfs_line; stderr := "" |}
                (Exn OSError "[Errno 12] Cannot allocate memory")
                Hsel Hne eq_refl eq_refl eq_refl eq_refl eq_refl eq_refl eq_refl Hpw
                Hnext eq_refl Hcls)
    as (H1 & _ & H3 & H4).
  split; [exact H1|]. split; [exact (H4 eq_refl)|]. exact H3.
Defined.

(** ** The credential cache *)

Section PromptLoop.
Variable env : Env.
Variable prompt : dialog.
Variable validation : string -> call.
Variable loop : nat -> M (option string).
Hypothesis loop_turn : ∀ turns st,
  loop turns st
  = prompt_turn env prompt validation
      (match turns with S turns' => Some (loop turns') | O => None end) st.

Lemma classify_cases command_list c st o :
  let st' := with_spawned (spawned st ++ [c]) st in
  (∃ msgs, classify command_list c st o
           = (Ret (true, None), with_logged (logged st ++ msgs) st')
           ∧ ∃ p, o = Completed p ∧ returncode p = 0%Z)
  ∨ (∃ msgs err, classify command_list c st o
                 = (Ret (false, Some err), with_logged (logged st ++ msgs) st')
                 ∧ ¬ ∃ p, o = Completed p ∧ returncode p = 0%Z)
  ∨ (∃ e, classify command_list c st o = (Raise e, st')
          ∧ ¬ ∃ p, o = Completed p ∧ returncode p = 0%Z).
Proof.
  intros st'. unfold classify. fold st'. destruct o as [p|e].
  - destruct (returncode p =? 0)%Z eqn:Hrc.
    + left. eexists. split; [reflexivity|]. exists p. split; [done|by apply Z.eqb_eq].
    + right; left. eexists _, _. split; [reflexivity|].
      intros (q & [= <-] & Hq). apply Z.eqb_neq in Hrc. done.
  - destruct (exn_cls e) eqn:Hcls.
    all: try (right; right; exists e; split; [reflexivity|by intros (q & [=] & _)]).
    right; left. eexists _, _. split; [reflexivity|]. by intros (q & [=] & _).
Qed.

Lemma prompt_loop_outcome (replies : list (string * bool)) :
  ∀ turns st,
    password_replies st = replies → length replies ≤ turns →
    truthy (sudo_password st) = false →
    prompt_outcome env prompt validation st (loop turns st).1 (loop turns st).2.
Proof.
  induction replies as [|[password accepted] rest IH]; intros turns st Hr Hlen Hcache.
  - rewrite loop_turn. unfold prompt_turn. rewrite Hcache, Hr. simpl.
    exists []. split; [intros i w [=]|]. split; [reflexivity|].
    right. split; [reflexivity|]. split; [discriminate|].
    exists []. split; [by left|]. simpl. split; [by rewrite app_nil_r|].
    apply prefix_nil.
  - rewrite loop_turn. unfold prompt_turn. rewrite Hcache, Hr.
    destruct accepted.
    2:{ simpl. exists []. split; [intros i w [=]|]. split; [reflexivity|].
        right. split; [reflexivity|]. split; [discriminate|].
        exists []. split; [by left|]. simpl. split; [by rewrite app_nil_r|].
        apply prefix_nil. }
    cbv zeta.
    set (st2 := with_password_replies rest
                  (with_shown (shown st ++ [prompt]) st)).
    destruct (classify_cases ["echo"; "verified"] (validation password) st2
                (run_process env (spawned st) (validation password)))
      as [(msgs & -> & Hok)|[(msgs & err & -> & Hko)|(e & -> & Hko)]].
    + simpl. exists []. split; [intros i w [=]|]. split; [reflexivity|].
      left. exists password. simpl. rewrite Hr, app_nil_r. done.
    + destruct turns as [|turns]; [simpl in Hlen; lia|].
      set (st4 := with_shown _ _).
      assert (Hst4 : password_replies st4 = rest) by reflexivity.
      assert (Hc4 : truthy (sudo_password st4) = false) by exact Hcache.
      specialize (IH turns st4 Hst4 ltac:(simpl in Hlen; lia) Hc4).
      destruct IH as (failed & Hfailed & Hshown & Hend).
      assert (Hsp4 : spawned st4 = spawned st ++ [validation password]) by reflexivity.
      assert (Hsh4 : shown st4 = shown st ++ [prompt; auth_failed])
        by (simpl; by rewrite <- app_assoc).
      exists (password :: failed). split; [|split].
      * intros [|i] w Hw; simpl in Hw.
        -- injection Hw as <-. simpl. by rewrite app_nil_r.
        -- simpl. specialize (Hfailed i w Hw). rewrite Hsp4, <- app_assoc in Hfailed.
           exact Hfailed.
      * rewrite Hshown, Hsh4. simpl. by rewrite <- !app_assoc.
      * destruct Hend as [(w & Hret & Hcached & Hreplies & Hspawned & Hsucc)
                         |(Hcached & Hret & more & Hmore & Hspawned & Hprefix)].
        -- left. exists w. split; [done|]. split; [done|].
           split; [simpl; by rewrite Hr, <- Hreplies|].
           rewrite Hsp4, <- app_assoc in Hspawned, Hsucc. done.
        -- right. split; [done|]. split; [done|].
           exists more. split; [done|].
           rewrite Hsp4, <- app_assoc in Hspawned. split; [done|].
           simpl. rewrite Hr. by apply prefix_cons.
    + simpl. exists []. split; [intros i w [=]|]. split; [reflexivity|].
      right. split; [reflexivity|]. split; [discriminate|].
      exists [password]. split; [right; by exists password|]. split; [reflexivity|].
      simpl. rewrite Hr. apply prefix_cons, prefix_nil.
Qed.

Lemma prompt_loop_cached turns st :
  truthy (sudo_password st) = true →
  loop turns st = (Ret (sudo_password st), st).
Proof. intros Hc. rewrite loop_turn. unfold prompt_turn. by rewrite Hc. Qed.

End PromptLoop.

Lemma linux_prompt_loop_turn env turns st :
  Linux.prompt_loop env turns st
  = prompt_turn env linux_prompt linux_validation
      (match turns with S turns' => Some (Linux.prompt_loop env turns') | O => None end) st.
Proof.
  unfold prompt_turn.
  destruct turns; cbn [Linux.prompt_loop]; run_monad.
  all: destruct (truthy (sudo_password st)); [reflexivity|].
  all: destruct (password_replies st) as [|[password []] rest]; try reflexivity.
  all: run_monad; rewrite linux_run_sudo_command_run.
  all: run_monad; fold (linux_validation password).
  all: destruct (classify _ _ _ _) as [[[[] ?]| |] ?]; reflexivity.
Qed.

Lemma windows_prompt_loop_turn env turns st :
  Windows.prompt_loop env turns st
  = prompt_turn env windows_prompt windows_validation
      (match turns with S turns' => Some (Windows.prompt_loop env turns') | O => None end) st.
Proof.
  unfold prompt_turn.
  destruct turns; cbn [Windows.prompt_loop]; run_monad.
  all: destruct (truthy (sudo_password st)); [reflexivity|].
  all: destruct (password_replies st) as [|[password []] rest]; try reflexivity.
  all: run_monad; rewrite windows_run_sudo_command_run.
  all: run_monad; fold (windows_validation password).
  all: destruct (classify _ _ _ _) as [[[[] ?]| |] ?]; reflexivity.
Qed.

Lemma linux_prompt_for_password_turn env st :
  Linux.prompt_for_password env st
  = prompt_turn env linux_prompt linux_validation
      (match length (password_replies st) with
       | S turns => Some (Linux.prompt_loop env turns)
       | O => None
       end) st.
Proof.
  unfold Linux.prompt_for_password. step. unfold get. cbv beta iota.
  apply linux_prompt_loop_turn.
Qed.

Lemma windows_prompt_for_password_turn env st :
  Windows.prompt_for_password env st
  = prompt_turn env windows_prompt windows_validation
      (match length (password_replies st) with
       | S turns => Some (Windows.prompt_loop env turns)
       | O => None
       end) st.
Proof.
  unfold Windows.prompt_for_password. step. unfold get. cbv beta iota.
  apply windows_prompt_loop_turn.
Qed.

Example prompt_after_wrong_password :
  let env := env_checking_password "secret" in
  let st := fresh [] [("wrong", true); ("secret", true)] in
  (Linux.prompt_for_password env st).1 = Ret (Some "secret")
  ∧ sudo_password (Linux.prompt_for_password env st).2 = Some "secret"
  ∧ shown (Linux.prompt_for_password env st).2 = [linux_prompt; auth_failed; linux_prompt]
  ∧ spawned (Linux.prompt_for_password env st).2
    = [linux_validation "wrong"; linux_validation "secret"].
Proof. repeat split; reflexivity. Qed.

(** Without a credential from the prompt, the operation stops there: it
    starts nothing after the validations of the prompt. *)
Lemma set_default_os_without_credential env st index :
  selected st index → index ≠ "" →
  (∀ password, (Linux.prompt_for_password env st).1 ≠ Ret (Some password)) →
  (Linux.set_default_os env st).2 = (Linux.prompt_for_password env st).2.
Proof.
  intros Hsel Hne Hnone. unfold Linux.set_default_os. step.
  rewrite (get_selected_index_selected _ _ Hsel), (given_Some _ Hne). step.
  destruct (Linux.prompt_for_password env st) as [[[password|]| |] st1]; try reflexivity.
  by destruct (Hnone password).
Qed.

(** What a call of [prompt_for_password] that starts without a cached
    credential has done when it ends, on either platform: every secret
    whose validation [echo verified] did not succeed is left out of the
    cache; the processes started are the validations of the secrets the
    operator entered, one for each, in order; and at the end either the
    last secret entered passed its validation, and it is the one now cached
    and returned, or the cache is unchanged and no secret is returned. *)
Lemma prompt_for_password_outcome (env : Env) (st : State) :
  truthy (sudo_password st) = false →
  prompt_outcome env linux_prompt linux_validation st
    (Linux.prompt_for_password env st).1 (Linux.prompt_for_password env st).2
  ∧ prompt_outcome env windows_prompt windows_validation st
      (Windows.prompt_for_password env st).1 (Windows.prompt_for_password env st).2.
Proof.
  intros Hcache. split.
  - apply (prompt_loop_outcome env linux_prompt linux_validation
             (Linux.prompt_loop env) (linux_prompt_loop_turn env)
             (password_replies st)); done.
  - apply (prompt_loop_outcome env windows_prompt windows_validation
             (Windows.prompt_loop env) (windows_prompt_loop_turn env)
             (password_replies st)); done.
Qed.

(** A call that starts without a cached credential shows the prompt
    first, whatever follows. *)
Lemma prompt_outcome_prompts env prompt validation st r st' :
  prompt_outcome env prompt validation st r st' →
  ∃ tail, shown st' = shown st ++ prompt :: tail.
Proof.
  intros (failed & _ & Hshown & _). rewrite Hshown.
  destruct failed as [|w failed]; simpl; eexists; reflexivity.
Qed.

(** C4 (the code departs from the claim).  One turn of the loop of
    [prompt_for_password], on both platforms: nothing is cached and the
    operator types a secret into the dialog.  When the validation
    [echo verified] of the secret ran and exited with a non-zero status,
    the secret is not cached, "Authentication Failed" is shown and the
    call goes on as a call from the state after that message, which shows
    the prompt again.  When the validation cannot be started,
    [run_sudo_command] lets the exception escape and [prompt_for_password]
    ends with it: the secret is not cached, but "Authentication Failed" is
    not shown and the operator is not prompted again. *)
Theorem prompt_for_password_after_failed_validation
    (env : Env) (st : State) (typed : string) (replies : list (string * bool)) :
  truthy (sudo_password st) = false →
  password_replies st = (typed, true) :: replies →
  let linux := answered linux_prompt replies st in
  let windows := answered windows_prompt replies st in
  (∀ p, run_process env (spawned st) (linux_validation typed) = Completed p →
        returncode p ≠ 0%Z →
        Linux.prompt_for_password env st
        = Linux.prompt_for_password env (turned_down (linux_validation typed) p linux)
        ∧ ∃ tail, shown (Linux.prompt_for_password env st).2
                  = shown st ++ [linux_prompt; auth_failed; linux_prompt] ++ tail)
  ∧ (∀ p, run_process env (spawned st) (windows_validation typed) = Completed p →
          returncode p ≠ 0%Z →
          Windows.prompt_for_password env st
          = Windows.prompt_for_password env
              (turned_down (windows_validation typed) p windows)
          ∧ ∃ tail, shown (Windows.prompt_for_password env st).2
                    = shown st ++ [windows_prompt; auth_failed; windows_prompt] ++ tail)
  ∧ (∀ e, run_process env (spawned st) (linux_validation typed) = Failed e →
          (∀ err, exn_cls e ≠ CalledProcessError err) →
          Linux.prompt_for_password env st
          = (Raise e, with_spawned (spawned st ++ [linux_validation typed]) linux))
  ∧ (∀ e, run_process env (spawned st) (windows_validation typed) = Failed e →
          (∀ err, exn_cls e ≠ CalledProcessError err) →
          Windows.prompt_for_password env st
          = (Raise e, with_spawned (spawned st ++ [windows_validation typed]) windows)).
Proof.
  intros Hcache Hreplies linux windows. subst linux windows.
  assert (Hnext : ∀ prompt c p,
            truthy (sudo_password (turned_down c p (answered prompt replies st))) = false)
    by (intros; exact Hcache).
  split; [|split; [|split]].
  - intros p Hp Hrc.
    assert (Heq : Linux.prompt_for_password env st
                  = Linux.prompt_for_password env
                      (turned_down (linux_validation typed) p
                         (answered linux_prompt replies st))).
    { rewrite linux_prompt_for_password_turn. unfold prompt_turn.
      rewrite Hcache, Hreplies, Hp. unfold classify.
      apply Z.eqb_neq in Hrc. rewrite Hrc. reflexivity. }
    split; [exact Heq|]. rewrite Heq.
    destruct (prompt_outcome_prompts _ _ _ _ _ _
                (proj1 (prompt_for_password_outcome env _
                          (Hnext linux_prompt (linux_validation typed) p))))
      as [tail Htail].
    exists tail. rewrite Htail. simpl. rewrite <- !app_assoc. reflexivity.
  - intros p Hp Hrc.
    assert (Heq : Windows.prompt_for_password env st
                  = Windows.prompt_for_password env
                      (turned_down (windows_validation typed) p
                         (answered windows_prompt replies st))).
    { rewrite windows_prompt_for_password_turn. unfold prompt_turn.
      rewrite Hcache, Hreplies, Hp. unfold classify.
      apply Z.eqb_neq in Hrc. rewrite Hrc. reflexivity. }
    split; [exact Heq|]. rewrite Heq.
    destruct (prompt_outcome_prompts _ _ _ _ _ _
                (proj2 (prompt_for_password_outcome env _
                          (Hnext windows_prompt (windows_validation typed) p))))
      as [tail Htail].
    exists tail. rewrite Htail. simpl. rewrite <- !app_assoc. reflexivity.
  - intros e He Hcls. rewrite linux_prompt_for_password_turn. unfold prompt_turn.
    rewrite Hcache, Hreplies, He. cbv zeta.
    by rewrite classify_escapes_state.
  - intros e He Hcls. rewrite windows_prompt_for_password_turn. unfold prompt_turn.
    rewrite Hcache, Hreplies, He. cbv zeta.
    by rewrite classify_escapes_state.
Qed.

Lemma prompt_for_password_after_failed_validation_witness :
  let st := fresh [] [("secret", true)] in
  Linux.prompt_for_password env_without_elevation st
  = (Raise (not_found "sudo"),
     with_spawned [linux_validation "secret"] (answered linux_prompt [] st))
  ∧ Windows.prompt_for_password env_without_elevation st
    = (Raise (not_found "runas"),
       with_spawned [windows_validation "secret"] (answered windows_prompt [] st)).
Proof.
  intros st.
  destruct (prompt_for_password_after_failed_validation
              env_without_elevation st "secret" [] eq_refl eq_refl)
    as (_ & _ & Hlinux & Hwindows).
  split.
  - apply (Hlinux (not_found "sudo") eq_refl). discriminate.
  - apply (Hwindows (not_found "runas") eq_refl). discriminate.
Defined.

Example prompt_again_after_wrong_password :
  let env := env_checking_password "secret" in
  let st := fresh [] [("wrong", true)] in
  Linux.prompt_for_password env st
  = (Blocked,
     with_shown [linux_prompt; auth_failed; linux_prompt]
       (with_logged
          [(ERROR, "Command failed: echo verified" +:+ nl +:+
                   "sudo: 1 incorrect password attempt")]
          (with_spawned [linux_validation "wrong"]
             (with_password_replies [] st)))).
Proof. reflexivity. Qed.

(** ** The GRUB adapter *)

Lemma strip_prefix_Some p s r : Py.strip_prefix p s = Some r ↔ s = p +:+ r.
Proof.
  revert s. induction p as [|a p IH]; intros s; simpl.
  - split; [by intros [= ->]|by intros ->].
  - destruct s as [|b s]; [split; discriminate|].
    destruct (Ascii.eqb_spec a b) as [->|Hne].
    + rewrite IH. split; [by intros ->|by intros [= ->]].
    + split; [discriminate|intros [= -> _]; done].
Qed.

Lemma until_quote_Some s t :
  Linux.until_quote s = Some t ↔ quote_free t ∧ ∃ post, s = t +:+ String "'" post.
Proof.
  revert t. induction s as [|c s IH]; intros t; simpl.
  - split; [discriminate|]. intros (_ & post & H). destruct t; discriminate.
  - destruct (Ascii.eqb_spec c "'") as [->|Hne].
    + split.
      * intros [= <-]. split; [exact I|]. by exists s.
      * intros (Hq & post & H). destruct t as [|c t]; [done|].
        simpl in H, Hq. injection H as <- _. by destruct Hq.
    + destruct (Linux.until_quote s) as [t'|].
      * split.
        -- intros [= <-]. destruct (proj1 (IH t') eq_refl) as (Hq & post & ->).
           split; [done|]. by exists post.
        -- intros (Hq' & post' & H). destruct t as [|c' t]; simpl in H.
           { injection H as -> _. done. }
           injection H as <- H. destruct Hq' as [_ Hq'].
           assert (Ht : Some t' = Some t)
             by (apply IH; split; [done|by exists post']).
           by injection Ht as ->.
      * split; [discriminate|]. intros (Hq' & post' & H).
        destruct t as [|c' t]; simpl in H.
        { injection H as -> _. done. }
        injection H as <- H. destruct Hq' as [_ Hq'].
        assert (Ht : None = Some t)
          by (apply IH; split; [done|by exists post']).
        discriminate.
Qed.

Lemma match_menuentry_Some s t :
  Linux.match_menuentry s = Some t
  ↔ t ≠ "" ∧ quote_free t ∧ ∃ post, s = "menuentry '" +:+ t +:+ "'" +:+ post.
Proof.
  unfold Linux.match_menuentry. split.
  - destruct (Py.strip_prefix "menuentry '" s) as [rest|] eqn:Hp; [|discriminate].
    apply strip_prefix_Some in Hp as ->.
    destruct (Linux.until_quote rest) as [[|c t']|] eqn:Hq; try discriminate.
    intros [= <-]. apply until_quote_Some in Hq as (Hq & post & ->).
    split; [discriminate|]. split; [done|]. by exists post.
  - intros (Hne & Hq & post & ->).
    rewrite (proj2 (strip_prefix_Some _ _ (t +:+ "'" +:+ post)) eq_refl).
    rewrite (proj2 (until_quote_Some (t +:+ "'" +:+ post) t)) by (split; [done|by exists post]).
    by destruct t.
Qed.

Lemma search_menuentry_Some line t :
  Linux.search_menuentry line = Some t → menuentry_match line t.
Proof.
  induction line as [|c line IH].
  - simpl. discriminate.
  - cbn [Linux.search_menuentry].
    destruct (Linux.match_menuentry (String c line)) as [t'|] eqn:Hm.
    + intros [= <-]. apply match_menuentry_Some in Hm as (Hne & Hq & post & ->).
      by exists "", post.
    + intros Hs. destruct (IH Hs) as (pre & post & -> & Hne & Hq).
      by exists (String c pre), post.
Qed.

Lemma search_menuentry_None line :
  Linux.search_menuentry line = None → ∀ t, ¬ menuentry_match line t.
Proof.
  intros Hs t (pre & post & -> & Hne & Hq). revert Hs.
  induction pre as [|c pre IH].
  - assert (Hm : Linux.match_menuentry ("menuentry '" +:+ t +:+ "'" +:+ post) = Some t)
      by (apply match_menuentry_Some; split; [done|]; split; [done|by exists post]).
    change ("" +:+ ?s) with s. 
    destruct ("menuentry '" +:+ t +:+ "'" +:+ post) eqn:Hl;
      cbn [Linux.search_menuentry]; rewrite Hm; discriminate.
  - change (String c pre +:+ ?s) with (String c (pre +:+ s)).
    cbn [Linux.search_menuentry].
    destruct (Linux.match_menuentry _); [discriminate|]. exact IH.
Qed.

Lemma grub_titles_snoc_acc (lines : list string) (acc : list string) :
  foldl (fun entries line =>
           match Linux.search_menuentry line with
           | Some title => entries ++ [title]
           | None => entries
           end) acc lines
  = acc ++ Linux.grub_titles lines.
Proof.
  unfold Linux.grub_titles. revert acc.
  induction lines as [|line lines IH]; intros acc; simpl.
  - by rewrite app_nil_r.
  - destruct (Linux.search_menuentry line) as [t|].
    + rewrite (IH (acc ++ [t])), (IH [t]). by rewrite <- app_assoc.
    + apply IH.
Qed.

Lemma grub_titles_cons line lines :
  Linux.grub_titles (line :: lines)
  = match Linux.search_menuentry line with
    | Some title => title :: Linux.grub_titles lines
    | None => Linux.grub_titles lines
    end.
Proof.
  unfold Linux.grub_titles at 1. simpl.
  destruct (Linux.search_menuentry line) as [t|]; [|reflexivity].
  by rewrite grub_titles_snoc_acc.
Qed.

Lemma grub_titles_extracted lines : extracted lines (Linux.grub_titles lines).
Proof.
  induction lines as [|line lines IH]; [constructor|].
  rewrite grub_titles_cons.
  destruct (Linux.search_menuentry line) as [t|] eqn:Hs.
  - apply extracted_match; [by apply search_menuentry_Some|done].
  - apply extracted_skip; [by apply search_menuentry_None|done].
Qed.

Lemma grub_titles_count lines : matching_lines lines (length (Linux.grub_titles lines)).
Proof.
  induction lines as [|line lines IH]; [constructor|].
  rewrite grub_titles_cons.
  destruct (Linux.search_menuentry line) as [t|] eqn:Hs.
  - simpl. eapply matching_match; [by apply search_menuentry_Some|done].
  - apply matching_skip; [by apply search_menuentry_None|done].
Qed.

(** The number of matching lines is a function of the lines. *)
Lemma matching_lines_unique lines n1 n2 :
  matching_lines lines n1 → matching_lines lines n2 → n1 = n2.
Proof.
  intros H1. revert n2. induction H1; intros n2 H2; inversion H2; subst;
    try (by f_equal; eauto); try (by eauto); exfalso; naive_solver.
Qed.

(** *** The ids given by [enumerate] *)

Lemma str_all_digits n : Py.all_digits (Py.str n) = true.
Proof.
  unfold Py.str. induction (Nat.to_uint n) as [|d IH|d IH|d IH|d IH|d IH|d IH|d IH|d IH|d IH|d IH];
    simpl; done.
Qed.

Lemma str_inj i j : Py.str i = Py.str j → i = j.
Proof.
  unfold Py.str. intros H. apply DecimalNat.Unsigned.to_uint_inj.
  assert (Hs : Some (Nat.to_uint i) = Some (Nat.to_uint j))
    by (rewrite <- !NilEmpty.usu; by rewrite H).
  by injection Hs.
Qed.

Lemma list_ascii_app s1 s2 :
  String.list_ascii_of_string (s1 +:+ s2)
  = String.list_ascii_of_string s1 ++ String.list_ascii_of_string s2.
Proof. induction s1 as [|c s1 IH]; simpl; [done|by rewrite IH]. Qed.

Lemma list_ascii_inj s1 s2 :
  String.list_ascii_of_string s1 = String.list_ascii_of_string s2 → s1 = s2.
Proof.
  intros H. rewrite <- (String.string_of_list_ascii_of_string s1),
    <- (String.string_of_list_ascii_of_string s2). by rewrite H.
Qed.

Lemma all_digits_Forall s :
  Py.all_digits s = true →
  Forall (fun c => Py.is_digit c = true) (String.list_ascii_of_string s).
Proof.
  induction s as [|c s IH]; simpl; [constructor|].
  intros [Hc Hs]%andb_prop. constructor; auto.
Qed.

(** Two texts that end in a run of digits after the same non-digit have
    the same run of digits. *)
Lemma digit_suffix_unique (b : ascii) (X X' D D' : list ascii) :
  Py.is_digit b = false →
  Forall (fun c => Py.is_digit c = true) D →
  Forall (fun c => Py.is_digit c = true) D' →
  (X ++ [b]) ++ D = (X' ++ [b]) ++ D' →
  D = D'.
Proof.
  intros Hb HD. revert D'.
  induction D as [|y D IH] using rev_ind; intros D' HD' Heq.
  - destruct D' as [|x D' _] using rev_ind; [done|].
    rewrite app_nil_r, app_assoc in Heq. apply app_inj_tail in Heq as [_ ->].
    apply Forall_app in HD' as [_ Hx]. apply (proj1 (Forall_singleton _ _)) in Hx.
    simpl in Hx. congruence.
  - apply Forall_app in HD as [HD Hy]. apply (proj1 (Forall_singleton _ _)) in Hy.
    destruct D' as [|x D' _] using rev_ind.
    + rewrite app_nil_r, app_assoc in Heq. apply app_inj_tail in Heq as [_ <-].
      simpl in Hy. congruence.
    + rewrite !app_assoc in Heq. apply app_inj_tail in Heq as [Heq ->].
      apply Forall_app in HD' as [HD' _].
      f_equal. apply IH; [done|done|]. by rewrite <- !app_assoc in *.
Qed.

Lemma grub_display_inj name1 name2 i j :
  Linux.grub_display name1 i = Linux.grub_display name2 j → i = j.
Proof.
  unfold Linux.grub_display. intros H.
  apply (f_equal String.list_ascii_of_string) in H.
  rewrite !list_ascii_app in H.
  change (String.list_ascii_of_string ")") with [")"%char] in H.
  change (String.list_ascii_of_string " (GRUB")
    with (String.list_ascii_of_string " (GRU" ++ ["B"%char]) in H.
  rewrite !app_assoc in H. apply app_inj_tail in H as [H _].
  apply str_inj, list_ascii_inj.
  eapply (digit_suffix_unique "B"); [reflexivity| | |exact H];
    apply all_digits_Forall, str_all_digits.
Qed.

Lemma enumerate_from_cons {A} (k : nat) (x : A) (l : list A) :
  zip (seq k (length (x :: l))) (x :: l) = (k, x) :: zip (seq (S k) (length l)) l.
Proof. reflexivity. Qed.

(** The loop over [enumerate(grub_entries)], started at any ordinal [k]:
    the displays are appended in order, each display of the loop is bound
    to the text of its ordinal, and the other keys are left alone. *)
Lemma add_grub_loop (titles : list string) :
  ∀ (k : nat) (m : gmap string string) (all : list string),
    let result := foldl Linux.add_grub (m, all) (zip (seq k (length titles)) titles) in
    result.2 = all ++ zip_with (fun i t => Linux.grub_display t i)
                               (seq k (length titles)) titles
    ∧ (∀ j t, titles !! j = Some t →
         result.1 !! Linux.grub_display t (k + j) = Some (Py.str (k + j)))
    ∧ (∀ d, (∀ j t, titles !! j = Some t → d ≠ Linux.grub_display t (k + j)) →
         result.1 !! d = m !! d).
Proof.
  induction titles as [|t0 titles IH]; intros k m all.
  - simpl. split; [by rewrite app_nil_r|]. split; [intros j t [=]|done].
  - rewrite enumerate_from_cons. cbn [foldl zip_with seq length].
    unfold Linux.add_grub at 2. cbn [fst snd].
    destruct (IH (S k) (<[Linux.grub_display t0 k := Py.str k]> m)
                 (all ++ [Linux.grub_display t0 k])) as (Hall & Hin & Hout).
    cbv zeta. split; [|split].
    + rewrite Hall. by rewrite <- app_assoc.
    + intros [|j] t Ht; simpl in Ht.
      * injection Ht as <-. rewrite Nat.add_0_r. rewrite Hout.
        -- apply lookup_insert_eq.
        -- intros j t Ht Heq. apply grub_display_inj in Heq. lia.
      * replace (k + S j) with (S k + j) by lia. by apply Hin.
    + intros d Hd. rewrite Hout.
      * apply lookup_insert_ne. intros Heq. apply (Hd 0 t0); [done|].
        by rewrite Nat.add_0_r.
      * intros j t Ht. replace (S k + j) with (k + S j) by lia. by apply Hd.
Qed.

Lemma add_uefi_loop (uefi_entries : list (string * string)) :
  ∀ (m : gmap string string) (all : list string),
    (foldl Linux.add_uefi (m, all) uefi_entries).2
    = all ++ map (fun e => Linux.uefi_display e.2 e.1) uefi_entries.
Proof.
  induction uefi_entries as [|[bootnum name] rest IH]; intros m all; simpl.
  - by rewrite app_nil_r.
  - rewrite IH. by rewrite <- app_assoc.
Qed.

Lemma grub_keys_in_order (m : gmap string string) (titles : list string) :
  ∀ k,
    (∀ j t, titles !! j = Some t →
       m !! Linux.grub_display t (k + j) = Some (Py.str (k + j))) →
    (fun d => m !! d) <$> zip_with (fun i t => Linux.grub_display t i)
                                   (seq k (length titles)) titles
    = (fun i => Some (Py.str i)) <$> seq k (length titles).
Proof.
  induction titles as [|t titles IH]; intros k Hin; [reflexivity|].
  cbn [length seq zip_with fmap list_fmap]. f_equal.
  - specialize (Hin 0 t eq_refl). by rewrite Nat.add_0_r in Hin.
  - apply IH. intros j t' Ht'. replace (S k + j) with (k + S j) by lia. by apply Hin.
Qed.

Lemma get_grub_entries_readable env st text :
  open_text env Linux.GRUB_CFG_PATH = Opened text None →
  (Linux.get_grub_entries env st).1 = Ret (Linux.grub_titles (Py.file_lines text)).
Proof. intros Ho. unfold Linux.get_grub_entries. by rewrite Ho. Qed.

Example get_grub_entries_ex :
  (Linux.get_grub_entries env_dual_boot (fresh [] [])).1
  = Ret ["Ubuntu"; "Ubuntu, with Linux 6.8.0-45-generic";
         "Windows Boot Manager (on /dev/nvme0n1p1)"].
Proof. reflexivity. Qed.

(** C8. For a GRUB configuration file that is read to its end, with [N]
    lines in which the pattern [menuentry '<title>'] matches: the adapter
    returns exactly [N] titles, one for each matching line and in the order
    of the lines; and the inventory loop of [setup_ui] appends their [N]
    displays after the UEFI ones and binds them, in that order, to the ids
    [str(0)], ..., [str(N-1)]. *)
Theorem grub_adapter_numbers_entries
    (env : Env) (st : State) (text : string) (N : nat)
    (m : gmap string string) (uefi_entries : list (string * string)) :
  open_text env Linux.GRUB_CFG_PATH = Opened text None →
  matching_lines (Py.file_lines text) N →
  ∃ titles,
    (Linux.get_grub_entries env st).1 = Ret titles
    ∧ length titles = N
    ∧ extracted (Py.file_lines text) titles
    ∧ ∃ grub_part,
        (Linux.collect m uefi_entries titles).2
        = map (fun e => Linux.uefi_display e.2 e.1) uefi_entries ++ grub_part
        ∧ grub_part = zip_with (fun i t => Linux.grub_display t i) (seq 0 N) titles
        ∧ (fun d => (Linux.collect m uefi_entries titles).1 !! d) <$> grub_part
          = (fun i => Some (Py.str i)) <$> seq 0 N.
Proof.
  intros Hopen HN.
  exists (Linux.grub_titles (Py.file_lines text)).
  assert (Hlen : length (Linux.grub_titles (Py.file_lines text)) = N)
    by (eapply matching_lines_unique; [apply grub_titles_count|done]).
  split; [by apply get_grub_entries_readable|].
  split; [done|]. split; [apply grub_titles_extracted|].
  set (titles := Linux.grub_titles (Py.file_lines text)) in *.
  unfold Linux.collect, Linux.enumerate.
  pose proof (add_uefi_loop uefi_entries m []) as Huefi.
  destruct (foldl Linux.add_uefi (m, []) uefi_entries) as [m1 all1].
  simpl in Huefi. subst all1.
  destruct (add_grub_loop titles 0 m1
              (map (fun e => Linux.uefi_display e.2 e.1) uefi_entries))
    as (Hall & Hin & _).
  cbv zeta in Hall, Hin. subst N.
  eexists. split; [exact Hall|]. split; [reflexivity|].
  by apply grub_keys_in_order.
Qed.

Lemma grub_adapter_numbers_entries_witness :
  ∃ titles,
    (Linux.get_grub_entries env_dual_boot (fresh [] [])).1 = Ret titles
    ∧ length titles = 3
    ∧ extracted (Py.file_lines grub_cfg) titles
    ∧ ∃ grub_part,
        (Linux.collect ∅ [("0000", "Windows Boot Manager"); ("0001", "ubuntu")] titles).2
        = map (fun e => Linux.uefi_display e.2 e.1)
              [("0000", "Windows Boot Manager"); ("0001", "ubuntu")] ++ grub_part
        ∧ grub_part = zip_with (fun i t => Linux.grub_display t i) (seq 0 3) titles
        ∧ (fun d => (Linux.collect ∅ [("0000", "Windows Boot Manager"); ("0001", "ubuntu")]
                       titles).1 !! d) <$> grub_part
          = (fun i => Some (Py.str i)) <$> seq 0 3.
Proof.
  apply (grub_adapter_numbers_entries env_dual_boot (fresh [] []) grub_cfg 3 ∅
           [("0000", "Windows Boot Manager"); ("0001", "ubuntu")]).
  - reflexivity.
  - exact (grub_titles_count (Py.file_lines grub_cfg)).
Defined.

(** ** The adapters never raise *)

Lemma uefi_pairs_nothing (lines : list string) :
  Forall (fun line => Linux.search_boot line = None) lines →
  Linux.uefi_pairs lines = [].
Proof.
  unfold Linux.uefi_pairs. induction 1 as [|line lines Hline _ IH]; [reflexivity|].
  simpl. by rewrite Hline.
Qed.

Lemma grub_titles_nothing (lines : list string) :
  Forall (fun line => Linux.search_menuentry line = None) lines →
  Linux.grub_titles lines = [].
Proof.
  induction 1 as [|line lines Hline _ IH]; [reflexivity|].
  rewrite grub_titles_cons. by rewrite Hline.
Qed.

Lemma get_uefi_entries_run env st :
  Linux.get_uefi_entries env st
  = let st1 := with_spawned (spawned st ++ [uefi_listing]) st in
    match run_process env (spawned st) uefi_listing with
    | Completed p =>
        let entries := Linux.uefi_pairs (Py.splitlines (stdout p)) in
        (Ret entries,
         with_logged (logged st ++ [(INFO, "Successfully fetched " +:+
                                            Py.str (length entries) +:+
                                            " UEFI entries.")]) st1)
    | Failed e =>
        (Ret [],
         with_logged
           (logged st ++
            [(ERROR, match exn_cls e with
                     | FileNotFoundError => "efibootmgr not found."
                     | _ => "Error reading UEFI boot entries: " +:+ exn_str e
                     end)]) st1)
    end.
Proof.
  unfold Linux.get_uefi_entries, try_except, subprocess_run. run_monad.
  fold uefi_listing.
  destruct (run_process env (spawned st) uefi_listing) as [p|[[] ?]]; reflexivity.
Qed.

Lemma get_bcd_entries_run env st :
  Windows.get_bcd_entries env st
  = let st1 := with_spawned (spawned st ++ [bcd_listing]) st in
    match run_process env (spawned st) bcd_listing with
    | Completed p =>
        let entries := Windows.bcd_names (Py.splitlines (stdout p)) in
        (Ret entries,
         with_logged (logged st ++ [(INFO, "Successfully fetched " +:+
                                            Py.str (length entries) +:+
                                            " boot entries.")]) st1)
    | Failed e =>
        (Ret [],
         with_logged
           (logged st ++ [(ERROR, "Error reading BCDEDIT entries: " +:+ exn_str e)]) st1)
    end.
Proof.
  unfold Windows.get_bcd_entries, Windows.BCDEDIT_CMD, try_except, subprocess_run.
  run_monad.
  fold bcd_listing.
  destruct (run_process env (spawned st) bcd_listing) as [p|e]; reflexivity.
Qed.

(** After a non-zero exit of [efibootmgr -v] the UEFI adapter returns what
    it parsed from the standard output, which need not be empty. *)
Lemma uefi_adapter_not_empty_after_nonzero_exit :
  ¬ (∀ env st,
       listing_failed (run_process env (spawned st) uefi_listing) →
       (Linux.get_uefi_entries env st).1 = Ret []).
Proof.
  intros H. specialize (H env_listing_exits_1 (fresh [] [])).
  assert (Hfail : listing_failed
                    (run_process env_listing_exits_1 (spawned (fresh [] [])) uefi_listing))
    by (simpl; discriminate).
  specialize (H Hfail). vm_compute in H. discriminate.
Qed.

(** When the file opens and reading breaks part-way, the GRUB adapter
    returns the titles of the lines delivered before the break. *)
Lemma grub_adapter_not_empty_after_broken_read :
  ¬ (∀ env st text e,
       open_text env Linux.GRUB_CFG_PATH = Opened text (Some e) →
       (Linux.get_grub_entries env st).1 = Ret []).
Proof.
  intros H.
  specialize (H env_read_breaks (fresh [] []) _ _ eq_refl).
  vm_compute in H. discriminate.
Qed.

(** C9 as stated fails on two of the failures it lists: a non-zero exit of
    the tool and an unreadable configuration file do not make the result
    empty. *)
Lemma adapters_not_empty_after_failure :
  ¬ (∀ env st,
       listing_failed (run_process env (spawned st) uefi_listing) →
       (Linux.get_uefi_entries env st).1 = Ret [])
  ∧ ¬ (∀ env st text e,
         open_text env Linux.GRUB_CFG_PATH = Opened text (Some e) →
         (Linux.get_grub_entries env st).1 = Ret []).
Proof.
  split.
  - exact uefi_adapter_not_empty_after_nonzero_exit.
  - exact grub_adapter_not_empty_after_broken_read.
Qed.

Example adapters_on_a_bare_machine :
  Linux.get_grub_entries env_without_elevation (fresh [] [])
  = (Ret [], with_logged
               [(ERROR, "Error reading grub.cfg: [Errno 2] No such file or directory: '/boot/grub/grub.cfg'")]
               (fresh [] []))
  ∧ (Linux.get_uefi_entries env_without_elevation (fresh [] [])).1 = Ret []
  ∧ logged (Linux.get_uefi_entries env_without_elevation (fresh [] [])).2
    = [(ERROR, "efibootmgr not found.")].
Proof. repeat split; reflexivity. Qed.

(** ** Ids and backing stores *)

(** The inventory keeps the UEFI entry [0000] and the GRUB entry [0] apart
    as two list items with the keys ["0000"] and ["0"]. *)
Example inventory_on_dual_boot :
  let st := (Linux.setup_ui env_dual_boot (fresh [] [])).2 in
  list_widget st
  = [Item "Windows Boot Manager (Boot0000)" false;
     Item "ubuntu (Boot0001)" false;
     Item ("Ubuntu (GRUB0)" +:+ Linux.default_mark) true;
     Item "Ubuntu, with Linux 6.8.0-45-generic (GRUB1)" false;
     Item "Windows Boot Manager (on /dev/nvme0n1p1) (GRUB2)" false]
  ∧ entry_map st !! "Windows Boot Manager (Boot0000)" = Some "0000"
  ∧ entry_map st !! "Ubuntu (GRUB0)" = Some "0".
Proof. repeat split; vm_compute; reflexivity. Qed.

(** C10 (the code departs from the claim).  Ids are bare strings in one
    map, and the backing store is guessed from [index.isdigit()].  (1) With
    the UEFI entry [Boot0000] selected, [set_default_os] takes the branch
    commented [# GRUB] and runs [grub-set-default 0000] instead of writing
    the UEFI boot order.  (2) With GRUB's [saved_entry=0000], [setup_ui]
    marks the UEFI entry [Boot0000] as the default: the default value of
    GRUB is matched against a UEFI boot number. *)
Theorem ids_are_conflated_across_backing_stores :
  (let st := started env_dual_boot (Some "secret") [] [] in
   selected st "0000"
   ∧ spawned (Linux.set_default_os env_dual_boot st).2
     = spawned st ++ [sudo_call ["grub-set-default"; "0000"] "secret"]
   ∧ shown (Linux.set_default_os env_dual_boot st).2
     = [Information "Success" "Set GRUB entry #0000 as default."])
  ∧ list_widget (Linux.setup_ui env_saved_0000 (fresh [] [])).2
    = [Item ("Windows Boot Manager (Boot0000)" +:+ Linux.default_mark) true;
       Item "ubuntu (Boot0001)" false;
       Item "Ubuntu (GRUB0)" false;
       Item "Ubuntu, with Linux 6.8.0-45-generic (GRUB1)" false;
       Item "Windows Boot Manager (on /dev/nvme0n1p1) (GRUB2)" false].
Proof.
  split; [split; [|split]|].
  - exists 0, (Item "Windows Boot Manager (Boot0000)" false).
    repeat split; vm_compute; reflexivity.
  - vm_compute; reflexivity.
  - vm_compute; reflexivity.
  - vm_compute; reflexivity.
Qed.

(** * Further properties of the code *)

(** ** The checks and the executor *)

(** X1. [is_efivarfs_mounted] never raises and shows nothing: it starts
    [mount] once, and answers [True] exactly when [mount] ran, exited with
    status 0 and printed well-formed UTF-8 that holds the efivarfs mount
    point.  An output that [decode()] rejects gives [False], whatever it
    holds. *)
Theorem is_efivarfs_mounted_answer (env : Env) (st : State) :
  ∃ b,
    (Linux.is_efivarfs_mounted env st).1 = Ret b
    ∧ spawned (Linux.is_efivarfs_mounted env st).2 = spawned st ++ [mount_call]
    ∧ shown (Linux.is_efivarfs_mounted env st).2 = shown st
    ∧ sudo_password (Linux.is_efivarfs_mounted env st).2 = sudo_password st
    ∧ (b = true ↔
       ∃ p, run_process env (spawned st) mount_call = Completed p
            ∧ returncode p = 0%Z
            ∧ Py.utf8_fault 0 (stdout p) = None
            ∧ Py.contains "efivarfs on /sys/firmware/efi/efivars" (stdout p) = true).
Proof.
  destruct (is_efivarfs_mounted_run env st) as (b & msgs & Hrun & Hb).
  exists b. rewrite Hrun. done.
Qed.

Example is_efivarfs_mounted_undecodable :
  let env := machine true (ok (efivarfs_line +:+ String (ascii_of_nat 255) "")) (ok "")
                     (fun _ => ok "") in
  Linux.is_efivarfs_mounted env (fresh [] [])
  = (Ret false,
     with_logged
       [(ERROR, "Failed to check efivarfs mount: 'utf-8' codec can't decode byte 0xff in position 85: invalid start byte")]
       (with_spawned [mount_call] (fresh [] []))).
Proof. vm_compute. reflexivity. Qed.

Lemma classify_state command_list c st o :
  spawned (classify command_list c st o).2 = spawned st ++ [c]
  ∧ shown (classify command_list c st o).2 = shown st
  ∧ sudo_password (classify command_list c st o).2 = sudo_password st
  ∧ password_replies (classify command_list c st o).2 = password_replies st
  ∧ confirm_replies (classify command_list c st o).2 = confirm_replies st
  ∧ entry_map (classify command_list c st o).2 = entry_map st
  ∧ list_widget (classify command_list c st o).2 = list_widget st
  ∧ selection (classify command_list c st o).2 = selection st.
Proof.
  destruct (classify_cases command_list c st o)
    as [(msgs & -> & _)|[(msgs & err & -> & _)|(e & -> & _)]]; done.
Qed.

Lemma classify_success command_list c st o :
  (classify command_list c st o).1 = Ret (true, None)
  ↔ ∃ p, o = Completed p ∧ returncode p = 0%Z.
Proof.
  destruct (classify_cases command_list c st o)
    as [(msgs & -> & Hok)|[(msgs & err & -> & Hko)|(e & -> & Hko)]]; simpl.
  - done.
  - split; [discriminate|done].
  - split; [discriminate|done].
Qed.

Lemma classify_result command_list c st o r :
  (classify command_list c st o).1 = Ret r →
  r = (true, None) ∨ ∃ text, r = (false, Some text).
Proof.
  destruct (classify_cases command_list c st o)
    as [(msgs & -> & _)|[(msgs & err & -> & _)|(e & -> & _)]]; simpl.
  - intros [= <-]. by left.
  - intros [= <-]. right. by exists err.
  - discriminate.
Qed.

(** X2. On both platforms [run_sudo_command] starts exactly one process
    and shows no dialog; it returns [(True, None)] exactly when that
    process ran and exited with status 0, and every other result it returns
    is [(False, text)] with an error text. *)
Theorem run_sudo_command_success_iff
    (env : Env) (command_list : list string) (password : string) (st : State) :
  let linux := Linux.run_sudo_command env command_list password st in
  let windows := Windows.run_sudo_command env command_list password st in
  (linux.1 = Ret (true, None)
   ↔ succeeded env (spawned st) (sudo_call command_list password))
  ∧ (windows.1 = Ret (true, None)
     ↔ succeeded env (spawned st) (runas_call command_list))
  ∧ (∀ r, linux.1 = Ret r ∨ windows.1 = Ret r →
          r = (true, None) ∨ ∃ text, r = (false, Some text))
  ∧ spawned linux.2 = spawned st ++ [sudo_call command_list password]
  ∧ spawned windows.2 = spawned st ++ [runas_call command_list]
  ∧ shown linux.2 = shown st ∧ shown windows.2 = shown st.
Proof.
  cbv zeta. rewrite linux_run_sudo_command_run, windows_run_sudo_command_run.
  split; [apply classify_success|]. split; [apply classify_success|].
  split; [intros r [H|H]; by apply classify_result in H|].
  pose proof (classify_state command_list (sudo_call command_list password) st
                (run_process env (spawned st) (sudo_call command_list password)))
    as (H1 & H2 & _).
  pose proof (classify_state command_list (runas_call command_list) st
                (run_process env (spawned st) (runas_call command_list)))
    as (H3 & H4 & _).
  done.
Qed.

(** ** Operations that stop before the privileged call *)

Lemma get_selected_index_nothing st :
  nothing_selected st →
  Linux.get_selected_index st
  = (Ret None, with_shown (shown st ++ [no_selection_message]) st).
Proof.
  intros Hn. unfold Linux.get_selected_index. unfold nothing_selected in Hn.
  step. unfold get. cbv beta iota. rewrite Hn. reflexivity.
Qed.

Lemma windows_get_selected_index_eq st :
  Windows.get_selected_index st = Linux.get_selected_index st.
Proof. reflexivity. Qed.

(** X3. Without a selected item, each of the four operations shows "No
    selection / Please select an OS." and does nothing else: no process, no
    question, no password prompt, no change of the cache. *)
Theorem operations_need_a_selection (env : Env) (st : State) :
  nothing_selected st →
  let warned := with_shown (shown st ++ [no_selection_message]) st in
  Linux.reboot_selected env st = (Ret tt, warned)
  ∧ Linux.set_default_os env st = (Ret tt, warned)
  ∧ Windows.reboot_selected env st = (Ret tt, warned)
  ∧ Windows.set_default_os env st = (Ret tt, warned).
Proof.
  intros Hn warned.
  unfold Linux.reboot_selected, Linux.set_default_os,
    Windows.reboot_selected, Windows.set_default_os.
  repeat split; step; rewrite ?windows_get_selected_index_eq,
    (get_selected_index_nothing _ Hn); reflexivity.
Qed.

Lemma operations_need_a_selection_witness :
  Linux.reboot_selected env_dual_boot (fresh [] [])
  = (Ret tt, with_shown [no_selection_message] (fresh [] [])).
Proof.
  assert (Hn : nothing_selected (fresh [] [])) by reflexivity.
  exact (proj1 (operations_need_a_selection env_dual_boot (fresh [] []) Hn)).
Defined.

Lemma windows_prompt_for_password_cached env st password :
  sudo_password st = Some password → password ≠ "" →
  Windows.prompt_for_password env st = (Ret (Some password), st).
Proof.
  intros Hc Hne. unfold Windows.prompt_for_password. step. unfold get. cbv beta iota.
  rewrite (prompt_loop_cached env windows_prompt windows_validation
             (Windows.prompt_loop env) (windows_prompt_loop_turn env)).
  - by rewrite Hc.
  - rewrite Hc. by destruct password.
Qed.

Lemma isdigit_nonempty index : Py.isdigit index = true → index ≠ "".
Proof. by destruct index. Qed.

(** X4. SetDefault on an entry whose id is all digits, with a validated
    credential cached: the only process started is [grub-set-default <id>]
    through [sudo] ([efibootmgr] is not run), and the dialog shown tells
    whether it exited with status 0. *)
Theorem set_default_os_on_grub_entry
    (env : Env) (st : State) (index password : string) :
  selected st index → Py.isdigit index = true →
  sudo_password st = Some password → password ≠ "" →
  let c := sudo_call ["grub-set-default"; index] password in
  let final := Linux.set_default_os env st in
  spawned final.2 = spawned st ++ [c]
  ∧ (succeeded env (spawned st) c →
     final.1 = Ret tt
     ∧ shown final.2
       = shown st ++ [Information "Success"
                        ("Set GRUB entry #" +:+ index +:+ " as default.")])
  ∧ (∀ p, run_process env (spawned st) c = Completed p → returncode p ≠ 0%Z →
     final.1 = Ret tt
     ∧ shown final.2
       = shown st ++ [Critical "Error"
                        ("Failed to set GRUB default." +:+ nl +:+
                         failure_text ["grub-set-default"; index] p)]).
Proof.
  intros Hsel Hdig Hc Hpw c final.
  assert (Hne := isdigit_nonempty _ Hdig).
  assert (Hfinal : final =
    ('(success, err) ← Linux.run_sudo_command env ["grub-set-default"; index] password;
     if success : bool then
       show (Information "Success" ("Set GRUB entry #" +:+ index +:+ " as default."))
     else
       show (Critical "Error"
               ("Failed to set GRUB default." +:+ nl +:+ default "None" err))) st).
  { subst final. unfold Linux.set_default_os. step.
    rewrite (get_selected_index_selected _ _ Hsel), (given_Some _ Hne). step.
    rewrite (prompt_for_password_cached _ _ _ Hc Hpw), (given_Some _ Hpw), Hdig.
    reflexivity. }
  rewrite Hfinal. unfold mbind, M_bind. rewrite linux_run_sudo_command_run.
  fold c. split; [|split].
  - destruct (classify_cases ["grub-set-default"; index] c st
                (run_process env (spawned st) c))
      as [(msgs & -> & _)|[(msgs & err & -> & _)|(e & -> & _)]]; reflexivity.
  - intros (p & Hp & Hrc). rewrite Hp. unfold classify. rewrite Hrc. done.
  - intros p Hp Hrc. rewrite Hp. unfold classify.
    apply Z.eqb_neq in Hrc. rewrite Hrc. done.
Qed.

Lemma set_default_os_on_grub_entry_witness :
  let env := env_dual_boot in
  let st := with_selection (Some 2) (started env (Some "secret") [] []) in
  spawned (Linux.set_default_os env st).2
  = spawned st ++ [sudo_call ["grub-set-default"; "0"] "secret"].
Proof.
  intros env st.
  assert (Hsel : selected st "0").
  { exists 2, (Item ("Ubuntu (GRUB0)" +:+ Linux.default_mark) true).
    repeat split; vm_compute; reflexivity. }
  assert (Hpw : "secret" ≠ "") by discriminate.
  exact (proj1 (set_default_os_on_grub_entry env st "0" "secret"
                  Hsel eq_refl eq_refl Hpw)).
Defined.

(** X5. SetOneTimeBoot given up by the operator, with the preconditions
    met ([mount] exited with 0 and its output, well-formed UTF-8, shows the
    efivarfs mount point).  When the confirmation is declined, only the [mount] listing has
    run and only the question was shown: no password prompt, no privileged
    call.  When the question is confirmed and the password dialog is
    cancelled, nothing runs either and nothing is cached. *)
Theorem reboot_selected_given_up
    (env : Env) (st : State) (index : string) (pm : CompletedProcess) :
  selected st index → index ≠ "" →
  Linux.is_uefi_mode env = true →
  run_process env (spawned st) mount_call = Completed pm →
  returncode pm = 0%Z →
  Py.utf8_fault 0 (stdout pm) = None →
  Py.contains "efivarfs on /sys/firmware/efi/efivars" (stdout pm) = true →
  let final := Linux.reboot_selected env st in
  (∀ rest, confirm_replies st = false :: rest →
     final.1 = Ret tt
     ∧ spawned final.2 = spawned st ++ [mount_call]
     ∧ shown final.2 = shown st ++ [question_reboot index]
     ∧ sudo_password final.2 = sudo_password st
     ∧ password_replies final.2 = password_replies st)
  ∧ (∀ rest typed replies,
       confirm_replies st = true :: rest →
       truthy (sudo_password st) = false →
       password_replies st = (typed, false) :: replies →
       final.1 = Ret tt
       ∧ spawned final.2 = spawned st ++ [mount_call]
       ∧ shown final.2 = shown st ++ [question_reboot index; linux_prompt]
       ∧ sudo_password final.2 = sudo_password st).
Proof.
  intros Hsel Hne Hu Hm Hmrc Hmd Hmc final.
  assert (Hfinal : final =
    (confirm ← question "Confirm Reboot" ("Reboot into entry " +:+ index +:+ "?");
     if negb confirm then mret tt
     else
       password ← Linux.prompt_for_password env;
       match Linux.given password with
       | None => mret tt
       | Some password =>
           '(success, err) ←
             (if Py.isdigit index
              then Linux.run_sudo_command env ["efibootmgr"; "-n"; index] password
              else Linux.run_sudo_command env ["efibootmgr"; "-n"; index] password);
           if success : bool then
             '(success2, err2) ← Linux.run_sudo_command env ["reboot"] password;
             if success2 : bool then
               show (Information "Rebooting" "System is rebooting now...")
             else
               show (Critical "Reboot Failed"
                       ("Failed to reboot." +:+ nl +:+ default "None" err2))
           else
             show (Critical "BootNext Failed"
                     ("Failed to set one-time boot." +:+ nl +:+ default "None" err))
       end) (with_spawned (spawned st ++ [mount_call]) st)).
  { subst final. unfold Linux.reboot_selected. step.
    rewrite (get_selected_index_selected _ _ Hsel), (given_Some _ Hne), Hu.
    cbn [negb]. step.
    rewrite (is_efivarfs_mounted_true _ _ _ Hm Hmrc Hmd Hmc). reflexivity. }
  rewrite Hfinal. split.
  - intros rest Hconf. unfold mbind, M_bind.
    rewrite (question_run _ _ false rest) by exact Hconf. done.
  - intros rest typed replies Hconf Hcache Hreplies. unfold mbind, M_bind.
    rewrite (question_run _ _ true rest) by exact Hconf. cbn [negb].
    rewrite linux_prompt_for_password_turn. unfold prompt_turn.
    cbn [sudo_password password_replies with_confirm_replies with_shown with_spawned].
    rewrite Hcache, Hreplies. simpl. by rewrite <- app_assoc.
Qed.

Lemma reboot_selected_given_up_witness :
  let env := env_reboot_fails in
  let st := started env None [false] [] in
  (Linux.reboot_selected env st).1 = Ret tt
  ∧ spawned (Linux.reboot_selected env st).2 = spawned st ++ [mount_call]
  ∧ shown (Linux.reboot_selected env st).2 = shown st ++ [question_reboot "000A"]
  ∧ sudo_password (Linux.reboot_selected env st).2 = sudo_password st
  ∧ password_replies (Linux.reboot_selected env st).2 = password_replies st.
Proof.
  intros env st.
  assert (Hsel : selected st "000A").
  { exists 0, (Item "Windows Boot Manager (Boot000A)" false).
    repeat split; vm_compute; reflexivity. }
  assert (Hne : "000A" ≠ "") by discriminate.
  exact (proj1 (reboot_selected_given_up env st "000A"
                  {| returncode := 0; stdout := efivarfs_line; stderr := "" |}
                  Hsel Hne eq_refl eq_refl eq_refl eq_refl eq_refl) [] eq_refl).
Defined.

(** ** The credential, further *)

(** X6. An empty password that passes the validation is cached and
    returned, but [if not password: return] then ends the operation: no
    command follows the validation and no message is shown.  The cached
    empty value does not count as a credential, so the next call prompts
    again. *)
Theorem empty_password_is_cached_but_unused
    (env : Env) (st : State) (index : string) (replies : list (string * bool)) :
  selected st index → index ≠ "" →
  truthy (sudo_password st) = false →
  password_replies st = ("", true) :: replies →
  succeeded env (spawned st) (linux_validation "") →
  let final := Linux.set_default_os env st in
  final.1 = Ret tt
  ∧ spawned final.2 = spawned st ++ [linux_validation ""]
  ∧ shown final.2 = shown st ++ [linux_prompt]
  ∧ sudo_password final.2 = Some ""
  ∧ truthy (sudo_password final.2) = false.
Proof.
  intros Hsel Hne Hcache Hreplies (p & Hp & Hrc) final.
  assert (Hprompt : ∃ st',
    Linux.prompt_for_password env st = (Ret (Some ""), st')
    ∧ spawned st' = spawned st ++ [linux_validation ""]
    ∧ shown st' = shown st ++ [linux_prompt]
    ∧ sudo_password st' = Some "").
  { rewrite linux_prompt_for_password_turn. unfold prompt_turn.
    rewrite Hcache, Hreplies. cbv zeta. rewrite Hp.
    unfold classify. rewrite Hrc. simpl. eexists. split; [reflexivity|done]. }
  destruct Hprompt as (st' & Hprompt & Hsp & Hsh & Hpw).
  assert (Hfinal : final = (Ret tt, st')).
  { subst final. unfold Linux.set_default_os. step.
    rewrite (get_selected_index_selected _ _ Hsel), (given_Some _ Hne). step.
    rewrite Hprompt. reflexivity. }
  rewrite Hfinal. simpl. by rewrite Hpw.
Qed.

Lemma empty_password_is_cached_but_unused_witness :
  let env := env_all_succeed in
  let st := with_entry_map {["Ubuntu (GRUB0)" := "0"]}
              (with_list_widget [Item "Ubuntu (GRUB0)" false]
                 (with_selection (Some 0) (fresh [] [("", true)]))) in
  (Linux.set_default_os env st).1 = Ret tt
  ∧ spawned (Linux.set_default_os env st).2 = spawned st ++ [linux_validation ""]
  ∧ shown (Linux.set_default_os env st).2 = shown st ++ [linux_prompt]
  ∧ sudo_password (Linux.set_default_os env st).2 = Some ""
  ∧ truthy (sudo_password (Linux.set_default_os env st).2) = false.
Proof.
  intros env st.
  assert (Hsel : selected st "0").
  { exists 0, (Item "Ubuntu (GRUB0)" false). repeat split; vm_compute; reflexivity. }
  assert (Hne : "0" ≠ "") by discriminate.
  assert (Hok : succeeded env (spawned st) (linux_validation "")).
  { exists {| returncode := 0; stdout := ""; stderr := "" |}. split; reflexivity. }
  exact (empty_password_is_cached_but_unused env st "0" [] Hsel Hne eq_refl eq_refl Hok).
Defined.

Lemma prompt_returns_cached env prompt validation st r st' password :
  truthy (sudo_password st) = false →
  prompt_outcome env prompt validation st r st' →
  r = Ret (Some password) → sudo_password st' = Some password.
Proof.
  intros _ (failed & _ & _ & [(w & -> & Hc & _)|(_ & Hnone & _)]) Hr.
  - by injection Hr as <-.
  - by destruct (Hnone password).
Qed.

(** X7. The credential is asked for once: when [prompt_for_password] has
    returned a non-empty password, calling it again returns the same
    password without a dialog, a process or any other change of the state
    (on both platforms). *)
Theorem credential_is_asked_once (env : Env) (st : State) (password : string) :
  password ≠ "" →
  ((Linux.prompt_for_password env st).1 = Ret (Some password) →
   Linux.prompt_for_password env (Linux.prompt_for_password env st).2
   = (Ret (Some password), (Linux.prompt_for_password env st).2))
  ∧ ((Windows.prompt_for_password env st).1 = Ret (Some password) →
     Windows.prompt_for_password env (Windows.prompt_for_password env st).2
     = (Ret (Some password), (Windows.prompt_for_password env st).2)).
Proof.
  intros Hne. split; intros Hr.
  - apply prompt_for_password_cached; [|done].
    destruct (truthy (sudo_password st)) eqn:Hc.
    + destruct (sudo_password st) as [w|] eqn:Hw; [|done].
      assert (Hw' : w ≠ "") by (by destruct w).
      rewrite (prompt_for_password_cached env st w Hw Hw') in Hr |- *.
      simpl in *. congruence.
    + eapply prompt_returns_cached; [exact Hc| |exact Hr].
      apply (prompt_loop_outcome env linux_prompt linux_validation
               (Linux.prompt_loop env) (linux_prompt_loop_turn env)
               (password_replies st)); done.
  - apply windows_prompt_for_password_cached; [|done].
    destruct (truthy (sudo_password st)) eqn:Hc.
    + destruct (sudo_password st) as [w|] eqn:Hw; [|done].
      assert (Hw' : w ≠ "") by (by destruct w).
      rewrite (windows_prompt_for_password_cached env st w Hw Hw') in Hr |- *.
      simpl in *. congruence.
    + eapply prompt_returns_cached; [exact Hc| |exact Hr].
      apply (prompt_loop_outcome env windows_prompt windows_validation
               (Windows.prompt_loop env) (windows_prompt_loop_turn env)
               (password_replies st)); done.
Qed.

Lemma credential_is_asked_once_witness :
  let env := env_checking_password "secret" in
  let st := fresh [] [("wrong", true); ("secret", true)] in
  Linux.prompt_for_password env (Linux.prompt_for_password env st).2
  = (Ret (Some "secret"), (Linux.prompt_for_password env st).2).
Proof.
  intros env st.
  assert (Hne : "secret" ≠ "") by discriminate.
  exact (proj1 (credential_is_asked_once env st "secret" Hne) eq_refl).
Defined.

(** ** The Windows operations *)

Lemma windows_get_selected_index_selected st index :
  selected st index → Windows.get_selected_index st = (Ret (Some index), st).
Proof. apply get_selected_index_selected. Qed.

(** X8. The Windows operations with an entry selected and a credential
    cached.  A confirmed reboot starts [runas /user:Administrator shutdown
    /r /t 0] and nothing else: the selected entry appears in the question
    only, and no boot target is set.  A declined reboot starts nothing.
    SetDefault starts only [bcdedit /default <id>] through [runas], for
    the id that the selection resolves to. *)
Theorem windows_operations_commands
    (env : Env) (st : State) (index password : string) :
  selected st index → index ≠ "" →
  sudo_password st = Some password → password ≠ "" →
  (∀ rest, confirm_replies st = true :: rest →
     spawned (Windows.reboot_selected env st).2
     = spawned st ++ [runas_call ["shutdown"; "/r"; "/t"; "0"]])
  ∧ (∀ rest, confirm_replies st = false :: rest →
       Windows.reboot_selected env st
       = (Ret tt, with_confirm_replies rest
                    (with_shown (shown st ++ [question_reboot index]) st)))
  ∧ spawned (Windows.set_default_os env st).2
    = spawned st ++ [runas_call ["bcdedit"; "/default"; index]].
Proof.
  intros Hsel Hne Hc Hpw. split; [|split].
  - intros rest Hconf. unfold Windows.reboot_selected. step.
    rewrite (windows_get_selected_index_selected _ _ Hsel), (given_Some _ Hne). step.
    rewrite (question_run _ _ true rest) by exact Hconf. cbn [negb]. step.
    rewrite (windows_prompt_for_password_cached _ _ password) by done.
    rewrite (given_Some _ Hpw). step.
    rewrite windows_run_sudo_command_run.
    destruct (classify_cases ["shutdown"; "/r"; "/t"; "0"]
                (runas_call ["shutdown"; "/r"; "/t"; "0"])
                (with_confirm_replies rest
                   (with_shown (shown st ++ [question_reboot index]) st))
                (run_process env
                   (spawned (with_confirm_replies rest
                      (with_shown (shown st ++ [question_reboot index]) st)))
                   (runas_call ["shutdown"; "/r"; "/t"; "0"])))
      as [(msgs & Heq & _)|[(msgs & err & Heq & _)|(e & Heq & _)]];
      unfold question_reboot in Heq; rewrite Heq; reflexivity.
  - intros rest Hconf. unfold Windows.reboot_selected. step.
    rewrite (windows_get_selected_index_selected _ _ Hsel), (given_Some _ Hne). step.
    rewrite (question_run _ _ false rest) by exact Hconf. reflexivity.
  - unfold Windows.set_default_os. step.
    rewrite (windows_get_selected_index_selected _ _ Hsel), (given_Some _ Hne). step.
    rewrite (windows_prompt_for_password_cached _ _ password) by done.
    rewrite (given_Some _ Hpw). step.
    rewrite windows_run_sudo_command_run.
    destruct (classify_cases [Windows.BCDEDIT_CMD; "/default"; index]
                (runas_call [Windows.BCDEDIT_CMD; "/default"; index]) st
                (run_process env (spawned st)
                   (runas_call [Windows.BCDEDIT_CMD; "/default"; index])))
      as [(msgs & Heq & _)|[(msgs & err & Heq & _)|(e & Heq & _)]];
      rewrite Heq; reflexivity.
Qed.

Lemma windows_operations_commands_witness :
  let st := with_sudo_password (Some "secret")
              (with_entry_map {["Windows 11 (Boot0)" := "Windows 11"]}
                 (with_list_widget [Item "Windows 11 (Boot0)" false]
                    (with_selection (Some 0) (fresh [true] [])))) in
  spawned (Windows.reboot_selected env_all_succeed st).2
  = spawned st ++ [runas_call ["shutdown"; "/r"; "/t"; "0"]].
Proof.
  intros st.
  assert (Hsel : selected st "Windows 11").
  { exists 0, (Item "Windows 11 (Boot0)" false). repeat split; vm_compute; reflexivity. }
  assert (Hne : "Windows 11" ≠ "") by discriminate.
  assert (Hpw : "secret" ≠ "") by discriminate.
  exact (proj1 (windows_operations_commands env_all_succeed st "Windows 11" "secret"
                  Hsel Hne eq_refl Hpw) [] eq_refl).
Defined.

(** ** The machine is not rebooted by accident *)

Lemma get_selected_index_cases st :
  ∃ r st1,
    Linux.get_selected_index st = (Ret r, st1)
    ∧ spawned st1 = spawned st
    ∧ (∀ index, r = Some index → selected st index ∧ st1 = st).
Proof.
  unfold Linux.get_selected_index. step. unfold get. cbv beta iota.
  destruct (selection st ≫= (fun i => list_widget st !! i)) as [it|] eqn:Hs.
  - eexists _, st. split; [reflexivity|]. split; [done|].
    intros index Hi. split; [|done].
    destruct (selection st) as [i|] eqn:Hi'; [|done]. simpl in Hs.
    by exists i, it.
  - eexists None, _. split; [reflexivity|]. split; [done|]. discriminate.
Qed.

Lemma prompt_for_password_calls env st :
  ∃ tried,
    spawned (Linux.prompt_for_password env st).2
    = spawned st ++ map linux_validation tried
    ∧ confirm_replies (Linux.prompt_for_password env st).2 = confirm_replies st.
Proof.
  destruct (truthy (sudo_password st)) eqn:Hc.
  - exists []. rewrite linux_prompt_for_password_turn. unfold prompt_turn.
    rewrite Hc. simpl. by rewrite app_nil_r.
  - assert (Hconf : ∀ replies turns st0,
              password_replies st0 = replies →
              confirm_replies (Linux.prompt_loop env turns st0).2 = confirm_replies st0).
    { induction replies as [|[w ok] replies IH]; intros turns st0 Hr;
        rewrite linux_prompt_loop_turn; unfold prompt_turn;
        destruct (truthy (sudo_password st0)); try done; rewrite Hr; [done|].
      destruct ok; [|done]. cbv zeta.
      destruct (classify_cases ["echo"; "verified"] (linux_validation w)
                  (with_password_replies replies
                     (with_shown (shown st0 ++ [linux_prompt]) st0))
                  (run_process env (spawned st0) (linux_validation w)))
        as [(msgs & -> & _)|[(msgs & err & -> & _)|(e & -> & _)]]; try done.
      destruct turns as [|turns]; [done|]. by rewrite IH. }
    pose proof (prompt_loop_outcome env linux_prompt linux_validation
                  (Linux.prompt_loop env) (linux_prompt_loop_turn env)
                  (password_replies st) (length (password_replies st)) st
                  eq_refl (le_n _) Hc)
      as (failed & _ & _ & Hend).
    assert (Heq : Linux.prompt_for_password env st
                  = Linux.prompt_loop env (length (password_replies st)) st)
      by reflexivity.
    rewrite Heq.
    destruct Hend as [(w & _ & _ & _ & Hsp & _)|(_ & _ & more & _ & Hsp & _)];
      eexists; (split; [exact Hsp|by apply (Hconf (password_replies st))]).
Qed.

Lemma validations_are_not_reboot tried :
  Forall (fun c => ¬ is_reboot c) (map linux_validation tried).
Proof. apply Forall_forall. intros c [w [-> _]]%list_elem_of_fmap. discriminate. Qed.

(** X9. Whatever the machine and the operator do, [reboot_selected] starts
    the [reboot] command at most once and only as its last process, right
    after an [efibootmgr -n <id>] for the selected entry that exited with
    status 0, and only when the operator's reply to the question was yes.
    In every other run no [reboot] is started. *)
Theorem reboot_only_after_boot_next (env : Env) (st : State) :
  ∃ extra,
    spawned (Linux.reboot_selected env st).2 = spawned st ++ extra
    ∧ (Forall (fun c => ¬ is_reboot c) extra
       ∨ ∃ front index password rest,
           extra = front ++ [set_next_call index password;
                             sudo_call ["reboot"] password]
           ∧ Forall (fun c => ¬ is_reboot c) front
           ∧ succeeded env (spawned st ++ front) (set_next_call index password)
           ∧ selected st index
           ∧ confirm_replies st = true :: rest).
Proof.
  unfold Linux.reboot_selected. step.
  destruct (get_selected_index_cases st) as (r & st1 & -> & Hsp1 & Hsel).
  destruct (Linux.given r) as [index|] eqn:Hgiven.
  2:{ exists []. rewrite app_nil_r. split; [done|]. left. constructor. }
  assert (r = Some index) as ->
    by (unfold Linux.given in Hgiven; by destruct (truthy r)).
  destruct (Hsel index eq_refl) as [Hselected ->]. clear Hsel Hsp1.
  destruct (Linux.is_uefi_mode env).
  2:{ exists []. rewrite app_nil_r. split; [done|]. left. constructor. }
  cbn [negb]. step.
  destruct (is_efivarfs_mounted_run env st) as (b & msgs & -> & _).
  set (st2 := with_logged (logged st ++ msgs)
                (with_spawned (spawned st ++ [mount_call]) st)).
  assert (Hmount : Forall (fun c => ¬ is_reboot c) [mount_call])
    by (repeat constructor; discriminate).
  destruct b.
  2:{ exists [mount_call]. split; [done|]. by left. }
  cbn [negb]. step. unfold question. run_monad.
  destruct (confirm_replies st) as [|confirm rest] eqn:Hconf.
  { exists [mount_call]. split; [done|]. by left. }
  run_monad. destruct confirm.
  2:{ exists [mount_call]. split; [done|]. by left. }
  cbn [negb].
  set (st3 := with_confirm_replies rest (with_shown _ st2)).
  destruct (prompt_for_password_calls env st3) as (tried & Hsp4 & _).
  destruct (Linux.prompt_for_password env st3) as [r st4].
  simpl in Hsp4.
  assert (Hfront : Forall (fun c => ¬ is_reboot c)
                     (mount_call :: map linux_validation tried))
    by (constructor; [discriminate|apply validations_are_not_reboot]).
  assert (Hstop : ∀ x : res unit,
            ∃ extra, spawned (x, st4).2 = spawned st ++ extra
                     ∧ (Forall (fun c => ¬ is_reboot c) extra
                        ∨ ∃ front index0 password rest0,
                            extra = front ++ [set_next_call index0 password;
                                              sudo_call ["reboot"] password]
                            ∧ Forall (fun c => ¬ is_reboot c) front
                            ∧ succeeded env (spawned st ++ front)
                                        (set_next_call index0 password)
                            ∧ selected st index0
                            ∧ true :: rest = true :: rest0)).
  { intros x. exists (mount_call :: map linux_validation tried).
    split; [simpl; by rewrite Hsp4, <- app_assoc|by left]. }
  destruct r as [password| |]; [|apply Hstop..].
  destruct (Linux.given password) as [w|] eqn:Hw; [|apply Hstop].
  clear Hstop.
  match goal with
  | |- context C [if Py.isdigit index then ?a else ?b] =>
      let g := context C [a] in
      cut g; [destruct (Py.isdigit index); trivial|]
  end.
  rewrite linux_run_sudo_command_run.
  fold (set_next_call index w).
  destruct (classify_cases ["efibootmgr"; "-n"; index] (set_next_call index w) st4
              (run_process env (spawned st4) (set_next_call index w)))
    as [(msgs1 & -> & Hok)|[(msgs1 & err & -> & _)|(e & -> & _)]].
  - rewrite linux_run_sudo_command_run.
    exists ((mount_call :: map linux_validation tried)
            ++ [set_next_call index w; sudo_call ["reboot"] w]).
    split.
    + destruct (classify_cases ["reboot"] (sudo_call ["reboot"] w)
                  (with_logged (logged st4 ++ msgs1)
                     (with_spawned (spawned st4 ++ [set_next_call index w]) st4))
                  (run_process env
                     (spawned (with_logged (logged st4 ++ msgs1)
                        (with_spawned (spawned st4 ++ [set_next_call index w]) st4)))
                     (sudo_call ["reboot"] w)))
        as [(msgs2 & -> & _)|[(msgs2 & err2 & -> & _)|(e2 & -> & _)]];
        simpl; rewrite Hsp4; by rewrite <- !app_assoc.
    + right. exists (mount_call :: map linux_validation tried), index, w, rest.
      split; [done|]. split; [done|]. split; [|done].
      replace (spawned st ++ mount_call :: map linux_validation tried)
        with (spawned st4) by (rewrite Hsp4; by rewrite <- app_assoc).
      exact Hok.
  - exists ((mount_call :: map linux_validation tried) ++ [set_next_call index w]).
    split; [simpl; rewrite Hsp4; by rewrite <- !app_assoc|].
    left. apply Forall_app. split; [done|]. repeat constructor. discriminate.
  - exists ((mount_call :: map linux_validation tried) ++ [set_next_call index w]).
    split; [simpl; rewrite Hsp4; by rewrite <- !app_assoc|].
    left. apply Forall_app. split; [done|]. repeat constructor. discriminate.
Qed.

(** ** Splitting and trimming *)

Lemma string_app_cons (x : ascii) (a b : string) :
  String x a +:+ b = String x (a +:+ b).
Proof. reflexivity. Qed.

Lemma string_app_assoc (a b c : string) : (a +:+ b) +:+ c = a +:+ (b +:+ c).
Proof.
  induction a as [|x a IH]; [done|]. rewrite !string_app_cons. by rewrite IH.
Qed.

Lemma string_app_nil_r (a : string) : a +:+ "" = a.
Proof. induction a as [|x a IH]; [done|]. rewrite string_app_cons. by rewrite IH. Qed.

Lemma snoc_app cur c s : Py.snoc cur c +:+ s = cur +:+ String c s.
Proof. unfold Py.snoc. by rewrite string_app_assoc. Qed.

Lemma char_free_app c a b : char_free c (a +:+ b) ↔ char_free c a ∧ char_free c b.
Proof.
  induction a as [|x a IH]; [simpl; tauto|].
  rewrite string_app_cons. simpl. rewrite IH. tauto.
Qed.

Lemma quote_free_app a b : quote_free (a +:+ b) ↔ quote_free a ∧ quote_free b.
Proof.
  induction a as [|x a IH]; [simpl; tauto|].
  rewrite string_app_cons. simpl. rewrite IH. tauto.
Qed.

Lemma split_from_free sep cur s :
  char_free sep s → Py.split_from sep cur s = [cur +:+ s].
Proof.
  revert cur. induction s as [|x s IH]; intros cur Hfree; simpl.
  - by rewrite string_app_nil_r.
  - destruct Hfree as [Hx Hs]. destruct (Ascii.eqb_spec x sep) as [->|_]; [done|].
    rewrite IH by done. by rewrite snoc_app.
Qed.

Lemma split_from_app sep cur a b :
  char_free sep a →
  Py.split_from sep cur (a +:+ String sep b) = (cur +:+ a) :: Py.split_from sep "" b.
Proof.
  revert cur. induction a as [|x a IH]; intros cur Hfree.
  - change ("" +:+ String sep b) with (String sep b). simpl.
    rewrite string_app_nil_r. by rewrite Ascii.eqb_refl.
  - rewrite string_app_cons. simpl.
    destruct Hfree as [Hx Ha]. destruct (Ascii.eqb_spec x sep) as [->|_]; [done|].
    rewrite IH by done. by rewrite snoc_app.
Qed.

Lemma lstrip_no_space s : no_space s → Py.lstrip s = s.
Proof. destruct s as [|c s]; [done|]. simpl. by intros [-> _]. Qed.

Lemma rstrip_no_space s : no_space s → Py.rstrip s = s.
Proof.
  induction s as [|c s IH]; [done|]. simpl. intros [Hc Hs]. rewrite IH by done.
  destruct s; [by rewrite Hc|done].
Qed.

Lemma char_free_lstrip c s : char_free c s → char_free c (Py.lstrip s).
Proof.
  induction s as [|x s IH]; [done|]. simpl. intros [Hx Hs].
  destruct (Py.isspace x); [by apply IH|done].
Qed.

Lemma char_free_rstrip c s : char_free c s → char_free c (Py.rstrip s).
Proof.
  induction s as [|x s IH]; [done|]. simpl. intros [Hx Hs].
  specialize (IH Hs). destruct (Py.rstrip s); [by destruct (Py.isspace x)|done].
Qed.

Lemma length_lstrip s : String.length (Py.lstrip s) ≤ String.length s.
Proof.
  induction s as [|x s IH]; [done|]. simpl.
  destruct (Py.isspace x); simpl; lia.
Qed.

Lemma length_rstrip s : String.length (Py.rstrip s) ≤ String.length s.
Proof.
  induction s as [|x s IH]; [done|]. simpl.
  destruct (Py.rstrip s); [destruct (Py.isspace x)|]; simpl in *; lia.
Qed.

(** A text that trimming leaves alone does not start with white space. *)
Lemma strip_fixed_first c s :
  Py.strip (String c s) = String c s → Py.isspace c = false.
Proof.
  unfold Py.strip. simpl. destruct (Py.isspace c); [|done]. intros H.
  pose proof (length_rstrip (Py.lstrip s)) as H1.
  pose proof (length_lstrip s) as H2.
  rewrite H in H1. simpl in H1. lia.
Qed.

Lemma startswith_app p r : Py.startswith (p +:+ r) p = true.
Proof.
  unfold Py.startswith. by rewrite (proj2 (strip_prefix_Some p (p +:+ r) r) eq_refl).
Qed.

(** ** The default resolvers *)

Lemma saved_entry_skip before lines st :
  Forall (fun line => Py.startswith line "saved_entry=" = false) before →
  Linux.saved_entry (before ++ lines) st = Linux.saved_entry lines st.
Proof.
  induction 1 as [|line before Hline _ IH]; [done|]. simpl. by rewrite Hline.
Qed.

Lemma saved_entry_never_blocks lines st :
  ∃ st', shown st' = shown st ∧ spawned st' = spawned st
         ∧ ((∃ r, Linux.saved_entry lines st = (Ret r, st'))
            ∨ (∃ e, Linux.saved_entry lines st = (Raise e, st'))).
Proof.
  induction lines as [|line lines IH]; simpl.
  - exists st. split; [done|]. split; [done|]. left. by exists None.
  - destruct (Py.startswith line "saved_entry="); [|exact IH].
    destruct (Py.split "=" line !! 1) as [v|].
    + eexists. split; [|split; [|left; eexists; reflexivity]]; done.
    + eexists. split; [|split; [|right; eexists; reflexivity]]; done.
Qed.

(** X10. The default resolvers of both files never raise and show no
    dialog; when the command cannot be run they answer [None] and log one
    error record. *)
Theorem default_resolvers_never_raise (env : Env) (st : State) :
  (∃ r, (Linux.get_default_entry env st).1 = Ret r)
  ∧ (∃ r, (Windows.get_default_entry env st).1 = Ret r)
  ∧ shown (Linux.get_default_entry env st).2 = shown st
  ∧ shown (Windows.get_default_entry env st).2 = shown st
  ∧ (∀ e, run_process env (spawned st) grub_editenv_listing = Failed e →
       Linux.get_default_entry env st
       = (Ret None,
          with_logged (logged st ++
                       [(ERROR, "Could not read default GRUB entry: " +:+ exn_str e)])
            (with_spawned (spawned st ++ [grub_editenv_listing]) st)))
  ∧ (∀ e, run_process env (spawned st) bcd_listing = Failed e →
       Windows.get_default_entry env st
       = (Ret None,
          with_logged (logged st ++
                       [(ERROR, "Could not read default boot entry: " +:+ exn_str e)])
            (with_spawned (spawned st ++ [bcd_listing]) st))).
Proof.
  assert (HL :
    (∃ r, (Linux.get_default_entry env st).1 = Ret r)
    ∧ shown (Linux.get_default_entry env st).2 = shown st).
  { unfold Linux.get_default_entry, try_except, subprocess_run. unfold mbind, M_bind.
    fold grub_editenv_listing.
    destruct (run_process env (spawned st) grub_editenv_listing) as [p|e].
    - destruct (saved_entry_never_blocks (Py.splitlines (stdout p))
                  (with_spawned (spawned st ++ [grub_editenv_listing]) st))
        as (st' & Hsh & _ & [[r ->]|[e ->]]).
      + split; [by exists r|done].
      + split; [by exists None|done].
    - split; [by exists None|done]. }
  assert (HW :
    (∃ r, (Windows.get_default_entry env st).1 = Ret r)
    ∧ shown (Windows.get_default_entry env st).2 = shown st).
  { unfold Windows.get_default_entry, Windows.BCDEDIT_CMD, try_except, subprocess_run.
    unfold mbind, M_bind. fold bcd_listing.
    destruct (run_process env (spawned st) bcd_listing) as [p|e];
      (split; [eexists; reflexivity|done]). }
  destruct HL as [HL1 HL2], HW as [HW1 HW2].
  repeat (split; [done|]). split.
  - intros e He. unfold Linux.get_default_entry, try_except, subprocess_run. unfold mbind, M_bind.
    fold grub_editenv_listing. by rewrite He.
  - intros e He.
    unfold Windows.get_default_entry, Windows.BCDEDIT_CMD, try_except, subprocess_run.
    unfold mbind, M_bind. fold bcd_listing. by rewrite He.
Qed.

Lemma default_resolvers_never_raise_witness :
  (Linux.get_default_entry env_without_elevation (fresh [] [])).1 = Ret None
  ∧ (Windows.get_default_entry env_without_elevation (fresh [] [])).1 = Ret None.
Proof.
  destruct (default_resolvers_never_raise env_without_elevation (fresh [] []))
    as (_ & _ & _ & _ & Hlinux & Hwindows).
  split.
  - by rewrite (Hlinux (not_found "grub-editenv") eq_refl).
  - by rewrite (Hwindows (not_found "bcdedit") eq_refl).
Defined.

(** X11. The GRUB default is the text between the first and the second
    [=] of the first line that starts with [saved_entry=]: a value is cut
    at an [=] inside it. *)
Theorem get_default_entry_value
    (env : Env) (st : State) (p : CompletedProcess)
    (before after : list string) (value tail : string) :
  run_process env (spawned st) grub_editenv_listing = Completed p →
  Py.splitlines (stdout p) = before ++ ("saved_entry=" +:+ value +:+ tail) :: after →
  Forall (fun line => Py.startswith line "saved_entry=" = false) before →
  char_free "=" value →
  tail = "" ∨ (∃ rest, tail = "=" +:+ rest) →
  (Linux.get_default_entry env st).1 = Ret (Some value).
Proof.
  intros Hrun Hlines Hbefore Hfree Htail.
  unfold Linux.get_default_entry, try_except, subprocess_run. step.
  fold grub_editenv_listing. rewrite Hrun, Hlines.
  rewrite (saved_entry_skip before _ _ Hbefore).
  cbn [Linux.saved_entry]. rewrite startswith_app.
  assert (Hsplit : Py.split "=" ("saved_entry=" +:+ value +:+ tail) !! 1 = Some value).
  { unfold Py.split.
    change ("saved_entry=" +:+ value +:+ tail)
      with ("saved_entry" +:+ String "=" (value +:+ tail)).
    rewrite split_from_app by (vm_compute; intuition discriminate).
    simpl. destruct Htail as [->|[rest ->]].
    - rewrite string_app_nil_r, split_from_free by done. reflexivity.
    - change (value +:+ "=" +:+ rest) with (value +:+ String "=" rest).
      rewrite split_from_app by done. reflexivity. }
  rewrite Hsplit. reflexivity.
Qed.

Lemma get_default_entry_value_witness :
  (Linux.get_default_entry
     (pc (OpenFails (not_found Linux.GRUB_CFG_PATH)) (ok "")
         (ok ("saved_entry=Ubuntu, root=UUID=1234" +:+ nl)))
     (fresh [] [])).1
  = Ret (Some "Ubuntu, root").
Proof.
  apply (get_default_entry_value _ (fresh [] [])
           {| returncode := 0; stdout := "saved_entry=Ubuntu, root=UUID=1234" +:+ nl;
              stderr := "" |}
           [] [] "Ubuntu, root" "=UUID=1234").
  - reflexivity.
  - reflexivity.
  - constructor.
  - vm_compute. intuition discriminate.
  - right. by exists "UUID=1234".
Defined.

(** ** What the adapters read *)

Lemma menuentry_match_has_quote line title :
  menuentry_match line title → ¬ quote_free line.
Proof.
  intros (pre & post & -> & _ & _) Hfree.
  apply quote_free_app in Hfree as [_ Hfree].
  change ("menuentry '" +:+ title +:+ "'" +:+ post)
    with ("menuentry " +:+ String "'" (title +:+ "'" +:+ post)) in Hfree.
  apply quote_free_app in Hfree as [_ Hfree]. simpl in Hfree. by destruct Hfree.
Qed.

(** X12. A line without a single quote gives no GRUB entry, so titles
    written with double quotes are skipped; and a title that is found is
    never empty and holds no single quote. *)
Theorem grub_titles_need_single_quotes (lines : list string) :
  (Forall quote_free lines → Linux.grub_titles lines = [])
  ∧ (∀ line title, Linux.search_menuentry line = Some title →
       title ≠ "" ∧ quote_free title ∧ ¬ quote_free line).
Proof.
  split.
  - intros Hfree. apply grub_titles_nothing.
    eapply Forall_impl; [exact Hfree|]. intros line Hline. simpl.
    destruct (Linux.search_menuentry line) as [t|] eqn:Hs; [|done].
    apply search_menuentry_Some in Hs.
    by destruct (menuentry_match_has_quote _ _ Hs).
  - intros line title Hs. apply search_menuentry_Some in Hs.
    pose proof (menuentry_match_has_quote _ _ Hs) as Hq.
    destruct Hs as (pre & post & _ & Hne & Hfree). done.
Qed.

Lemma grub_titles_need_single_quotes_witness :
  Linux.grub_titles ["set timeout=5"; "menuentry Ubuntu {"] = []
  ∧ "Ubuntu" ≠ "" ∧ quote_free "Ubuntu" ∧ ¬ quote_free "menuentry 'Ubuntu' {".
Proof.
  split.
  - apply (proj1 (grub_titles_need_single_quotes
                    ["set timeout=5"; "menuentry Ubuntu {"])).
    repeat (apply Forall_cons_2; [simpl; repeat split; discriminate|]).
    apply Forall_nil_2.
  - apply (proj2 (grub_titles_need_single_quotes []) "menuentry 'Ubuntu' {" "Ubuntu").
    reflexivity.
Defined.

Lemma hex_char_plain c :
  Py.is_hex c = true →
  c ≠ ","%char ∧ c ≠ ":"%char ∧ c ≠ Py.LF ∧ Py.isspace c = false.
Proof.
  destruct c as [[] [] [] [] [] [] [] []]; intros H; cbv in H; try discriminate H;
    repeat split; discriminate || reflexivity.
Qed.

Lemma is_bootnum_chars s :
  is_bootnum s = true →
  ∃ h1 h2 h3 h4,
    s = String h1 (String h2 (String h3 (String h4 "")))
    ∧ Py.is_hex h1 = true ∧ Py.is_hex h2 = true
    ∧ Py.is_hex h3 = true ∧ Py.is_hex h4 = true.
Proof.
  destruct s as [|h1 [|h2 [|h3 [|h4 [|? ?]]]]]; try discriminate. simpl.
  intros [[[H1 H2]%andb_prop H3]%andb_prop H4]%andb_prop.
  by exists h1, h2, h3, h4.
Qed.

Lemma dot_plus_no_line_feed s : char_free Py.LF s → Linux.dot_plus s = s.
Proof.
  induction s as [|c s IH]; [done|]. simpl. intros [Hc Hs].
  destruct (Ascii.eqb_spec c Py.LF); [done|]. by rewrite IH.
Qed.

Lemma spaces_then_name_one name :
  name ≠ "" → Py.strip name = name → char_free Py.LF name →
  Linux.spaces_then_name (String " " name) = Some name.
Proof.
  intros Hne Hstrip Hlf. destruct name as [|c name]; [done|].
  pose proof (strip_fixed_first _ _ Hstrip) as Hc.
  cbn [Linux.spaces_then_name]. change (Py.isspace " ") with true. cbv iota.
  cbn [Linux.spaces_then_name]. rewrite Hc.
  rewrite dot_plus_no_line_feed by done. reflexivity.
Qed.

(** X13. A line [Boot<4 hex digits>* <name>] of the listing gives the
    entry (boot number, name), and so does the line without the [*] of
    the active flag, for any name without surrounding white space. *)
Theorem uefi_entry_line_parses (bootnum name : string) :
  is_bootnum bootnum = true →
  name ≠ "" → Py.strip name = name → char_free Py.LF name →
  Linux.search_boot ("Boot" +:+ bootnum +:+ "* " +:+ name) = Some (bootnum, name)
  ∧ Linux.search_boot ("Boot" +:+ bootnum +:+ " " +:+ name) = Some (bootnum, name)
  ∧ Linux.uefi_pairs ["Boot" +:+ bootnum +:+ "* " +:+ name;
                      "Boot" +:+ bootnum +:+ " " +:+ name]
    = [(bootnum, name); (bootnum, name)].
Proof.
  intros Hboot Hne Hstrip Hlf.
  destruct (is_bootnum_chars _ Hboot) as (h1 & h2 & h3 & h4 & -> & H1 & H2 & H3 & H4).
  pose proof (spaces_then_name_one name Hne Hstrip Hlf) as Hname.
  destruct (hex_char_plain _ H1) as (_ & _ & _ & Hs1).
  assert (Hstar : Linux.match_boot
                    ("Boot" +:+ String h1 (String h2 (String h3 (String h4 "")))
                     +:+ "* " +:+ name)
                  = Some (String h1 (String h2 (String h3 (String h4 ""))), name)).
  { unfold Linux.match_boot.
    change (Py.strip_prefix "Boot"
              ("Boot" +:+ String h1 (String h2 (String h3 (String h4 "")))
               +:+ "* " +:+ name))
      with (Some (String h1 (String h2 (String h3 (String h4
              (String "*" (String " " name))))))).
    cbv iota beta. rewrite H1, H2, H3, H4. cbn [andb].
    change (Ascii.eqb "*" "*") with true. cbv iota. by rewrite Hname. }
  assert (Hplain : Linux.match_boot
                     ("Boot" +:+ String h1 (String h2 (String h3 (String h4 "")))
                      +:+ " " +:+ name)
                   = Some (String h1 (String h2 (String h3 (String h4 ""))), name)).
  { unfold Linux.match_boot.
    change (Py.strip_prefix "Boot"
              ("Boot" +:+ String h1 (String h2 (String h3 (String h4 "")))
               +:+ " " +:+ name))
      with (Some (String h1 (String h2 (String h3 (String h4 (String " " name)))))).
    cbv iota beta. rewrite H1, H2, H3, H4. cbn [andb].
    change (Ascii.eqb " " "*") with false. cbv iota. by rewrite Hname. }
  assert (Hs : ∀ line m, Linux.match_boot line = Some m → Linux.search_boot line = Some m).
  { intros line m Hm. destruct line; cbn [Linux.search_boot]; by rewrite Hm. }
  apply Hs in Hstar, Hplain. split; [done|]. split; [done|].
  unfold Linux.uefi_pairs. cbn [foldl]. rewrite Hstar, Hplain, Hstrip. reflexivity.
Qed.

Lemma uefi_entry_line_parses_witness :
  Linux.search_boot ("Boot" +:+ "00A1" +:+ "* " +:+ "Windows Boot Manager")
  = Some ("00A1", "Windows Boot Manager")
  ∧ Linux.search_boot ("Boot" +:+ "00A1" +:+ " " +:+ "Windows Boot Manager")
    = Some ("00A1", "Windows Boot Manager")
  ∧ Linux.uefi_pairs ["Boot" +:+ "00A1" +:+ "* " +:+ "Windows Boot Manager";
                      "Boot" +:+ "00A1" +:+ " " +:+ "Windows Boot Manager"]
    = [("00A1", "Windows Boot Manager"); ("00A1", "Windows Boot Manager")].
Proof.
  apply (uefi_entry_line_parses "00A1" "Windows Boot Manager").
  - reflexivity.
  - discriminate.
  - reflexivity.
  - vm_compute. intuition discriminate.
Defined.

(** ** The boot order read by SetDefault *)

Lemma no_space_app a b : no_space (a +:+ b) ↔ no_space a ∧ no_space b.
Proof.
  induction a as [|x a IH]; [simpl; tauto|].
  rewrite string_app_cons. simpl. rewrite IH. tauto.
Qed.

Lemma bootnum_plain id :
  is_bootnum id = true →
  char_free "," id ∧ char_free ":" id ∧ no_space id.
Proof.
  intros (h1 & h2 & h3 & h4 & -> & H1 & H2 & H3 & H4)%is_bootnum_chars.
  destruct (hex_char_plain _ H1) as (? & ? & _ & ?).
  destruct (hex_char_plain _ H2) as (? & ? & _ & ?).
  destruct (hex_char_plain _ H3) as (? & ? & _ & ?).
  destruct (hex_char_plain _ H4) as (? & ? & _ & ?).
  simpl. done.
Qed.

Lemma join_cons2 sep x y l :
  Py.join sep (x :: y :: l) = x +:+ sep +:+ Py.join sep (y :: l).
Proof. reflexivity. Qed.

Lemma join_bootnums_plain (ids : list string) :
  Forall (fun id => is_bootnum id = true) ids →
  char_free ":" (Py.join "," ids) ∧ no_space (Py.join "," ids).
Proof.
  induction ids as [|x [|y l] IH]; intros Hids.
  - done.
  - apply Forall_inv in Hids. by destruct (bootnum_plain _ Hids) as (_ & ? & ?).
  - rewrite join_cons2. inversion Hids as [|? ? Hx Hrest]; subst.
    destruct (bootnum_plain _ Hx) as (_ & ? & ?). destruct (IH Hrest) as [? ?].
    rewrite !char_free_app, !no_space_app. simpl. repeat split; done.
Qed.

Lemma join_split_comma (ids : list string) :
  ids ≠ [] → Forall (char_free ",") ids →
  Py.split "," (Py.join "," ids) = ids.
Proof.
  unfold Py.split. induction ids as [|x [|y l] IH]; intros Hne Hids.
  - done.
  - apply Forall_inv in Hids. simpl Py.join. by rewrite split_from_free.
  - rewrite join_cons2. inversion Hids as [|? ? Hx Hrest]; subst.
    change (x +:+ "," +:+ Py.join "," (y :: l))
      with (x +:+ String "," (Py.join "," (y :: l))).
    rewrite split_from_app by done. rewrite IH by done. reflexivity.
Qed.

Lemma read_boot_order_skip before lines st :
  Forall (fun line => Py.startswith line "BootOrder:" = false) before →
  Linux.read_boot_order (before ++ lines) st = Linux.read_boot_order lines st.
Proof.
  induction 1 as [|line before Hline _ IH]; [done|]. simpl. by rewrite Hline.
Qed.

(** The line [BootOrder: A,B,C] is read back as the ids [A], [B], [C]. *)
Lemma read_boot_order_ids before ids after st :
  Forall (fun line => Py.startswith line "BootOrder:" = false) before →
  ids ≠ [] → Forall (fun id => is_bootnum id = true) ids →
  Linux.read_boot_order (before ++ ("BootOrder: " +:+ Py.join "," ids) :: after) st
  = (Ret ids, st).
Proof.
  intros Hbefore Hne Hids.
  rewrite (read_boot_order_skip before _ _ Hbefore).
  destruct (join_bootnums_plain ids Hids) as [Hcolon Hspace].
  cbn [Linux.read_boot_order].
  change ("BootOrder: " +:+ Py.join "," ids)
    with ("BootOrder:" +:+ " " +:+ Py.join "," ids).
  rewrite startswith_app.
  assert (Hsplit : Py.split ":" ("BootOrder:" +:+ " " +:+ Py.join "," ids) !! 1
                   = Some (" " +:+ Py.join "," ids)).
  { unfold Py.split.
    change ("BootOrder:" +:+ " " +:+ Py.join "," ids)
      with ("BootOrder" +:+ String ":" (" " +:+ Py.join "," ids)).
    rewrite split_from_app by (vm_compute; intuition discriminate).
    rewrite split_from_free; [reflexivity|].
    apply char_free_app. split; [|done]. vm_compute. intuition discriminate. }
  rewrite Hsplit.
  assert (Hstrip : Py.strip (" " +:+ Py.join "," ids) = Py.join "," ids).
  { unfold Py.strip. change (" " +:+ Py.join "," ids) with (String " " (Py.join "," ids)).
    cbn [Py.lstrip]. change (Py.isspace " ") with true. cbv iota.
    by rewrite lstrip_no_space, rstrip_no_space. }
  rewrite Hstrip, join_split_comma; [reflexivity|done|].
  eapply Forall_impl; [exact Hids|]. intros id Hid. by apply bootnum_plain.
Qed.

(** X14. SetDefault on a UEFI entry, end to end.  With a validated
    credential cached and a listing whose first [BootOrder:] line is
    [BootOrder: <ids joined by commas>], the processes started are the
    listing and one [efibootmgr --bootorder] call through [sudo] whose
    arguments are the selected id followed by the other ids of the line in
    their order. *)
Theorem set_default_os_moves_entry_to_front
    (env : Env) (st : State) (index password : string) (p : CompletedProcess)
    (before after ids : list string) :
  selected st index → index ≠ "" → Py.isdigit index = false →
  sudo_password st = Some password → password ≠ "" →
  run_process env (spawned st) plain_listing = Completed p →
  Py.splitlines (stdout p) = before ++ ("BootOrder: " +:+ Py.join "," ids) :: after →
  Forall (fun line => Py.startswith line "BootOrder:" = false) before →
  ids ≠ [] → Forall (fun id => is_bootnum id = true) ids →
  spawned (Linux.set_default_os env st).2
  = spawned st ++
    [plain_listing;
     Call (["sudo"; "-S"; "efibootmgr"; "--bootorder"; index]
           ++ filter (fun id => id ≠ index) ids)
          (Some (password +:+ nl))].
Proof.
  intros Hsel Hne Hdig Hc Hpw Hrun Hlines Hbefore Hids Hboot.
  apply (set_default_os_writes_new_order env st index password p ids); try done.
  intros st'. rewrite Hlines. by apply read_boot_order_ids.
Qed.

Lemma set_default_os_moves_entry_to_front_witness :
  let env := env_reboot_fails in
  let st := started env (Some "secret") [] [] in
  spawned (Linux.set_default_os env st).2
  = spawned st ++
    [plain_listing;
     Call (["sudo"; "-S"; "efibootmgr"; "--bootorder"; "000A"]
           ++ filter (fun id => id ≠ "000A") ["000B"; "000A"])
          (Some ("secret" +:+ nl))].
Proof.
  intros env st.
  assert (Hsel : selected st "000A").
  { exists 0, (Item "Windows Boot Manager (Boot000A)" false).
    repeat split; vm_compute; reflexivity. }
  assert (Hne : "000A" ≠ "") by discriminate.
  assert (Hpw : "secret" ≠ "") by discriminate.
  assert (Hids : ["000B"; "000A"] ≠ ([] : list string)) by discriminate.
  apply (set_default_os_moves_entry_to_front env st "000A" "secret"
           {| returncode := 0; stdout := "BootOrder: 000B,000A"; stderr := "" |}
           [] [] ["000B"; "000A"] Hsel Hne eq_refl eq_refl Hpw eq_refl eq_refl
           (Forall_nil_2 _) Hids).
  repeat constructor.
Defined.

(** ** The BCD adapter *)

Lemma split_colon_free line :
  char_free ":" line → Py.split ":" (Py.strip line) = [Py.strip line].
Proof.
  intros Hfree. unfold Py.split. rewrite split_from_free; [done|].
  by apply char_free_rstrip, char_free_lstrip.
Qed.

Lemma bcd_names_acc (lines acc : list string) :
  foldl (fun entries line =>
           if Py.contains "description" (Py.lower line) then
             match Py.split ":" (Py.strip line) with
             | _ :: field :: _ => entries ++ [Py.strip field]
             | _ => entries
             end
           else entries) acc lines
  = acc ++ Windows.bcd_names lines.
Proof.
  unfold Windows.bcd_names. revert acc.
  induction lines as [|line lines IH]; intros acc; simpl.
  - by rewrite app_nil_r.
  - destruct (Py.contains "description" (Py.lower line)); [|apply IH].
    destruct (Py.split ":" (Py.strip line)) as [|? [|field ?]]; try apply IH.
    rewrite (IH (acc ++ [Py.strip field])), (IH [Py.strip field]).
    by rewrite <- app_assoc.
Qed.

Lemma bcd_names_without_colon lines :
  Forall (labelled_without_colon "description") lines → Windows.bcd_names lines = [].
Proof.
  induction 1 as [|line lines Hline _ IH]; [done|].
  unfold Windows.bcd_names. cbn [foldl].
  destruct (Py.contains "description" (Py.lower line)) eqn:Hd; [|exact IH].
  rewrite (split_colon_free line (Hline Hd)). exact IH.
Qed.

Lemma default_field_without_colon lines :
  Forall (labelled_without_colon "default") lines → Windows.default_field lines = None.
Proof.
  induction 1 as [|line lines Hline _ IH]; [done|].
  cbn [Windows.default_field].
  destruct (Py.contains "default" (Py.lower line)) eqn:Hd; [|exact IH].
  rewrite (split_colon_free line (Hline Hd)). exact IH.
Qed.

(** X15. The BCD adapter and the BCD default resolver take the text after
    the first colon of a line: when no line labelled "description" holds
    a colon the inventory is empty, and when no line labelled "default"
    holds a colon no default is known, as with the usual
    [label   value] layout of the listing. *)
Theorem bcd_lines_need_a_colon (env : Env) (st : State) (p : CompletedProcess) :
  run_process env (spawned st) bcd_listing = Completed p →
  (Forall (labelled_without_colon "description") (Py.splitlines (stdout p)) →
   (Windows.get_bcd_entries env st).1 = Ret [])
  ∧ (Forall (labelled_without_colon "default") (Py.splitlines (stdout p)) →
     (Windows.get_default_entry env st).1 = Ret None).
Proof.
  intros Hrun. split; intros Hlines.
  - rewrite get_bcd_entries_run. cbv zeta. rewrite Hrun. simpl.
    by rewrite bcd_names_without_colon.
  - unfold Windows.get_default_entry, Windows.BCDEDIT_CMD, try_except, subprocess_run.
    unfold mbind, M_bind. fold bcd_listing. rewrite Hrun. simpl.
    by rewrite default_field_without_colon.
Qed.

Lemma bcd_lines_need_a_colon_witness :
  (Windows.get_bcd_entries env_bcdedit (fresh [] [])).1 = Ret []
  ∧ (Windows.get_default_entry env_bcdedit (fresh [] [])).1 = Ret None.
Proof.
  destruct (bcd_lines_need_a_colon env_bcdedit (fresh [] [])
              {| returncode := 0; stdout := bcdedit_output; stderr := "" |} eq_refl)
    as [H1 H2].
  split; [apply H1|apply H2];
    match goal with
    | |- Forall _ ?l => let l' := eval vm_compute in l in change l with l'
    end;
    repeat (apply Forall_cons_2;
            [intros H; vm_compute in H; try discriminate H;
             vm_compute; intuition discriminate|]);
    apply Forall_nil_2.
Defined.

(** ** The inventory of [setup_ui] *)

Lemma bootnum_length b : is_bootnum b = true → String.length b = 4.
Proof. intros (h1 & h2 & h3 & h4 & -> & _)%is_bootnum_chars. reflexivity. Qed.

Lemma list_ascii_length s :
  length (String.list_ascii_of_string s) = String.length s.
Proof. induction s as [|c s IH]; simpl; [done|by rewrite IH]. Qed.

(** Two UEFI displays that are equal carry the same boot number. *)
Lemma uefi_display_inj name1 name2 b1 b2 :
  is_bootnum b1 = true → is_bootnum b2 = true →
  Linux.uefi_display name1 b1 = Linux.uefi_display name2 b2 →
  name1 = name2 ∧ b1 = b2.
Proof.
  intros H1 H2 H. unfold Linux.uefi_display in H.
  apply (f_equal String.list_ascii_of_string) in H.
  rewrite !list_ascii_app in H. rewrite !app_assoc in H.
  apply app_inj_tail in H as [H _].
  apply app_inj_2 in H as [H Hb].
  2:{ rewrite !list_ascii_length. by rewrite !bootnum_length. }
  apply app_inj_2 in H as [H _]; [|done].
  split; by apply list_ascii_inj.
Qed.

(** A UEFI display is never a GRUB display. *)
Lemma uefi_display_not_grub name title b i :
  is_bootnum b = true →
  Linux.uefi_display name b ≠ Linux.grub_display title i.
Proof.
  intros (h1 & h2 & h3 & h4 & -> & H1 & H2 & H3 & H4)%is_bootnum_chars H.
  unfold Linux.uefi_display, Linux.grub_display in H.
  apply (f_equal String.list_ascii_of_string) in H.
  rewrite !list_ascii_app in H. rewrite !app_assoc in H.
  apply app_inj_tail in H as [H _].
  pose proof (all_digits_Forall _ (str_all_digits i)) as Hd.
  apply (f_equal (@rev ascii)) in H. rewrite !rev_app_distr in H.
  apply Forall_rev in Hd.
  set (E := rev (String.list_ascii_of_string (Py.str i))) in *.
  change (rev (String.list_ascii_of_string
                 (String h1 (String h2 (String h3 (String h4 ""))))))
    with [h4; h3; h2; h1] in H.
  change (rev (String.list_ascii_of_string " (Boot"))
    with ["t"; "o"; "o"; "B"; "("; " "]%char in H.
  change (rev (String.list_ascii_of_string " (GRUB"))
    with ["B"; "U"; "R"; "G"; "("; " "]%char in H.
  destruct E as [|e1 [|e2 [|e3 [|e4 [|e5 E]]]]]; simpl in H;
    repeat (injection H as ? H); subst; try congruence;
    try (cbv in H1; congruence); try (cbv in H2; congruence);
    try (cbv in H3; congruence).
  do 4 apply Forall_inv_tail in Hd. apply Forall_inv in Hd. cbv in Hd. congruence.
Qed.

Lemma uefi_pairs_acc (lines : list string) (acc : list (string * string)) :
  foldl (fun entries line =>
           match Linux.search_boot line with
           | Some (bootnum, g2) => entries ++ [(bootnum, Py.strip g2)]
           | None => entries
           end) acc lines
  = acc ++ Linux.uefi_pairs lines.
Proof.
  unfold Linux.uefi_pairs. revert acc.
  induction lines as [|line lines IH]; intros acc; simpl.
  - by rewrite app_nil_r.
  - destruct (Linux.search_boot line) as [[b g]|]; [|apply IH].
    rewrite (IH (acc ++ [(b, Py.strip g)])), (IH [(b, Py.strip g)]).
    by rewrite <- app_assoc.
Qed.

Lemma match_boot_bootnum s b g : Linux.match_boot s = Some (b, g) → is_bootnum b = true.
Proof.
  unfold Linux.match_boot.
  destruct (Py.strip_prefix "Boot" s) as [[|h1 [|h2 [|h3 [|h4 rest]]]]|]; try discriminate.
  destruct (Py.is_hex h1 && Py.is_hex h2 && Py.is_hex h3 && Py.is_hex h4) eqn:Hhex;
    [|discriminate].
  destruct (match rest with
            | "" => Linux.spaces_then_name rest
            | String c rest' =>
                if Ascii.eqb c "*"
                then match Linux.spaces_then_name rest' with
                     | Some g0 => Some g0
                     | None => Linux.spaces_then_name rest
                     end
                else Linux.spaces_then_name rest
            end); [|discriminate].
  intros [= <- _]. exact Hhex.
Qed.

Lemma search_boot_bootnum line b g :
  Linux.search_boot line = Some (b, g) → is_bootnum b = true.
Proof.
  induction line as [|c line IH]; cbn [Linux.search_boot].
  - destruct (Linux.match_boot "") as [[b' g']|] eqn:Hm; [|discriminate].
    intros [= <- <-]. by apply match_boot_bootnum in Hm.
  - destruct (Linux.match_boot (String c line)) as [[b' g']|] eqn:Hm; [|exact IH].
    intros [= <- <-]. by apply match_boot_bootnum in Hm.
Qed.

(** What the UEFI adapter returns are boot numbers of four hexadecimal
    digits. *)
Lemma uefi_pairs_bootnums lines :
  Forall (fun e => is_bootnum e.1 = true) (Linux.uefi_pairs lines).
Proof.
  induction lines as [|line lines IH]; [constructor|].
  unfold Linux.uefi_pairs. cbn [foldl].
  destruct (Linux.search_boot line) as [[b g]|] eqn:Hs; [|exact IH].
  rewrite uefi_pairs_acc. constructor; [|exact IH].
  by apply search_boot_bootnum in Hs.
Qed.

(** The loop over [uefi_entries]: each display is bound to its boot
    number, and the other keys are left alone. *)
Lemma add_uefi_lookup (pairs : list (string * string)) :
  Forall (fun e => is_bootnum e.1 = true) pairs →
  ∀ (m : gmap string string) (all : list string),
    (∀ b n, (b, n) ∈ pairs →
       (foldl Linux.add_uefi (m, all) pairs).1 !! Linux.uefi_display n b = Some b)
    ∧ (∀ d, (∀ b n, (b, n) ∈ pairs → d ≠ Linux.uefi_display n b) →
         (foldl Linux.add_uefi (m, all) pairs).1 !! d = m !! d).
Proof.
  induction 1 as [|[b0 n0] pairs Hb0 Hrest IH]; intros m all.
  - split; [intros b n Hin; by apply elem_of_nil in Hin|done].
  - cbn [foldl]. unfold Linux.add_uefi at 2. cbn [fst snd].
    destruct (IH (<[Linux.uefi_display n0 b0 := b0]> m)
                 (all ++ [Linux.uefi_display n0 b0])) as [Hin Hout].
    split.
    + intros b n [[= -> ->]|Hbn]%elem_of_cons; [|by apply Hin].
      destruct (decide (Linux.uefi_display n0 b0
                        ∈ map (fun e => Linux.uefi_display e.2 e.1) pairs))
        as [([b1 n1] & Heq & Hin1)%list_elem_of_fmap|Hnone].
      * simpl in Heq.
        apply uefi_display_inj in Heq as [-> ->]; [by apply Hin|done|].
        by apply (proj1 (Forall_forall _ _) Hrest (b1, n1)).
      * rewrite Hout; [apply lookup_insert_eq|].
        intros b1 n1 Hin1 Heq. apply Hnone. apply list_elem_of_fmap.
        exists (b1, n1). done.
    + intros d Hd. rewrite Hout.
      * apply lookup_insert_ne. intros Heq. apply (Hd b0 n0); [left|done].
      * intros b n Hbn. apply Hd. by right.
Qed.

Lemma add_items_run default_entry (all : list string) :
  ∀ st,
    Forall (fun d => is_Some (entry_map st !! d)) all →
    Linux.add_items default_entry all st
    = (Ret tt,
       with_list_widget
         (list_widget st ++ map (item_of default_entry (entry_map st)) all) st).
Proof.
  induction all as [|d all IH]; intros st Hall.
  - simpl. unfold mret, M_ret. f_equal. destruct st; simpl. by rewrite app_nil_r.
  - inversion Hall as [|? ? [key Hkey] Hrest]; subst.
    cbn [Linux.add_items]. unfold mbind at 1, M_bind at 1. unfold get. cbv beta iota.
    rewrite Hkey. unfold mbind at 1, M_bind at 1. unfold modify at 1. cbv beta iota.
    set (it := if decide (default_entry = Some key)
               then Item (d +:+ Linux.default_mark) true else Item d false).
    rewrite (IH (with_list_widget (list_widget st ++ [it]) st)) by exact Hrest.
    f_equal. unfold with_list_widget. simpl. f_equal.
    rewrite <- app_assoc. simpl. unfold item_of at 2. rewrite Hkey. reflexivity.
Qed.

Lemma with_logged_nil st : with_logged (logged st ++ []) st = st.
Proof. destruct st. unfold with_logged. simpl. by rewrite app_nil_r. Qed.

Lemma saved_entry_state lines :
  ∀ st, ∃ r msgs,
    Linux.saved_entry lines st = (r, with_logged (logged st ++ msgs) st)
    ∧ r ≠ Blocked
    ∧ ∀ st', Linux.saved_entry lines st' = (r, with_logged (logged st' ++ msgs) st').
Proof.
  induction lines as [|line lines IH]; intros st; cbn [Linux.saved_entry].
  - exists (Ret None), []. split; [|split; [done|intros st']].
    all: by rewrite with_logged_nil.
  - destruct (Py.startswith line "saved_entry="); [|apply IH].
    destruct (Py.split "=" line !! 1) as [v|].
    + eexists (Ret (Some v)), [_]. split; [reflexivity|]. split; [done|reflexivity].
    + eexists (Raise _), []. split; [|split; [done|intros st']].
      all: by rewrite with_logged_nil.
Qed.

(** The default resolver of GRUB: one process, log records, and an answer
    that depends on the machine and on the processes run before only. *)
Lemma get_default_entry_run env st :
  ∃ default_entry msgs,
    Linux.get_default_entry env st
    = (Ret default_entry,
       with_logged (logged st ++ msgs)
         (with_spawned (spawned st ++ [grub_editenv_listing]) st))
    ∧ ∀ st', spawned st' = spawned st →
             (Linux.get_default_entry env st').1 = Ret default_entry.
Proof.
  unfold Linux.get_default_entry, try_except, subprocess_run.
  unfold mbind, M_bind. fold grub_editenv_listing.
  destruct (run_process env (spawned st) grub_editenv_listing) as [p|e] eqn:Hrun.
  - destruct (saved_entry_state (Py.splitlines (stdout p))
                (with_spawned (spawned st ++ [grub_editenv_listing]) st))
      as (r & msgs & Hs & Hr & Hany).
    rewrite Hs. destruct r as [v|e|]; [| |done].
    + exists v, msgs. split; [reflexivity|].
      intros st' Hsp. rewrite Hsp, Hrun, Hany. reflexivity.
    + eexists None, (msgs ++ [_]). split.
      * simpl. f_equal. unfold with_logged. simpl. by rewrite <- app_assoc.
      * intros st' Hsp. rewrite Hsp, Hrun, Hany. reflexivity.
  - eexists None, [_]. split; [reflexivity|].
    intros st' Hsp. rewrite Hsp, Hrun. reflexivity.
Qed.

Lemma get_grub_entries_run env st :
  ∃ titles msgs,
    Linux.get_grub_entries env st = (Ret titles, with_logged (logged st ++ msgs) st)
    ∧ ∀ st', (Linux.get_grub_entries env st').1 = Ret titles.
Proof.
  unfold Linux.get_grub_entries.
  destruct (open_text env Linux.GRUB_CFG_PATH) as [e|text [e|]];
    eexists _, [_]; (split; [reflexivity|intros st'; reflexivity]).
Qed.

Lemma collect_run (m : gmap string string) (pairs : list (string * string))
    (titles : list string) :
  Forall (fun e => is_bootnum e.1 = true) pairs →
  (Linux.collect m pairs titles).2
  = map (fun e => Linux.uefi_display e.2 e.1) pairs
    ++ zip_with (fun i t => Linux.grub_display t i) (seq 0 (length titles)) titles
  ∧ (∀ b n, (b, n) ∈ pairs →
       (Linux.collect m pairs titles).1 !! Linux.uefi_display n b = Some b)
  ∧ (∀ i t, titles !! i = Some t →
       (Linux.collect m pairs titles).1 !! Linux.grub_display t i = Some (Py.str i)).
Proof.
  intros Hboot. unfold Linux.collect, Linux.enumerate.
  pose proof (add_uefi_loop pairs m []) as Hall1.
  destruct (add_uefi_lookup pairs Hboot m []) as [Hin1 _].
  destruct (foldl Linux.add_uefi (m, []) pairs) as [m1 all1].
  simpl in Hall1, Hin1. subst all1.
  destruct (add_grub_loop titles 0 m1
              (map (fun e => Linux.uefi_display e.2 e.1) pairs))
    as (Hall & Hin & Hout).
  cbv zeta in Hall, Hin, Hout. split; [exact Hall|]. split.
  - intros b n Hbn. rewrite Hout; [by apply Hin1|].
    intros j t _. apply uefi_display_not_grub.
    by apply (proj1 (Forall_forall _ _) Hboot (b, n)).
  - intros i t Ht. by apply (Hin i t).
Qed.

Lemma uefi_items default_entry (m : gmap string string) (pairs : list (string * string)) :
  (∀ b n, (b, n) ∈ pairs → m !! Linux.uefi_display n b = Some b) →
  map (item_of default_entry m) (map (fun e => Linux.uefi_display e.2 e.1) pairs)
  = map (fun e => make_item default_entry (Linux.uefi_display e.2 e.1) e.1) pairs.
Proof.
  induction pairs as [|[b n] pairs IH]; intros Hin; [done|].
  cbn [map]. f_equal.
  - unfold item_of. cbn [fst snd]. rewrite (Hin b n); [done|left].
  - apply IH. intros b' n' Hin'. apply Hin. by right.
Qed.

Lemma grub_items default_entry (m : gmap string string) (titles : list string) :
  ∀ k,
    (∀ j t, titles !! j = Some t →
       m !! Linux.grub_display t (k + j) = Some (Py.str (k + j))) →
    map (item_of default_entry m)
        (zip_with (fun i t => Linux.grub_display t i) (seq k (length titles)) titles)
    = zip_with (fun i t => make_item default_entry (Linux.grub_display t i) (Py.str i))
               (seq k (length titles)) titles.
Proof.
  induction titles as [|t titles IH]; intros k Hin; [done|].
  cbn [length seq zip_with map]. f_equal.
  - specialize (Hin 0 t eq_refl). rewrite Nat.add_0_r in Hin.
    unfold item_of. by rewrite Hin.
  - apply IH. intros j t' Ht'. replace (S k + j) with (k + S j) by lia. by apply Hin.
Qed.

Lemma get_uefi_entries_shape env st :
  ∃ pairs msgs,
    Linux.get_uefi_entries env st
    = (Ret pairs, with_logged (logged st ++ msgs)
                    (with_spawned (spawned st ++ [uefi_listing]) st))
    ∧ Forall (fun e => is_bootnum e.1 = true) pairs
    ∧ ∀ st', spawned st' = spawned st →
             (Linux.get_uefi_entries env st').1 = Ret pairs.
Proof.
  rewrite get_uefi_entries_run. cbv zeta.
  destruct (run_process env (spawned st) uefi_listing) as [p|e] eqn:Hrun.
  - eexists _, [_]. split; [reflexivity|]. split; [apply uefi_pairs_bootnums|].
    intros st' Hsp. rewrite get_uefi_entries_run. cbv zeta. by rewrite Hsp, Hrun.
  - eexists [], [_]. split; [reflexivity|]. split; [constructor|].
    intros st' Hsp. rewrite get_uefi_entries_run. cbv zeta. by rewrite Hsp, Hrun.
Qed.

(** What [setup_ui] does, in full. *)
Lemma setup_ui_run env st :
  ∃ titles pairs default_entry final,
    (∀ st', (Linux.get_grub_entries env st').1 = Ret titles)
    ∧ (∀ st', spawned st' = spawned st →
              (Linux.get_uefi_entries env st').1 = Ret pairs)
    ∧ (∀ st', spawned st' = spawned st ++ [uefi_listing] →
              (Linux.get_default_entry env st').1 = Ret default_entry)
    ∧ Linux.setup_ui env st = (Ret tt, final)
    ∧ list_widget final
      = list_widget st
        ++ map (fun e => make_item default_entry (Linux.uefi_display e.2 e.1) e.1) pairs
        ++ zip_with (fun i t => make_item default_entry (Linux.grub_display t i)
                                          (Py.str i))
                    (seq 0 (length titles)) titles
    ∧ (∀ b n, (b, n) ∈ pairs → entry_map final !! Linux.uefi_display n b = Some b)
    ∧ (∀ i t, titles !! i = Some t →
         entry_map final !! Linux.grub_display t i = Some (Py.str i))
    ∧ spawned final = spawned st ++ [uefi_listing; grub_editenv_listing]
    ∧ shown final = shown st
    ∧ sudo_password final = sudo_password st
    ∧ selection final = selection st.
Proof.
  destruct (get_grub_entries_run env st) as (titles & msgs1 & Hgrub & Hgrub_any).
  set (st1 := with_logged (logged st ++ msgs1) st) in Hgrub.
  destruct (get_uefi_entries_shape env st1) as (pairs & msgs2 & Huefi & Hboot & Huefi_any).
  set (st2 := with_logged (logged st1 ++ msgs2)
                (with_spawned (spawned st1 ++ [uefi_listing]) st1)) in Huefi.
  destruct (collect_run (entry_map st2) pairs titles Hboot) as (Hall & Hin1 & Hin2).
  destruct (Linux.collect (entry_map st2) pairs titles) as [m all] eqn:Hcollect.
  cbn [fst snd] in Hall, Hin1, Hin2.
  set (st3 := with_entry_map m st2).
  destruct (get_default_entry_run env st3) as (default_entry & msgs3 & Hdef & Hdef_any).
  set (st4 := with_logged (logged st3 ++ msgs3)
                (with_spawned (spawned st3 ++ [grub_editenv_listing]) st3)) in Hdef.
  assert (Hkeys : Forall (fun d => is_Some (entry_map st4 !! d)) all).
  { rewrite Hall. apply Forall_app. split; apply Forall_forall; intros d Hd.
    - apply list_elem_of_fmap in Hd as ([b n] & -> & Hbn). simpl.
      rewrite (Hin1 b n Hbn). by eexists.
    - apply elem_of_lookup_zip_with in Hd as (j & i & t & -> & Hi & Ht).
      apply lookup_seq in Hi as [-> _]. simpl.
      rewrite (Hin2 j t Ht). by eexists. }
  exists titles, pairs, default_entry.
  eexists. split; [exact Hgrub_any|]. split; [exact Huefi_any|].
  split; [intros st' Hsp; apply Hdef_any; by rewrite Hsp|].
  split.
  { unfold Linux.setup_ui. step. rewrite Hgrub. step. rewrite Huefi. step.
    unfold get. cbv beta iota. rewrite Hcollect. step. unfold modify at 1.
    cbv beta iota. fold st3. step. rewrite Hdef.
    apply (add_items_run default_entry all st4 Hkeys). }
  cbn [list_widget entry_map spawned shown sudo_password selection
       with_list_widget].
  split.
  { change (entry_map st4) with m. change (list_widget st4) with (list_widget st).
    rewrite Hall, map_app, (uefi_items default_entry m pairs Hin1).
    rewrite (grub_items default_entry m titles 0); [reflexivity|].
    intros j t Ht. by apply Hin2. }
  split; [exact Hin1|]. split; [exact Hin2|].
  simpl. by rewrite <- app_assoc.
Qed.

(** X16. [setup_ui] never raises, shows no dialog and starts only the two
    listings [efibootmgr -v] and [grub-editenv list]: nothing privileged.
    It appends one list item for each entry of the adapters, the UEFI
    entries first and the GRUB entries after them, each in the order of
    its adapter; an item carries the default mark exactly when the saved
    default of GRUB equals its id (the boot number, or the ordinal). *)
Theorem setup_ui_builds_inventory (env : Env) (st : State) :
  ∃ titles pairs default_entry,
    (Linux.get_grub_entries env st).1 = Ret titles
    ∧ (Linux.get_uefi_entries env st).1 = Ret pairs
    ∧ (Linux.get_default_entry env
         (with_spawned (spawned st ++ [uefi_listing]) st)).1 = Ret default_entry
    ∧ (Linux.setup_ui env st).1 = Ret tt
    ∧ list_widget (Linux.setup_ui env st).2
      = list_widget st
        ++ map (fun e => make_item default_entry (Linux.uefi_display e.2 e.1) e.1) pairs
        ++ zip_with (fun i t => make_item default_entry (Linux.grub_display t i)
                                          (Py.str i))
                    (seq 0 (length titles)) titles
    ∧ spawned (Linux.setup_ui env st).2
      = spawned st ++ [uefi_listing; grub_editenv_listing]
    ∧ shown (Linux.setup_ui env st).2 = shown st
    ∧ sudo_password (Linux.setup_ui env st).2 = sudo_password st.
Proof.
  destruct (setup_ui_run env st)
    as (titles & pairs & default_entry & final & Hg & Hu & Hd & Hrun & Hlist & _ & _
        & Hsp & Hsh & Hpw & _).
  exists titles, pairs, default_entry. rewrite Hrun.
  split; [apply Hg|]. split; [by apply Hu|]. split; [by apply Hd|]. done.
Qed.

(** *** From a list item back to its entry *)

Lemma remove_all_absent old d :
  Py.contains old d = false → Py.remove_all old d = d.
Proof.
  unfold Py.remove_all. induction d as [|c d IH]; [done|].
  cbn [Py.contains Py.remove_from]. intros [Hs Hd]%orb_false_elim.
  rewrite Hs. by rewrite IH.
Qed.

Lemma string_app_cases (a b c d : string) :
  a +:+ b = c +:+ d → (∃ u, a = c +:+ u) ∨ (∃ u, c = a +:+ u).
Proof.
  revert c. induction a as [|x a IH]; intros c H.
  - right. by exists c.
  - destruct c as [|y c]; [left; by eexists|].
    rewrite !string_app_cons in H. injection H as -> H.
    destruct (IH c H) as [[u ->]|[u ->]]; [left|right]; by exists u.
Qed.

(** The closing parenthesis is the last character of the mark. *)
Lemma mark_ends_at_parenthesis s0 u :
  Linux.default_mark = (s0 +:+ ")") +:+ u → u = "".
Proof.
  unfold Linux.default_mark. intros H.
  do 15 (destruct s0 as [|? s0];
         [change (("" +:+ ")") +:+ u) with (String ")" u) in H;
          first [discriminate H | by injection H as <-]
         |rewrite !string_app_cons in H; injection H as _ H]).
  destruct s0; discriminate H.
Qed.

Lemma mark_not_across s :
  (∃ s0, s = s0 +:+ ")") → Py.contains Linux.default_mark s = false →
  Py.startswith (s +:+ Linux.default_mark) Linux.default_mark = false.
Proof.
  intros [s0 ->] Hc.
  destruct (Py.startswith ((s0 +:+ ")") +:+ Linux.default_mark) Linux.default_mark)
    eqn:Hs; [|done].
  unfold Py.startswith in Hs.
  destruct (Py.strip_prefix Linux.default_mark
              ((s0 +:+ ")") +:+ Linux.default_mark)) as [r|] eqn:Hp; [|done].
  apply strip_prefix_Some in Hp.
  assert (Hhead : Py.startswith (s0 +:+ ")") Linux.default_mark = true).
  { destruct (string_app_cases _ _ _ _ Hp) as [[u ->]|[u Hu]].
    - apply startswith_app.
    - pose proof (mark_ends_at_parenthesis _ _ Hu) as ->.
      rewrite string_app_nil_r in Hu. rewrite <- Hu.
      rewrite <- (string_app_nil_r Linux.default_mark) at 1. apply startswith_app. }
  destruct (s0 +:+ ")") as [|c s]; cbn [Py.contains] in Hc;
    apply orb_false_elim in Hc as [Hc _]; congruence.
Qed.

Lemma remove_all_marked body :
  Py.contains Linux.default_mark (body +:+ ")") = false →
  Py.remove_all Linux.default_mark ((body +:+ ")") +:+ Linux.default_mark)
  = body +:+ ")".
Proof.
  unfold Py.remove_all. induction body as [|c body IH]; intros Hc.
  - vm_compute. reflexivity.
  - pose proof (mark_not_across (String c body +:+ ")")
                  (ex_intro _ (String c body) eq_refl) Hc) as Hs.
    rewrite !string_app_cons in *. cbn [Py.remove_from]. rewrite Hs.
    cbn [Py.contains] in Hc. apply orb_false_elim in Hc as [_ Hc].
    by rewrite IH.
Qed.

Lemma make_item_resolves default_entry (m : gmap string string) body key :
  let d := body +:+ ")" in
  Py.strip d = d → Py.contains Linux.default_mark d = false →
  m !! d = Some key →
  m !! Py.strip (Py.remove_all Linux.default_mark
                   (item_text (make_item default_entry d key))) = Some key.
Proof.
  intros d Hstrip Hc Hkey. unfold make_item.
  destruct (decide (default_entry = Some key)); cbn [item_text].
  - unfold d. rewrite remove_all_marked by exact Hc. fold d. by rewrite Hstrip.
  - rewrite remove_all_absent by exact Hc. by rewrite Hstrip.
Qed.

(** X17. After [setup_ui] on the empty list, selecting an item gives back
    the id of its entry: the boot number for the [j]-th UEFI entry, the
    ordinal for the [i]-th GRUB entry, whether the item carries the default
    mark or not, provided that its display text has no surrounding white
    space and does not hold the text of the mark itself. *)
Theorem selection_resolves_to_entry (env : Env) (st : State) :
  list_widget st = [] →
  ∃ titles pairs,
    (Linux.get_grub_entries env st).1 = Ret titles
    ∧ (Linux.get_uefi_entries env st).1 = Ret pairs
    ∧ (∀ j b n,
         pairs !! j = Some (b, n) →
         Py.strip (Linux.uefi_display n b) = Linux.uefi_display n b →
         Py.contains Linux.default_mark (Linux.uefi_display n b) = false →
         selected (with_selection (Some j) (Linux.setup_ui env st).2) b)
    ∧ (∀ i t,
         titles !! i = Some t →
         Py.strip (Linux.grub_display t i) = Linux.grub_display t i →
         Py.contains Linux.default_mark (Linux.grub_display t i) = false →
         selected (with_selection (Some (length pairs + i)) (Linux.setup_ui env st).2)
                  (Py.str i)).
Proof.
  intros Hempty.
  destruct (setup_ui_run env st)
    as (titles & pairs & default_entry & final & Hg & Hu & _ & Hrun & Hlist & Hin1 & Hin2
        & _).
  exists titles, pairs. rewrite Hrun. cbn [snd].
  split; [apply Hg|]. split; [by apply Hu|].
  rewrite Hempty in Hlist. cbn [app] in Hlist. split.
  - intros j b n Hj Hstrip Hc.
    exists j, (make_item default_entry (Linux.uefi_display n b) b).
    split; [done|]. split.
    + cbn [list_widget with_selection]. rewrite Hlist.
      rewrite lookup_app_l by (rewrite length_map; by eapply lookup_lt_Some).
      rewrite list_lookup_fmap, Hj. reflexivity.
    + cbn [entry_map with_selection].
      unfold Linux.uefi_display in *. rewrite <- !string_app_assoc in *.
      apply make_item_resolves; [done|done|].
      rewrite !string_app_assoc. apply Hin1. by eapply list_elem_of_lookup_2.
  - intros i t Hi Hstrip Hc.
    exists (length pairs + i), (make_item default_entry (Linux.grub_display t i) (Py.str i)).
    split; [done|]. split.
    + cbn [list_widget with_selection]. rewrite Hlist.
      rewrite lookup_app_r by (rewrite length_map; lia).
      rewrite length_map. replace (length pairs + i - length pairs) with i by lia.
      rewrite lookup_zip_with, lookup_seq_lt by (by eapply lookup_lt_Some).
      simpl. by rewrite Hi.
    + cbn [entry_map with_selection].
      unfold Linux.grub_display in *. rewrite <- !string_app_assoc in *.
      apply make_item_resolves; [done|done|].
      rewrite !string_app_assoc. by apply Hin2.
Qed.

Lemma selection_resolves_to_entry_witness :
  selected (with_selection (Some 1) (Linux.setup_ui env_dual_boot (fresh [] [])).2) "0001"
  ∧ selected (with_selection (Some 2) (Linux.setup_ui env_dual_boot (fresh [] [])).2) "0".
Proof.
  destruct (selection_resolves_to_entry env_dual_boot (fresh [] []) eq_refl)
    as (titles & pairs & Hg & Hu & Huefi & Hgrub).
  injection Hg as <-. injection Hu as <-. split.
  - apply (Huefi 1 "0001" "ubuntu"); reflexivity.
  - apply (Hgrub 0 "Ubuntu"); reflexivity.
Defined.

(** ** The inventory of the Windows [setup_ui] *)

Lemma bcd_display_inj name1 name2 i j :
  Windows.bcd_display name1 i = Windows.bcd_display name2 j → i = j.
Proof.
  unfold Windows.bcd_display. intros H.
  apply (f_equal String.list_ascii_of_string) in H.
  rewrite !list_ascii_app in H.
  change (String.list_ascii_of_string ")") with [")"%char] in H.
  change (String.list_ascii_of_string " (Boot")
    with (String.list_ascii_of_string " (Boo" ++ ["t"%char]) in H.
  rewrite !app_assoc in H. apply app_inj_tail in H as [H _].
  apply str_inj, list_ascii_inj.
  eapply (digit_suffix_unique "t"); [reflexivity| | |exact H];
    apply all_digits_Forall, str_all_digits.
Qed.

(** The loop over [enumerate(boot_entries)], started at any ordinal [k]:
    each display of the loop is bound to the description it was made of. *)
Lemma add_bcd_loop (names : list string) :
  ∀ (k : nat) (m : gmap string string) (all : list string),
    let result := foldl Windows.add_bcd (m, all) (zip (seq k (length names)) names) in
    result.2 = all ++ zip_with (fun i n => Windows.bcd_display n i)
                               (seq k (length names)) names
    ∧ (∀ j n, names !! j = Some n →
         result.1 !! Windows.bcd_display n (k + j) = Some n)
    ∧ (∀ d, (∀ j n, names !! j = Some n → d ≠ Windows.bcd_display n (k + j)) →
         result.1 !! d = m !! d).
Proof.
  induction names as [|n0 names IH]; intros k m all.
  - simpl. split; [by rewrite app_nil_r|]. split; [intros j t [=]|done].
  - rewrite enumerate_from_cons. cbn [foldl zip_with seq length].
    unfold Windows.add_bcd at 2. cbn [fst snd].
    destruct (IH (S k) (<[Windows.bcd_display n0 k := n0]> m)
                 (all ++ [Windows.bcd_display n0 k])) as (Hall & Hin & Hout).
    cbv zeta. split; [|split].
    + rewrite Hall. by rewrite <- app_assoc.
    + intros [|j] n Hn; simpl in Hn.
      * injection Hn as <-. rewrite Nat.add_0_r. rewrite Hout.
        -- apply lookup_insert_eq.
        -- intros j n Hn Heq. apply bcd_display_inj in Heq. lia.
      * replace (k + S j) with (S k + j) by lia. by apply Hin.
    + intros d Hd. rewrite Hout.
      * apply lookup_insert_ne. intros Heq. apply (Hd 0 n0); [done|].
        by rewrite Nat.add_0_r.
      * intros j n Hn. replace (S k + j) with (k + S j) by lia. by apply Hd.
Qed.

Lemma bcd_items default_entry (m : gmap string string) (names : list string) :
  ∀ k,
    (∀ j n, names !! j = Some n → m !! Windows.bcd_display n (k + j) = Some n) →
    map (item_of default_entry m)
        (zip_with (fun i n => Windows.bcd_display n i) (seq k (length names)) names)
    = zip_with (fun i n => make_item default_entry (Windows.bcd_display n i) n)
               (seq k (length names)) names.
Proof.
  induction names as [|n names IH]; intros k Hin; [done|].
  cbn [length seq zip_with map]. f_equal.
  - specialize (Hin 0 n eq_refl). rewrite Nat.add_0_r in Hin.
    unfold item_of. by rewrite Hin.
  - apply IH. intros j n' Hn'. replace (S k + j) with (k + S j) by lia. by apply Hin.
Qed.

Lemma get_bcd_entries_shape env st :
  ∃ names msgs,
    Windows.get_bcd_entries env st
    = (Ret names, with_logged (logged st ++ msgs)
                    (with_spawned (spawned st ++ [bcd_listing]) st))
    ∧ ∀ st', spawned st' = spawned st →
             (Windows.get_bcd_entries env st').1 = Ret names.
Proof.
  rewrite get_bcd_entries_run. cbv zeta.
  destruct (run_process env (spawned st) bcd_listing) as [p|e] eqn:Hrun.
  - eexists _, [_]. split; [reflexivity|].
    intros st' Hsp. rewrite get_bcd_entries_run. cbv zeta. by rewrite Hsp, Hrun.
  - eexists [], [_]. split; [reflexivity|].
    intros st' Hsp. rewrite get_bcd_entries_run. cbv zeta. by rewrite Hsp, Hrun.
Qed.

Lemma windows_get_default_entry_run env st :
  ∃ default_entry msgs,
    Windows.get_default_entry env st
    = (Ret default_entry,
       with_logged (logged st ++ msgs)
         (with_spawned (spawned st ++ [bcd_listing]) st))
    ∧ ∀ st', spawned st' = spawned st →
             (Windows.get_default_entry env st').1 = Ret default_entry.
Proof.
  unfold Windows.get_default_entry, Windows.BCDEDIT_CMD, try_except, subprocess_run.
  unfold mbind, M_bind. fold bcd_listing.
  destruct (run_process env (spawned st) bcd_listing) as [p|e] eqn:Hrun.
  - eexists _, []. split.
    + unfold mret, M_ret. f_equal. symmetry.
      exact (with_logged_nil (with_spawned (spawned st ++ [bcd_listing]) st)).
    + intros st' Hsp. rewrite Hsp, Hrun. reflexivity.
  - eexists None, [_]. split; [reflexivity|].
    intros st' Hsp. rewrite Hsp, Hrun. reflexivity.
Qed.

(** What the Windows [setup_ui] does, in full. *)
Lemma windows_setup_ui_run env st :
  ∃ names default_entry final,
    (∀ st', spawned st' = spawned st →
            (Windows.get_bcd_entries env st').1 = Ret names)
    ∧ (∀ st', spawned st' = spawned st ++ [bcd_listing] →
              (Windows.get_default_entry env st').1 = Ret default_entry)
    ∧ Windows.setup_ui env st = (Ret tt, final)
    ∧ list_widget final
      = list_widget st
        ++ zip_with (fun i n => make_item default_entry (Windows.bcd_display n i) n)
                    (seq 0 (length names)) names
    ∧ (∀ i n, names !! i = Some n →
         entry_map final !! Windows.bcd_display n i = Some n)
    ∧ spawned final = spawned st ++ [bcd_listing; bcd_listing]
    ∧ shown final = shown st
    ∧ sudo_password final = sudo_password st.
Proof.
  destruct (get_bcd_entries_shape env st) as (names & msgs1 & Hbcd & Hbcd_any).
  set (st1 := with_logged (logged st ++ msgs1)
                (with_spawned (spawned st ++ [bcd_listing]) st)) in Hbcd.
  destruct (add_bcd_loop names 0 (entry_map st1) []) as (Hall & Hin & _).
  cbv zeta in Hall, Hin.
  destruct (Windows.collect (entry_map st1) names) as [m all] eqn:Hcollect.
  unfold Windows.collect, Linux.enumerate in Hcollect. rewrite Hcollect in Hall, Hin.
  cbn [fst snd app] in Hall, Hin.
  set (st2 := with_entry_map m st1).
  destruct (windows_get_default_entry_run env st2)
    as (default_entry & msgs2 & Hdef & Hdef_any).
  set (st3 := with_logged (logged st2 ++ msgs2)
                (with_spawned (spawned st2 ++ [bcd_listing]) st2)) in Hdef.
  assert (Hkeys : Forall (fun d => is_Some (entry_map st3 !! d)) all).
  { rewrite Hall. apply Forall_forall; intros d Hd.
    apply elem_of_lookup_zip_with in Hd as (j & i & n & -> & Hi & Hn).
    apply lookup_seq in Hi as [-> _]. cbn [Nat.add].
    change (entry_map st3) with m. exists n. exact (Hin j n Hn). }
  exists names, default_entry.
  eexists. split; [exact Hbcd_any|].
  split; [intros st' Hsp; apply Hdef_any; by rewrite Hsp|].
  split.
  { unfold Windows.setup_ui. step. rewrite Hbcd. step.
    unfold get. cbv beta iota. unfold Windows.collect, Linux.enumerate.
    rewrite Hcollect. step. unfold modify at 1.
    cbv beta iota. fold st2. step. rewrite Hdef.
    apply (add_items_run default_entry all st3 Hkeys). }
  cbn [list_widget entry_map spawned shown sudo_password selection
       with_list_widget].
  split.
  { change (entry_map st3) with m. change (list_widget st3) with (list_widget st).
    rewrite Hall. rewrite (bcd_items default_entry m names 0); [reflexivity|].
    intros j n Hn. by apply Hin. }
  split; [exact Hin|].
  simpl. by rewrite <- app_assoc.
Qed.

(** X18. The Windows [setup_ui] never raises, shows no dialog and starts
    [bcdedit] twice, unprivileged.  It appends one list item for each
    description that the BCD adapter returns, in order; the id kept for an
    item is the description itself, so that an item carries the default
    mark exactly when the text that the default resolver returns equals
    its description. *)
Theorem windows_setup_ui_builds_inventory (env : Env) (st : State) :
  ∃ names default_entry,
    (Windows.get_bcd_entries env st).1 = Ret names
    ∧ (Windows.get_default_entry env
         (with_spawned (spawned st ++ [bcd_listing]) st)).1 = Ret default_entry
    ∧ (Windows.setup_ui env st).1 = Ret tt
    ∧ list_widget (Windows.setup_ui env st).2
      = list_widget st
        ++ zip_with (fun i n => make_item default_entry (Windows.bcd_display n i) n)
                    (seq 0 (length names)) names
    ∧ (∀ i n, names !! i = Some n →
         entry_map (Windows.setup_ui env st).2 !! Windows.bcd_display n i = Some n)
    ∧ spawned (Windows.setup_ui env st).2 = spawned st ++ [bcd_listing; bcd_listing]
    ∧ shown (Windows.setup_ui env st).2 = shown st
    ∧ sudo_password (Windows.setup_ui env st).2 = sudo_password st.
Proof.
  destruct (windows_setup_ui_run env st)
    as (names & default_entry & final & Hb & Hd & Hrun & Hlist & Hin & Hsp & Hsh & Hpw).
  exists names, default_entry. rewrite Hrun.
  split; [by apply Hb|]. split; [by apply Hd|]. done.
Qed.

(** X19. On Windows the id of a selected item is the description of its
    entry, not an identifier of the boot store: after [setup_ui] on the
    empty list, selecting the [i]-th item gives back the [i]-th description
    of the BCD adapter, whether the item carries the default mark or not,
    provided that its display text has no surrounding white space and does
    not hold the text of the mark itself. *)
Theorem windows_selection_is_description (env : Env) (st : State) :
  list_widget st = [] →
  ∃ names,
    (Windows.get_bcd_entries env st).1 = Ret names
    ∧ ∀ i n,
        names !! i = Some n →
        Py.strip (Windows.bcd_display n i) = Windows.bcd_display n i →
        Py.contains Linux.default_mark (Windows.bcd_display n i) = false →
        selected (with_selection (Some i) (Windows.setup_ui env st).2) n.
Proof.
  intros Hempty.
  destruct (windows_setup_ui_run env st)
    as (names & default_entry & final & Hb & _ & Hrun & Hlist & Hin & _).
  exists names. rewrite Hrun. cbn [snd]. split; [by apply Hb|].
  rewrite Hempty in Hlist. cbn [app] in Hlist.
  intros i n Hi Hstrip Hc.
  exists i, (make_item default_entry (Windows.bcd_display n i) n).
  split; [done|]. split.
  - cbn [list_widget with_selection]. rewrite Hlist.
    rewrite lookup_zip_with, lookup_seq_lt by (by eapply lookup_lt_Some).
    simpl. by rewrite Hi.
  - cbn [entry_map with_selection].
    unfold Windows.bcd_display in *. rewrite <- !string_app_assoc in *.
    apply make_item_resolves; [done|done|].
    rewrite !string_app_assoc. by apply Hin.
Qed.

Lemma windows_selection_is_description_witness :
  selected (with_selection (Some 1) (Windows.setup_ui env_bcd_colons (fresh [] [])).2)
           "Windows 11".
Proof.
  destruct (windows_selection_is_description env_bcd_colons (fresh [] []) eq_refl)
    as (names & Hnames & Hsel).
  injection Hnames as <-.
  apply (Hsel 1 "Windows 11"); reflexivity.
Defined.
(** * The operations and the adapters, end to end *)

(** ** SetDefault on a UEFI entry with a decimal boot number *)

(** C3 (the code departs from the claim).  After [setup_ui], let the
    [j]-th UEFI entry, of boot number [b], be selected, with a credential
    cached.  When [b] holds decimal digits only, as [0000] or [0001] do,
    [set_default_os] takes the branch commented [# GRUB]: the only process
    it starts is [grub-set-default b] through [sudo].  The boot order of
    the firmware is neither read nor written, whatever it is: the entry is
    not moved to the front, and a success of [grub-set-default] is reported
    as "Set GRUB entry #b as default.". *)
Theorem set_default_os_keeps_boot_order_for_decimal_id
    (env : Env) (st : State) (pairs : list (string * string)) (j : nat)
    (b n password : string) :
  list_widget st = [] →
  sudo_password st = Some password → password ≠ "" →
  (Linux.get_uefi_entries env st).1 = Ret pairs →
  pairs !! j = Some (b, n) →
  Py.isdigit b = true →
  Py.strip (Linux.uefi_display n b) = Linux.uefi_display n b →
  Py.contains Linux.default_mark (Linux.uefi_display n b) = false →
  let st1 := with_selection (Some j) (Linux.setup_ui env st).2 in
  let c := sudo_call ["grub-set-default"; b] password in
  selected st1 b
  ∧ spawned (Linux.set_default_os env st1).2 = spawned st1 ++ [c]
  ∧ (succeeded env (spawned st1) c →
     shown (Linux.set_default_os env st1).2
     = shown st1 ++ [Information "Success" ("Set GRUB entry #" +:+ b +:+ " as default.")]).
Proof.
  intros Hempty Hcached Hpw Hpairs Hj Hdig Hstrip Hc st1 c.
  assert (Hne := isdigit_nonempty _ Hdig).
  assert (Hsel : selected st1 b).
  { subst st1.
    destruct (setup_ui_run env st)
      as (titles & pairs' & default_entry & final & _ & Hu & _ & Hrun & Hlist & Hin1 & _).
    rewrite (Hu st eq_refl) in Hpairs. injection Hpairs as ->.
    rewrite Hrun. cbn [snd]. rewrite Hempty in Hlist. cbn [app] in Hlist.
    exists j, (make_item default_entry (Linux.uefi_display n b) b).
    split; [done|]. split.
    - cbn [list_widget with_selection]. rewrite Hlist.
      rewrite lookup_app_l by (rewrite length_map; by eapply lookup_lt_Some).
      rewrite list_lookup_fmap, Hj. reflexivity.
    - cbn [entry_map with_selection].
      unfold Linux.uefi_display in *. rewrite <- !string_app_assoc in *.
      apply make_item_resolves; [done|done|].
      rewrite !string_app_assoc. apply Hin1. by eapply list_elem_of_lookup_2. }
  assert (Hcached1 : sudo_password st1 = Some password).
  { subst st1.
    destruct (setup_ui_run env st)
      as (? & ? & ? & final & _ & _ & _ & Hrun & _ & _ & _ & _ & _ & Hsame & _).
    rewrite Hrun. cbn [snd with_selection sudo_password]. by rewrite Hsame. }
  assert (Hfinal : Linux.set_default_os env st1 =
    ('(success, err) ← Linux.run_sudo_command env ["grub-set-default"; b] password;
     if success : bool then
       show (Information "Success" ("Set GRUB entry #" +:+ b +:+ " as default."))
     else
       show (Critical "Error"
               ("Failed to set GRUB default." +:+ nl +:+ default "None" err))) st1).
  { unfold Linux.set_default_os. step.
    rewrite (get_selected_index_selected _ _ Hsel), (given_Some _ Hne). step.
    rewrite (prompt_for_password_cached _ _ _ Hcached1 Hpw), (given_Some _ Hpw), Hdig.
    reflexivity. }
  split; [exact Hsel|]. rewrite Hfinal. unfold mbind, M_bind.
  rewrite linux_run_sudo_command_run. fold c. split.
  - destruct (classify_cases ["grub-set-default"; b] c st1
                (run_process env (spawned st1) c))
      as [(msgs & -> & _)|[(msgs & err & -> & _)|(e & -> & _)]]; reflexivity.
  - intros (p & Hp & Hrc). rewrite Hp. unfold classify. rewrite Hrc. done.
Qed.

Lemma set_default_os_keeps_boot_order_for_decimal_id_witness :
  let env := env_dual_boot in
  let st1 := with_selection (Some 0)
               (Linux.setup_ui env (with_sudo_password (Some "secret") (fresh [] []))).2 in
  selected st1 "0000"
  ∧ spawned (Linux.set_default_os env st1).2
    = [uefi_listing; grub_editenv_listing;
       sudo_call ["grub-set-default"; "0000"] "secret"]
  ∧ shown (Linux.set_default_os env st1).2
    = [Information "Success" "Set GRUB entry #0000 as default."].
Proof.
  intros env st1.
  assert (Hpw : "secret" ≠ "") by discriminate.
  destruct (set_default_os_keeps_boot_order_for_decimal_id
              env (with_sudo_password (Some "secret") (fresh [] []))
              [("0000", "Windows Boot Manager"); ("0001", "ubuntu")] 0
              "0000" "Windows Boot Manager" "secret"
              eq_refl eq_refl Hpw eq_refl eq_refl eq_refl eq_refl eq_refl)
    as (H1 & H2 & H3).
  split; [exact H1|]. split; [exact H2|].
  apply H3. eexists. split; reflexivity.
Defined.

(** ** The adapters, in full *)

Lemma split_from_not_nil sep cur s : Py.split_from sep cur s ≠ [].
Proof.
  revert cur. induction s as [|c s IH]; intros cur; simpl; [done|].
  destruct (Ascii.eqb c sep); [done|apply IH].
Qed.

Lemma split_from_two sep cur s :
  ¬ char_free sep s → ∃ a b rest, Py.split_from sep cur s = a :: b :: rest.
Proof.
  revert cur. induction s as [|c s IH]; intros cur Hfree; simpl in *; [by destruct Hfree|].
  destruct (Ascii.eqb c sep) eqn:Hc.
  - destruct (Py.split_from sep "" s) as [|b rest] eqn:Hs.
    + by destruct (split_from_not_nil sep "" s).
    + by exists cur, b, rest.
  - apply IH. intros Hs. apply Hfree. split; [|done].
    intros ->. by rewrite Ascii.eqb_refl in Hc.
Qed.

Lemma char_free_or_not c s : char_free c s ∨ ¬ char_free c s.
Proof.
  induction s as [|a s IH]; simpl; [by left|].
  destruct (decide (a = c)) as [->|Hne]; [right; by intros [? _]|].
  destruct IH as [IH|IH]; [by left|right; by intros [_ ?]].
Qed.

Lemma description_field line :
  match Py.split ":" (Py.strip line) with
  | _ :: _ :: _ => ¬ char_free ":" (Py.strip line)
  | _ => char_free ":" (Py.strip line)
  end.
Proof.
  destruct (char_free_or_not ":" (Py.strip line)) as [Hfree|Hfree].
  - unfold Py.split. by rewrite split_from_free.
  - destruct (split_from_two ":" "" (Py.strip line) Hfree) as (a & b & rest & Hs).
    unfold Py.split. by rewrite Hs.
Qed.

Lemma grub_titles_empty lines :
  Linux.grub_titles lines = []
  ↔ Forall (fun line => ∀ title, ¬ menuentry_match line title) lines.
Proof.
  induction lines as [|line lines IH]; [by split; [constructor|]|].
  rewrite grub_titles_cons, Forall_cons.
  destruct (Linux.search_menuentry line) as [t|] eqn:Hs.
  - split; [discriminate|]. intros [Hline _].
    destruct (Hline t). by apply search_menuentry_Some.
  - rewrite IH. split; [|by intros [_ ?]].
    intros Hrest. split; [by apply search_menuentry_None|done].
Qed.

Lemma uefi_pairs_empty lines :
  Linux.uefi_pairs lines = []
  ↔ Forall (fun line => Linux.search_boot line = None) lines.
Proof.
  induction lines as [|line lines IH]; [by split; [constructor|]|].
  rewrite Forall_cons. unfold Linux.uefi_pairs. cbn [foldl].
  destruct (Linux.search_boot line) as [[b g]|] eqn:Hs.
  - cbn [app]. rewrite uefi_pairs_acc. split; [discriminate|by intros [? _]].
  - fold (Linux.uefi_pairs lines). rewrite IH. split; [done|by intros [_ ?]].
Qed.

Lemma bcd_names_empty lines :
  Windows.bcd_names lines = [] ↔ Forall (fun line => ¬ has_description line) lines.
Proof.
  induction lines as [|line lines IH]; [by split; [constructor|]|].
  rewrite Forall_cons. unfold Windows.bcd_names, has_description. cbn [foldl].
  pose proof (description_field line) as Hfield.
  destruct (Py.contains "description" (Py.lower line)) eqn:Hd.
  - destruct (Py.split ":" (Py.strip line)) as [|? [|field ?]].
    + fold (Windows.bcd_names lines). rewrite IH.
      split; [|by intros [_ ?]]. intros Hrest. split; [|done]. by intros [_ Hc].
    + fold (Windows.bcd_names lines). rewrite IH.
      split; [|by intros [_ ?]]. intros Hrest. split; [|done]. by intros [_ Hc].
    + cbn [app]. rewrite bcd_names_acc. split; [discriminate|].
      intros [Hline _]. by destruct Hline.
  - fold (Windows.bcd_names lines). rewrite IH.
    split; [|by intros [_ ?]]. intros Hrest. split; [|done]. by intros [[=] _].
Qed.

(** C9, amended.  Each of the three adapters returns a list, never raises,
    shows no dialog and leaves one record in the log, its only trace
    besides the process it started.  The list is empty when the
    configuration file cannot be opened and when the tool cannot be
    started.  Otherwise it is what the loop finds in the text at hand: the
    lines of the file delivered before its end or before a failing read,
    or the standard output of the tool, whatever its exit status, which
    is not examined; and that list is empty exactly when no line of the
    text matches. *)
Theorem adapters_never_raise (env : Env) (st : State) :
  (∃ titles record,
     Linux.get_grub_entries env st
     = (Ret titles, with_logged (logged st ++ [record]) st)
     ∧ match open_text env Linux.GRUB_CFG_PATH with
       | OpenFails e =>
           titles = [] ∧ record = (ERROR, "Error reading grub.cfg: " +:+ exn_str e)
       | Opened text broken =>
           titles = Linux.grub_titles (Py.file_lines text)
           ∧ (titles = []
              ↔ Forall (fun line => ∀ title, ¬ menuentry_match line title)
                       (Py.file_lines text))
           ∧ match broken with
             | None => record.1 = INFO
             | Some e => record = (ERROR, "Error reading grub.cfg: " +:+ exn_str e)
             end
       end)
  ∧ (∃ pairs record,
       Linux.get_uefi_entries env st
       = (Ret pairs, with_logged (logged st ++ [record])
                       (with_spawned (spawned st ++ [uefi_listing]) st))
       ∧ match run_process env (spawned st) uefi_listing with
         | Failed e => pairs = [] ∧ record.1 = ERROR
         | Completed p =>
             pairs = Linux.uefi_pairs (Py.splitlines (stdout p))
             ∧ (pairs = []
                ↔ Forall (fun line => Linux.search_boot line = None)
                         (Py.splitlines (stdout p)))
             ∧ record.1 = INFO
         end)
  ∧ (∃ names record,
       Windows.get_bcd_entries env st
       = (Ret names, with_logged (logged st ++ [record])
                       (with_spawned (spawned st ++ [bcd_listing]) st))
       ∧ match run_process env (spawned st) bcd_listing with
         | Failed e =>
             names = []
             ∧ record = (ERROR, "Error reading BCDEDIT entries: " +:+ exn_str e)
         | Completed p =>
             names = Windows.bcd_names (Py.splitlines (stdout p))
             ∧ (names = []
                ↔ Forall (fun line => ¬ has_description line)
                         (Py.splitlines (stdout p)))
             ∧ record.1 = INFO
         end).
Proof.
  split; [|split].
  - unfold Linux.get_grub_entries.
    destruct (open_text env Linux.GRUB_CFG_PATH) as [e|text [e|]].
    + eexists [], _. split; [reflexivity|done].
    + eexists _, _. split; [reflexivity|].
      split; [done|]. split; [apply grub_titles_empty|done].
    + eexists _, _. split; [reflexivity|].
      split; [done|]. split; [apply grub_titles_empty|done].
  - rewrite get_uefi_entries_run. cbv zeta.
    destruct (run_process env (spawned st) uefi_listing) as [p|e].
    + eexists _, _. split; [reflexivity|].
      split; [done|]. split; [apply uefi_pairs_empty|done].
    + eexists [], _. split; [reflexivity|]. split; [done|].
      by destruct (exn_cls e).
  - rewrite get_bcd_entries_run. cbv zeta.
    destruct (run_process env (spawned st) bcd_listing) as [p|e].
    + eexists _, _. split; [reflexivity|].
      split; [done|]. split; [apply bcd_names_empty|done].
    + eexists [], _. split; [reflexivity|]. done.
Qed.
